(** * Cararth ingestion worker: a shallow embedding of [worker.py]

    The development follows the stages of [process_ingest_batch]:
    the Normalizer ([normalize_item]), the provider calls
    ([call_gemini_batch], [call_anthropic_validation],
    [call_perplexity_check], [call_gpt5_finalize], [get_embedding]),
    the store helpers ([save_cached_listing], [save_embedding]), the image
    helpers and the per-listing loop, and the similarity scan
    ([find_similar_by_embedding]).

    Conventions.
    - Python [float]s are modelled by exact numbers; rounding is not
      modelled.  Confidences, trust scores, dollar amounts and
      embeddings are rationals [Q].  The cosine similarity takes square
      roots: module [Dedup] computes it over the reals as the source
      does, and the loop decides the same comparison on rationals
      ([is_similar_agrees]).
    - Python [str] is a list of Unicode code points.  The two Unicode
      tables consulted by [str.isdigit] and [int] belong to the Python
      runtime; they are parameters of the development.
    - Every remote call (providers, image host, object storage) is
      answered by an [oracle]: the reply the outside world gave for that
      listing.  A call that raised inside a [try] block is the reply
      [None], as the [except] clause makes it.  The store is part of
      the state and answers every query.
    - Replies and raw items are typed.  A ["trust_score"] that a reply
      carries is a number, and the ["extracted"] entry of a raw item is
      a field map: on a reply whose trust score is null or a string the
      loop raises [TypeError] at its first comparison, and on a raw item
      whose ["extracted"] is null [normalize_item] raises
      [AttributeError]; either ends the batch.  Such inputs are not in
      the model, and what is proved of a run of the loop is proved of
      the runs without them.
    - Module [FloatDedup] gives the similarity scan on binary64
      numbers, for the claims that depend on rounding; the loop compares
      exactly. *)

From Stdlib Require Import ZArith NArith QArith Qround Qminmax Qabs.
From Stdlib Require Import List Bool Lia Lqa Permutation.
From Stdlib Require Reals Lra Qreals.
From Stdlib Require DecimalPos PrimFloat.
Import ListNotations.

Set Implicit Arguments.

(** ** Numbers *)

Definition Qltb (x y : Q) : bool := negb (Qle_bool y x).
Definition Qgeb (x y : Q) : bool := Qle_bool y x.
Definition Qof_N (n : N) : Q := inject_Z (Z.of_N n).

(** [int(x)] on a float: truncation towards zero. *)
Definition py_int_of_float (x : Q) : Z := Z.quot (Qnum x) (Zpos (Qden x)).

(** [max(0.0, min(1.0, x))] *)
Definition clamp01 (x : Q) : Q := Qmax 0 (Qmin 1 x).

(** ** Python strings and scalar values *)

Definition codepoint := N.
Definition ustring := list codepoint.

Fixpoint ustring_eqb (a b : ustring) : bool :=
  match a, b with
  | [], [] => true
  | x :: a', y :: b' => N.eqb x y && ustring_eqb a' b'
  | _, _ => false
  end.

Definition is_empty {A} (l : list A) : bool :=
  match l with [] => true | _ => false end.

(** A JSON scalar as it sits in a scraped field map. *)
Inductive scalar :=
| SNone
| SStr (s : ustring)
| SInt (z : Z).

(** Truth value of a scalar: [None], [""] and [0] are false. *)
Definition truthy (v : scalar) : bool :=
  match v with
  | SNone => false
  | SStr s => negb (is_empty s)
  | SInt z => negb (Z.eqb z 0)
  end.

(** [a or b] *)
Definition py_or (a b : scalar) : scalar := if truthy a then a else b.

Fixpoint uint_codepoints (d : Decimal.uint) : ustring :=
  match d with
  | Decimal.Nil => []
  | Decimal.D0 d => 48%N :: uint_codepoints d
  | Decimal.D1 d => 49%N :: uint_codepoints d
  | Decimal.D2 d => 50%N :: uint_codepoints d
  | Decimal.D3 d => 51%N :: uint_codepoints d
  | Decimal.D4 d => 52%N :: uint_codepoints d
  | Decimal.D5 d => 53%N :: uint_codepoints d
  | Decimal.D6 d => 54%N :: uint_codepoints d
  | Decimal.D7 d => 55%N :: uint_codepoints d
  | Decimal.D8 d => 56%N :: uint_codepoints d
  | Decimal.D9 d => 57%N :: uint_codepoints d
  end.

(** [str(v)] *)
Definition py_str (v : scalar) : ustring :=
  match v with
  | SNone => [78; 111; 110; 101]%N
  | SStr s => s
  | SInt Z0 => [48%N]
  | SInt (Zpos p) => uint_codepoints (Pos.to_uint p)
  | SInt (Zneg p) => 45%N :: uint_codepoints (Pos.to_uint p)
  end.

(** [" ".join(l)] *)
Fixpoint join_space (l : list ustring) : ustring :=
  match l with
  | [] => []
  | [s] => s
  | s :: r => s ++ 32%N :: join_space r
  end.

(** ** Records of the pipeline *)

(** The field map under the ["extracted"] key; only the keys that
    [normalize_item] reads.  An absent key is [SNone]; an absent image
    list is the empty list (both are false for [or]). *)
Record extracted := {
  ex_title : scalar;
  ex_name : scalar;
  ex_price : scalar;
  ex_price_inr : scalar;
  ex_make : scalar;
  ex_brand : scalar;
  ex_model : scalar;
  ex_year : scalar;
  ex_mileage : scalar;
  ex_city : scalar;
  ex_images : list ustring;
  ex_contact : scalar
}.

Record raw_item := {
  source : ustring;
  source_id : ustring;
  raw_html : ustring;
  extracted_fields : extracted;
  raw_title : scalar;
  raw_price : scalar;
  raw_city : scalar;
  raw_images : list ustring;
  raw_contact : scalar
}.

Record normalized := {
  n_title : scalar;
  n_price : option N;
  n_make : scalar;
  n_model : scalar;
  n_year : scalar;
  n_mileage : scalar;
  n_city : scalar;
  n_images : list ustring;
  n_contact : scalar
}.

Definition images_or (a b : list ustring) : list ustring :=
  if is_empty a then b else a.

(** ** Normalizer *)

(** [sys.int_max_str_digits] at its default.  Since CPython 3.11 (and
    the security releases of 3.7 to 3.10) [int] raises [ValueError] on
    a string of more digits, and [str] on an integer of more digits;
    in [normalize_item] both calls sit in the same [try]. *)
Definition int_max_str_digits : N := 4300.

Section Normalizer.

(** [ch.isdigit()] *)
Variable str_isdigit : codepoint -> bool.
(** The value [int] gives to a decimal digit character; [None] for a
    character [int] rejects. *)
Variable decimal_value : codepoint -> option N.

Fixpoint int_digits (acc : N) (s : ustring) : option N :=
  match s with
  | [] => Some acc
  | c :: s' =>
      match decimal_value c with
      | Some d => int_digits (10 * acc + d) s'
      | None => None
      end
  end.

(** [int(s)] for a string [s] of characters that pass [isdigit]:
    [ValueError] ([None]) on the empty string, on more than
    [int_max_str_digits] digits, and on a character without a decimal
    value. *)
Definition py_int (s : ustring) : option N :=
  match s with
  | [] => None
  | _ =>
      if (int_max_str_digits <? N.of_nat (length s))%N then None
      else int_digits 0 s
  end.

(** [ex.get("price") or ex.get("price_inr") or raw_item.get("price")] *)
Definition raw_price_value (raw : raw_item) : scalar :=
  let ex := extracted_fields raw in
  py_or (py_or (ex_price ex) (ex_price_inr ex)) (raw_price raw).

Definition normalize_item (raw : raw_item) : normalized * Q :=
  let confidence := 0.9%Q in
  let ex := extracted_fields raw in
  let title := py_or (py_or (ex_title ex) (raw_title raw)) (ex_name ex) in
  let price := raw_price_value raw in
  let '(p, confidence) :=
    match price with
    | SNone => (None, confidence - 0.4)%Q
    | _ =>
        match py_int (filter str_isdigit (py_str price)) with
        | Some p => (Some p, confidence)
        | None => (None, confidence - 0.4)%Q
        end
    end in
  let images := images_or (images_or (ex_images ex) (raw_images raw)) [] in
  let contact := py_or (ex_contact ex) (raw_contact raw) in
  let confidence := if is_empty images then (confidence - 0.3)%Q else confidence in
  let confidence := if negb (truthy contact) then (confidence - 0.2)%Q else confidence in
  let confidence := clamp01 confidence in
  ({| n_title := title;
      n_price := p;
      n_make := py_or (ex_make ex) (ex_brand ex);
      n_model := ex_model ex;
      n_year := ex_year ex;
      n_mileage := ex_mileage ex;
      n_city := py_or (ex_city ex) (raw_city raw);
      n_images := images;
      n_contact := contact |},
   confidence).

(** *** Vocabulary of the properties *)

(** The digit characters' values, when [int] accepts all of them. *)
Fixpoint digit_values (s : ustring) : option (list N) :=
  match s with
  | [] => Some []
  | c :: s' =>
      match decimal_value c, digit_values s' with
      | Some d, Some ds => Some (d :: ds)
      | _, _ => None
      end
  end.

(** The number a row of decimal digits denotes, most significant first. *)
Fixpoint positional (ds : list N) : N :=
  match ds with
  | [] => 0
  | d :: r => d * 10 ^ N.of_nat (length r) + positional r
  end.

(** The price a raw item offers: the extracted ["price"] when it is
    truthy, else the extracted ["price_inr"] when it is truthy, else
    what the item itself holds under ["price"].  An extracted price of
    [0] or [""] is passed over. *)
Definition offered_price (raw : raw_item) : scalar :=
  if truthy (ex_price (extracted_fields raw)) then ex_price (extracted_fields raw)
  else if truthy (ex_price_inr (extracted_fields raw))
       then ex_price_inr (extracted_fields raw)
       else raw_price raw.

(** The digits left of a price once every other character is dropped. *)
Definition price_digits (v : scalar) : ustring := filter str_isdigit (py_str v).

(** The number the digits of the offered price denote; none when no
    price is offered, no digit is left, more than
    [int_max_str_digits] are left, or one of them has no decimal
    value. *)
Definition stated_price (raw : raw_item) : option N :=
  match offered_price raw with
  | SNone => None
  | v =>
      if (int_max_str_digits <? N.of_nat (length (price_digits v)))%N then None
      else match digit_values (price_digits v) with
           | Some (d :: ds) => Some (positional (d :: ds))
           | _ => None
           end
  end.

(** No image under ["extracted"] and none on the item itself. *)
Definition images_missing (raw : raw_item) : bool :=
  is_empty (ex_images (extracted_fields raw)) && is_empty (raw_images raw).

(** No truthy contact under ["extracted"] and none on the item itself. *)
Definition contact_missing (raw : raw_item) : bool :=
  negb (truthy (ex_contact (extracted_fields raw)))
  && negb (truthy (raw_contact raw)).

(** The deductions the raw item's fields call for. *)
Definition deductions (raw : raw_item) : Q :=
  ((match stated_price raw with None => 0.4 | Some _ => 0 end)
   + (if images_missing raw then 0.3 else 0)
   + (if contact_missing raw then 0.2 else 0))%Q.

Definition missing_penalties (n : normalized) : Q :=
  ((match n_price n with None => 0.4 | Some _ => 0 end)
   + (if is_empty (n_images n) then 0.3 else 0)
   + (if truthy (n_contact n) then 0 else 0.2))%Q.

End Normalizer.

(** ** Configuration and the module's global state *)

(** The thresholds read from the environment at import time, and which
    of the provider clients [initialize_api_clients] has set. *)
Record config := {
  CONFIDENCE_THRESHOLD : Q;
  TRUST_SCORE_PUBLISH : Q;
  PRICE_ANOMALY_PCT : Q;
  DEDUPE_SIMILARITY : Q;
  GPT5_PRICE_THRESHOLD : Z;
  DAILY_GPT5_BUDGET : Q;
  DAILY_PERPLEXITY_BUDGET : Q;
  gemini_model : bool;
  anthropic_client : bool;
  openai_client : bool
}.

(** The values used when no environment variable overrides them. *)
Definition default_config (gemini anthropic openai : bool) : config :=
  {| CONFIDENCE_THRESHOLD := 0.7;
     TRUST_SCORE_PUBLISH := 0.6;
     PRICE_ANOMALY_PCT := 20;
     DEDUPE_SIMILARITY := 0.92;
     GPT5_PRICE_THRESHOLD := 300000;
     DAILY_GPT5_BUDGET := 50;
     DAILY_PERPLEXITY_BUDGET := 40;
     gemini_model := gemini;
     anthropic_client := anthropic;
     openai_client := openai |}.

(** The dictionary [model_spend]. *)
Record spend_counters := {
  gpt5 : Q;
  perplexity : Q;
  gemini : Q;
  anthropic : Q
}.

Definition initial_spend : spend_counters :=
  {| gpt5 := 0; perplexity := 0; gemini := 0; anthropic := 0 |}.

Inductive status := Sraw | Sneeds_human | Sneeds_review | Spublished.

Record price_band := {
  low : Z;
  median : Z;
  high : Z;
  band_confidence : Q
}.

Inductive summary :=
| StandardValidation
| StandardListing
| UsedSummary (make model year : scalar)
| ProviderSummary (s : ustring).

(** The dictionary a finalization yields.  [approve] is the truth value
    of the ["approve"] entry; an absent entry is [false] / [None]. *)
Record decision := {
  approve : bool;
  d_price_band : option price_band;
  d_summary : option summary;
  final_trust_score : option Q
}.

(** Modelled from the spec: the table [production_portal_listings],
    whose definition is not in the repository.  A row has the columns
    the spec lists for the listings table (source, source_id,
    normalized, raw, batch_ts, status, confidence, trust_score;
    fetched_at is a clock reading and is left out) and a primary key
    [row_id] drawn from a counter.  (source, source_id, batch_ts) is the
    upsert key. *)
Record listing_row := {
  row_id : Z;
  row_source : ustring;
  row_source_id : ustring;
  row_normalized : normalized;
  row_raw : raw_item;
  ingest_batch_ts : ustring;
  row_status : status;
  row_confidence : Q;
  row_trust_score : option Q
}.

Record canonical_data := {
  c_listing : normalized;
  c_price_band : option price_band;
  c_summary : option summary;
  cached_images : list ustring
}.

(** Modelled from the spec: a row of the published table
    [trusted_listings], whose definition is not in the repository. *)
Record trusted_row := {
  canonical : canonical_data;
  t_trust_score : Q;
  source_list : list ustring
}.

(** The functions the per-listing loop may invoke on the outside world. *)
Inductive call :=
| c_anthropic_validation
| c_perplexity_check
| c_get_embedding
| c_find_similar
| c_gpt5_finalize
| c_download_image (url : ustring)
| c_upload_to_cdn (local_path : ustring).

Record world := {
  model_spend : spend_counters;
  production_portal_listings : list listing_row;
  next_row_id : Z;
  listing_embeddings : list (Z * list Q);
  trusted_listings : list trusted_row;
  calls : list call
}.

Definition with_spend (s : spend_counters) (w : world) : world :=
  {| model_spend := s;
     production_portal_listings := production_portal_listings w;
     next_row_id := next_row_id w;
     listing_embeddings := listing_embeddings w;
     trusted_listings := trusted_listings w;
     calls := calls w |}.

Definition with_listings (rows : list listing_row) (next : Z) (w : world) : world :=
  {| model_spend := model_spend w;
     production_portal_listings := rows;
     next_row_id := next;
     listing_embeddings := listing_embeddings w;
     trusted_listings := trusted_listings w;
     calls := calls w |}.

Definition with_embeddings (e : list (Z * list Q)) (w : world) : world :=
  {| model_spend := model_spend w;
     production_portal_listings := production_portal_listings w;
     next_row_id := next_row_id w;
     listing_embeddings := e;
     trusted_listings := trusted_listings w;
     calls := calls w |}.

Definition with_trusted (t : list trusted_row) (w : world) : world :=
  {| model_spend := model_spend w;
     production_portal_listings := production_portal_listings w;
     next_row_id := next_row_id w;
     listing_embeddings := listing_embeddings w;
     trusted_listings := t;
     calls := calls w |}.

(** Record that the loop invoked [c]; newest first. *)
Definition invoke (c : call) (w : world) : world :=
  {| model_spend := model_spend w;
     production_portal_listings := production_portal_listings w;
     next_row_id := next_row_id w;
     listing_embeddings := listing_embeddings w;
     trusted_listings := trusted_listings w;
     calls := c :: calls w |}.

Definition add_gpt5 (c : Q) (s : spend_counters) : spend_counters :=
  {| gpt5 := gpt5 s + c; perplexity := perplexity s;
     gemini := gemini s; anthropic := anthropic s |}.
Definition add_perplexity (c : Q) (s : spend_counters) : spend_counters :=
  {| gpt5 := gpt5 s; perplexity := perplexity s + c;
     gemini := gemini s; anthropic := anthropic s |}.
Definition add_gemini (c : Q) (s : spend_counters) : spend_counters :=
  {| gpt5 := gpt5 s; perplexity := perplexity s;
     gemini := gemini s + c; anthropic := anthropic s |}.
Definition add_anthropic (c : Q) (s : spend_counters) : spend_counters :=
  {| gpt5 := gpt5 s; perplexity := perplexity s;
     gemini := gemini s; anthropic := anthropic s + c |}.

(** [update_daily_spend(batch_db_conn, current_date, model, cost)]: the
    global [batch_db_conn] is never assigned, so every call takes the
    [if not conn] exit and leaves the ledger table alone. *)
Definition update_daily_spend (w : world) : world := w.

(** ** The outside world's replies for one listing *)

Record oracle := {
  (** Gemini: [None] no JSON object or an error; [Some None] the empty
      object; [Some (Some f)] a field map. *)
  gemini_reply : option (option extracted);
  (** Anthropic: [None] no JSON object or an error; [Some t] an object
      whose ["trust_score"] entry is the number [t], or is absent
      ([None]).  An entry that is not a number is not modelled. *)
  anthropic_reply : option (option Q);
  (** Perplexity: status 200 with a JSON object in the answer. *)
  perplexity_reply : bool;
  (** OpenAI embeddings: the vector, or an error. *)
  embedding_reply : option (list Q);
  (** OpenAI chat: the JSON object of the answer, or none. *)
  gpt5_reply : option decision;
  (** Image host: the local file written for a URL. *)
  download_reply : ustring -> option ustring;
  (** Storage: the public URL of an uploaded file. *)
  upload_reply : ustring -> option ustring;
  (** [as_completed]: the order in which the downloads finish. *)
  completion_order : list (option ustring) -> list (option ustring)
}.

Inductive exn := TypeError.

Inductive result (A : Type) :=
| Ok (a : A)
| Raise (e : exn).
Arguments Ok {A} a.
Arguments Raise {A} e.

(** ** Provider calls *)

Definition call_anthropic_validation (cfg : config) (o : oracle) (w : world)
  : world * option Q :=
  let w := invoke c_anthropic_validation w in
  if negb (anthropic_client cfg) then (w, Some 0.8%Q)
  else
    match anthropic_reply o with
    | Some t =>
        let cost := 0.02%Q in
        let w := with_spend (add_anthropic cost (model_spend w)) w in
        (update_daily_spend w, t)
    | None => (w, Some 0.8%Q)
    end.

Definition call_perplexity_check (cfg : config) (o : oracle) (w : world)
  : world * bool :=
  let w := invoke c_perplexity_check w in
  if Qgeb (perplexity (model_spend w)) (DAILY_PERPLEXITY_BUDGET cfg) then (w, false)
  else if perplexity_reply o then
    let cost := 0.03%Q in
    let w := with_spend (add_perplexity cost (model_spend w)) w in
    (update_daily_spend w, true)
  else (w, false).

(** [{"low": int(price * 0.95), "median": price,
      "high": int(price * 1.05), "confidence": 0.7}] *)
Definition band_around (price : N) : price_band :=
  {| low := py_int_of_float (Qof_N price * 0.95);
     median := Z.of_N price;
     high := py_int_of_float (Qof_N price * 1.05);
     band_confidence := 0.7 |}.

(** [normalized.get("price", 0)] returns the stored [None] when the key
    holds it, and comparing [None] with a number raises [TypeError]. *)
Definition call_gpt5_finalize (cfg : config) (o : oracle) (n : normalized)
    (similar_list : list Z) (w : world) : world * result decision :=
  let w := invoke c_gpt5_finalize w in
  if negb (openai_client cfg) then
    match n_price n with
    | None => (w, Raise TypeError)
    | Some price =>
        (w, Ok {| approve := (0 <? price)%N;
                  d_price_band := Some (band_around price);
                  d_summary := Some StandardValidation;
                  final_trust_score := Some 0.75%Q |})
    end
  else
    match gpt5_reply o with
    | Some result =>
        let cost := 0.05%Q in
        let w := with_spend (add_gpt5 cost (model_spend w)) w in
        (update_daily_spend w, Ok result)
    | None =>
        match n_price n with
        | None => (w, Raise TypeError)
        | Some price =>
            (w, Ok {| approve := (50000 <? price)%N;
                      d_price_band := Some (band_around price);
                      d_summary := Some (UsedSummary (n_make n) (n_model n) (n_year n));
                      final_trust_score := Some 0.75%Q |})
        end
    end.

(** [[0.0] * 1536] *)
Definition zero_embedding : list Q := repeat 0%Q 1536.

Definition get_embedding (cfg : config) (o : oracle) (text : ustring) (w : world)
  : world * list Q :=
  let w := invoke c_get_embedding w in
  if negb (openai_client cfg) || is_empty text then (w, zero_embedding)
  else
    match embedding_reply o with
    | Some embedding =>
        let cost := 0.0001%Q in
        let w := with_spend (add_gpt5 cost (model_spend w)) w in
        (update_daily_spend w, embedding)
    | None => (w, zero_embedding)
    end.

(** ** Store helpers *)

Definition same_identity (src sid ts : ustring) (r : listing_row) : bool :=
  ustring_eqb (row_source r) src
  && ustring_eqb (row_source_id r) sid
  && ustring_eqb (ingest_batch_ts r) ts.

(** [DO UPDATE SET normalized=..., raw=..., confidence=...] *)
Definition overwrite (n : normalized) (raw : raw_item) (c : Q) (r : listing_row)
  : listing_row :=
  {| row_id := row_id r;
     row_source := row_source r;
     row_source_id := row_source_id r;
     row_normalized := n;
     row_raw := raw;
     ingest_batch_ts := ingest_batch_ts r;
     row_status := row_status r;
     row_confidence := c;
     row_trust_score := row_trust_score r |}.

(** The [ON CONFLICT (source, source_id, ingest_batch_ts)] arm: the id of
    the row that holds the key and the table with that row overwritten,
    or [None] when no row holds the key. *)
Fixpoint on_conflict (src sid ts : ustring) (n : normalized) (raw : raw_item)
    (c : Q) (rows : list listing_row) : option (Z * list listing_row) :=
  match rows with
  | [] => None
  | r :: rs =>
      if same_identity src sid ts r
      then Some (row_id r, overwrite n raw c r :: rs)
      else match on_conflict src sid ts n raw c rs with
           | Some (i, rs') => Some (i, r :: rs')
           | None => None
           end
  end.

Definition save_cached_listing (w : world) (raw : raw_item) (n : normalized)
    (confidence : Q) (batch_ts : ustring) : world * Z :=
  let rows := production_portal_listings w in
  match on_conflict (source raw) (source_id raw) batch_ts n raw confidence rows with
  | Some (i, rows') => (with_listings rows' (next_row_id w) w, i)
  | None =>
      let i := next_row_id w in
      let row := {| row_id := i;
                    row_source := source raw;
                    row_source_id := source_id raw;
                    row_normalized := n;
                    row_raw := raw;
                    ingest_batch_ts := batch_ts;
                    row_status := Sraw;
                    row_confidence := confidence;
                    row_trust_score := None |} in
      (with_listings (rows ++ [row]) (i + 1)%Z w, i)
  end.

Definition save_embedding (listing_id : Z) (vector : list Q) (w : world) : world :=
  with_embeddings (listing_embeddings w ++ [(listing_id, vector)]) w.

(** ** Similarity search *)

(** [sum(...)] *)
Definition py_sum (l : list Q) : Q := fold_left Qplus l 0.

(** [sum(a * b for a, b in zip(current_vector, stored_vector))] *)
Definition dot_product (a b : list Q) : Q :=
  py_sum (map (fun ab => fst ab * snd ab) (combine a b)).

(** [sum(a * a for a in v)]: the magnitude before [** 0.5]. *)
Definition sum_squares (v : list Q) : Q := py_sum (map (fun a => a * a) v).

(** Whether [dot / (A ** 0.5 * B ** 0.5) > threshold], for positive [A]
    and [B].  A square root need not be rational, so the comparison is
    made on the squares; [is_similar_agrees] shows that it is the
    comparison [Dedup.is_similar] makes on the reals. *)
Definition cosine_exceeds (dot A B threshold : Q) : bool :=
  if Qle_bool 0 threshold
  then Qltb 0 dot && Qltb (threshold * threshold * (A * B)) (dot * dot)
  else Qle_bool 0 dot || Qltb (dot * dot) (threshold * threshold * (A * B)).

(** Whether the scan appends the id of a row that stores
    [stored_vector]: equal lengths, both magnitudes positive, similarity
    above the threshold. *)
Definition is_similar (current_vector stored_vector : list Q) (threshold : Q)
  : bool :=
  Nat.eqb (length stored_vector) (length current_vector)
  && (let A := sum_squares current_vector in
      let B := sum_squares stored_vector in
      Qltb 0 A && Qltb 0 B
      && cosine_exceeds (dot_product current_vector stored_vector) A B threshold).

Fixpoint scan (rows : list (Z * list Q)) (current_vector : list Q)
    (threshold : Q) : list Z :=
  match rows with
  | [] => []
  | (listing_id, stored_vector) :: rest =>
      if is_similar current_vector stored_vector threshold
      then listing_id :: scan rest current_vector threshold
      else scan rest current_vector threshold
  end.

(** [table] is [listing_embeddings] in insertion order; the query takes
    the 100 newest rows, newest first. *)
Definition find_similar_by_embedding (table : list (Z * list Q))
    (vector : list Q) (threshold : Q) : list Z :=
  firstn 5 (scan (firstn 100 (rev table)) vector threshold).

(** The call in the loop, at the default [threshold=DEDUPE_SIMILARITY]. *)
Definition find_similar (cfg : config) (vector : list Q) (w : world)
  : world * list Z :=
  (invoke c_find_similar w,
   find_similar_by_embedding (listing_embeddings w) vector (DEDUPE_SIMILARITY cfg)).

(** [UPDATE production_portal_listings SET ... WHERE id = listing_db_id] *)
Definition update_where (id : Z) (f : listing_row -> listing_row)
    (rows : list listing_row) : list listing_row :=
  map (fun r => if Z.eqb (row_id r) id then f r else r) rows.

Definition set_status (s : status) (r : listing_row) : listing_row :=
  {| row_id := row_id r;
     row_source := row_source r;
     row_source_id := row_source_id r;
     row_normalized := row_normalized r;
     row_raw := row_raw r;
     ingest_batch_ts := ingest_batch_ts r;
     row_status := s;
     row_confidence := row_confidence r;
     row_trust_score := row_trust_score r |}.

Definition set_status_trust (s : status) (t : Q) (r : listing_row) : listing_row :=
  {| row_id := row_id r;
     row_source := row_source r;
     row_source_id := row_source_id r;
     row_normalized := row_normalized r;
     row_raw := row_raw r;
     ingest_batch_ts := ingest_batch_ts r;
     row_status := s;
     row_confidence := row_confidence r;
     row_trust_score := Some t |}.

Definition set_normalized (n : normalized) (c : Q) (r : listing_row) : listing_row :=
  {| row_id := row_id r;
     row_source := row_source r;
     row_source_id := row_source_id r;
     row_normalized := n;
     row_raw := row_raw r;
     ingest_batch_ts := ingest_batch_ts r;
     row_status := row_status r;
     row_confidence := c;
     row_trust_score := row_trust_score r |}.

Definition select_row (id : Z) (w : world) : option listing_row :=
  find (fun r => Z.eqb (row_id r) id) (production_portal_listings w).

Definition update_listing (id : Z) (f : listing_row -> listing_row) (w : world)
  : world :=
  with_listings (update_where id f (production_portal_listings w)) (next_row_id w) w.

(** ** Image caching *)

Definition download_image (o : oracle) (url : ustring) (w : world)
  : world * option ustring :=
  (invoke (c_download_image url) w, download_reply o url).

(** ["file://"] *)
Definition file_scheme : ustring := [102; 105; 108; 101; 58; 47; 47]%N.

Definition upload_to_cdn (o : oracle) (local_path : ustring) (w : world)
  : world * ustring :=
  let w := invoke (c_upload_to_cdn local_path) w in
  match upload_reply o local_path with
  | Some public_url => (w, public_url)
  | None => (w, file_scheme ++ local_path)
  end.

(** [futures.append(img_executor.submit(download_image, img_url))] for
    each of the URLs. *)
Fixpoint submit_downloads (o : oracle) (urls : list ustring) (w : world)
  : world * list (option ustring) :=
  match urls with
  | [] => (w, [])
  | img_url :: rest =>
      let '(w, local_path) := download_image o img_url w in
      let '(w, futures) := submit_downloads o rest w in
      (w, local_path :: futures)
  end.

(** [for future in as_completed(futures): ...] *)
Fixpoint collect_uploads (o : oracle) (completed : list (option ustring))
    (w : world) (cached : list ustring) : world * list ustring :=
  match completed with
  | [] => (w, cached)
  | None :: rest => collect_uploads o rest w cached
  | Some local_path :: rest =>
      if is_empty local_path then collect_uploads o rest w cached
      else
        let '(w, cdn_url) := upload_to_cdn o local_path w in
        collect_uploads o rest w (cached ++ [cdn_url])
  end.

Definition cache_images (o : oracle) (images : list ustring) (w : world)
  : world * list ustring :=
  if is_empty images then (w, [])
  else
    let '(w, futures) := submit_downloads o (firstn 5 images) w in
    collect_uploads o (completion_order o futures) w [].

(** ** The per-listing loop of [process_ingest_batch] *)

(** The loop's view: the world and the two id lists it fills. *)
Record batch := {
  the_world : world;
  validated_ids : list Z;
  needs_human : list Z
}.

(** [not normalized.get("price")] *)
Definition price_missing (n : normalized) : bool :=
  match n_price n with
  | None => true
  | Some p => N.eqb p 0
  end.

(** The deterministic QA gate. *)
Definition missing_critical (n : normalized) : bool :=
  price_missing n || is_empty (n_images n).

(** [" ".join(str(normalized.get(k, "")) for k in
     ("title", "make", "model", "year", "city"))] *)
Definition text_for_embed (n : normalized) : ustring :=
  join_space (map py_str [n_title n; n_make n; n_model n; n_year n; n_city n]).

Definition needs_final (cfg : config) (price : N) (trust_score : Q)
    (similar : list Z) : bool :=
  (GPT5_PRICE_THRESHOLD cfg <=? Z.of_N price)%Z
  || Qltb trust_score (TRUST_SCORE_PUBLISH cfg)
  || (0 <? length similar)%nat.

(** The decision written when the listing is not escalated. *)
Definition default_decision (price : N) (trust_score : Q) : decision :=
  {| approve := true;
     d_price_band := Some (band_around price);
     d_summary := Some StandardListing;
     final_trust_score := Some (Qmin 0.85 trust_score) |}.

Definition mapping : Type := Z * raw_item * normalized * Q.

(** "re-load normalized in case gemini updated it" *)
Definition reload (listing_db_id : Z) (normalized0 : normalized) (confidence0 : Q)
    (w : world) : normalized * Q :=
  match select_row listing_db_id w with
  | Some row => (row_normalized row, row_confidence row)
  | None => (normalized0, confidence0)
  end.

(** [normalized.get("price") or 0] *)
Definition listed_price (n : normalized) : N :=
  match n_price n with Some p => p | None => 0%N end.

(** The loop body from the Anthropic validation to the similarity scan:
    the trust score and the near-duplicates it hands to the Finalizer. *)
Definition assess (cfg : config) (o : oracle) (listing_db_id : Z)
    (n : normalized) (confidence : Q) (w : world) : world * Q * list Z :=
  let price := listed_price n in
  let '(w, trust_score) :=
    if (GPT5_PRICE_THRESHOLD cfg <=? Z.of_N price)%Z || Qltb confidence 0.85
    then
      let '(w, t) := call_anthropic_validation cfg o w in
      (w, match t with Some t => t | None => 0%Q end)
    else (w, 0.9%Q) in
  let median := price in
  let '(w, perf) :=
    if negb (N.eqb median 0)
       && Qltb (PRICE_ANOMALY_PCT cfg)
            (Qabs (Qof_N price - Qof_N median) / Qof_N (N.max 1 median) * 100)
    then call_perplexity_check cfg o w
    else (w, false) in
  let '(w, emb) := get_embedding cfg o (text_for_embed n) w in
  let w := save_embedding listing_db_id emb w in
  let '(w, similar) := find_similar cfg emb w in
  (w, trust_score, similar).

(** "final GPT-5 (selective)" *)
Definition finalize (cfg : config) (o : oracle) (n : normalized)
    (trust_score : Q) (similar : list Z) (w : world) : world * result decision :=
  let price := listed_price n in
  if needs_final cfg price trust_score similar
     && Qltb (gpt5 (model_spend w)) (DAILY_GPT5_BUDGET cfg)
  then
    let '(w, final) := call_gpt5_finalize cfg o n similar w in
    match final with
    | Ok final => (with_spend (add_gpt5 0.05 (model_spend w)) w, Ok final)
    | Raise e => (w, Raise e)
    end
  else (w, Ok (default_decision price trust_score)).

(** Image caching and the final status. *)
Definition settle (cfg : config) (o : oracle) (b : batch) (listing_db_id : Z)
    (raw : raw_item) (n : normalized) (trust_score : Q) (final : decision)
    (w : world) : batch :=
  let '(w, cached) := cache_images o (n_images n) w in
  if approve final && Qgeb trust_score (TRUST_SCORE_PUBLISH cfg) then
    let canonical_data :=
      {| c_listing := n;
         c_price_band := d_price_band final;
         c_summary := d_summary final;
         cached_images := cached |} in
    let row :=
      {| canonical := canonical_data;
         t_trust_score :=
           match final_trust_score final with
           | Some t => t
           | None => trust_score
           end;
         source_list := [source raw] |} in
    let w := with_trusted (trusted_listings w ++ [row]) w in
    let w := update_listing listing_db_id
               (set_status_trust Spublished trust_score) w in
    {| the_world := w;
       validated_ids := validated_ids b ++ [listing_db_id];
       needs_human := needs_human b |}
  else
    let w := update_listing listing_db_id
               (set_status_trust Sneeds_review trust_score) w in
    {| the_world := w;
       validated_ids := validated_ids b;
       needs_human := needs_human b |}.

(** One iteration of the loop over [saved_mappings].  An exception
    leaves the iteration with the world as it then is. *)
Definition process_listing (cfg : config) (b : batch) (m : mapping) (o : oracle)
  : batch * option exn :=
  let '(listing_db_id, raw, normalized0, confidence0) := m in
  let w := the_world b in
  let '(n, confidence) := reload listing_db_id normalized0 confidence0 w in
  if missing_critical n then
    let w := update_listing listing_db_id (set_status Sneeds_human) w in
    ({| the_world := w;
        validated_ids := validated_ids b;
        needs_human := needs_human b ++ [listing_db_id] |}, None)
  else
    let '(w, trust_score, similar) := assess cfg o listing_db_id n confidence w in
    let '(w, final) := finalize cfg o n trust_score similar w in
    match final with
    | Raise e =>
        ({| the_world := w;
            validated_ids := validated_ids b;
            needs_human := needs_human b |}, Some e)
    | Ok final =>
        (settle cfg o b listing_db_id raw n trust_score final w, None)
    end.

(** [for (listing_db_id, raw, normalized, confidence) in saved_mappings];
    an exception leaves the loop (and the batch). *)
Fixpoint postprocess (cfg : config) (b : batch) (ms : list (mapping * oracle))
  : batch * option exn :=
  match ms with
  | [] => (b, None)
  | (m, o) :: rest =>
      match process_listing cfg b m o with
      | (b', None) => postprocess cfg b' rest
      | (b', Some e) => (b', Some e)
      end
  end.

(** ** Fallback extraction and the whole batch *)

(** The dictionary [results] of [call_gemini_batch], keyed by source id;
    the value [None] is the empty JSON object. *)
Definition gemini_results := list (ustring * option extracted).

Definition results_set (k : ustring) (v : option extracted) (d : gemini_results)
  : gemini_results :=
  (k, v) :: filter (fun kv => negb (ustring_eqb (fst kv) k)) d.

Fixpoint results_get (k : ustring) (d : gemini_results)
  : option (option extracted) :=
  match d with
  | [] => None
  | (k', v) :: d' => if ustring_eqb k' k then Some v else results_get k d'
  end.

Fixpoint gemini_items (items : list (raw_item * oracle)) (w : world)
    (results : gemini_results) : world * gemini_results :=
  match items with
  | [] => (w, results)
  | (raw, o) :: rest =>
      match gemini_reply o with
      | Some extracted_data =>
          let results := results_set (source_id raw) extracted_data results in
          let cost := 0.01%Q in
          let w := with_spend (add_gemini cost (model_spend w)) w in
          gemini_items rest (update_daily_spend w) results
      | None => gemini_items rest w results
      end
  end.

Definition call_gemini_batch (cfg : config) (items : list (raw_item * oracle))
    (w : world) : world * gemini_results :=
  if negb (gemini_model cfg) || is_empty items then (w, [])
  else gemini_items items w [].

(** [{"extracted": gem}] *)
Definition only_extracted (gem : extracted) : raw_item :=
  {| source := []; source_id := []; raw_html := [];
     extracted_fields := gem;
     raw_title := SNone; raw_price := SNone; raw_city := SNone;
     raw_images := []; raw_contact := SNone |}.

Section Batch.

Variable str_isdigit : codepoint -> bool.
Variable decimal_value : codepoint -> option N.

(** First loop: save raw + initial normalization. *)
Fixpoint save_raw_items (cfg : config) (batch_ts : ustring)
    (raw_items : list (raw_item * oracle)) (w : world)
    (saved_mappings : list (mapping * oracle))
    (to_fallback : list (Z * (raw_item * oracle)))
  : world * list (mapping * oracle) * list (Z * (raw_item * oracle)) :=
  match raw_items with
  | [] => (w, saved_mappings, to_fallback)
  | (raw, o) :: rest =>
      let '(n, confidence) := normalize_item str_isdigit decimal_value raw in
      let '(w, listing_db_id) := save_cached_listing w raw n confidence batch_ts in
      let saved_mappings :=
        saved_mappings ++ [((listing_db_id, raw, n, confidence), o)] in
      let to_fallback :=
        if Qltb confidence (CONFIDENCE_THRESHOLD cfg) || price_missing n
           || is_empty (n_images n)
        then to_fallback ++ [(listing_db_id, (raw, o))]
        else to_fallback in
      save_raw_items cfg batch_ts rest w saved_mappings to_fallback
  end.

(** Merge gemini results back. *)
Fixpoint merge_gemini (gemini : gemini_results)
    (to_fallback : list (Z * (raw_item * oracle))) (w : world) : world :=
  match to_fallback with
  | [] => w
  | (listing_db_id, (raw, _)) :: rest =>
      match results_get (source_id raw) gemini with
      | Some (Some gem) =>
          let '(norm2, conf2) :=
            normalize_item str_isdigit decimal_value (only_extracted gem) in
          merge_gemini gemini rest
            (update_listing listing_db_id (set_normalized norm2 conf2) w)
      | _ => merge_gemini gemini rest w
      end
  end.

(** [raw_items] is what [call_firecrawl_api] returned, each item with
    the replies the later stages will get for it. *)
Definition process_ingest_batch (cfg : config) (batch_ts : ustring)
    (raw_items : list (raw_item * oracle)) (w : world) : batch * option exn :=
  let '(w, saved_mappings, to_fallback) :=
    save_raw_items cfg batch_ts raw_items w [] [] in
  let w :=
    if is_empty to_fallback then w
    else
      let raw_batch := map snd to_fallback in
      let '(w, gemini) := call_gemini_batch cfg raw_batch w in
      merge_gemini gemini to_fallback w in
  postprocess cfg
    {| the_world := w; validated_ids := []; needs_human := [] |}
    saved_mappings.

End Batch.

Definition empty_world : world :=
  {| model_spend := initial_spend;
     production_portal_listings := [];
     next_row_id := 1;
     listing_embeddings := [];
     trusted_listings := [];
     calls := [] |}.

(** ** The similarity scan on the reals

    [find_similar_by_embedding] as the source computes it, square roots
    included, over real numbers and over any value the [vector] column
    may hold. *)

Module Dedup.

Import Reals.
Local Open Scope R_scope.

Definition vector := list R.

(** A value of the [vector] column: a list of numbers or anything else. *)
Inductive jsonb :=
| JList (v : vector)
| JOther.

(** [sum(...)] *)
Definition py_sum (l : list R) : R := fold_left Rplus l 0.

(** [sum(a * b for a, b in zip(current_vector, stored_vector))] *)
Definition dot_product (current_vector stored_vector : vector) : R :=
  py_sum (map (fun ab => fst ab * snd ab) (combine current_vector stored_vector)).

(** [sum(a * a for a in v) ** 0.5] *)
Definition magnitude (v : vector) : R :=
  sqrt (py_sum (map (fun a => a * a) v)).

Definition Rltb (x y : R) : bool := if Rlt_dec x y then true else false.

(** The similarity computed for a stored value, when one is computed. *)
Definition similarity (current_vector : vector) (stored : jsonb) : option R :=
  match stored with
  | JList stored_vector =>
      if Nat.eqb (length stored_vector) (length current_vector) then
        let magnitude_a := magnitude current_vector in
        let magnitude_b := magnitude stored_vector in
        if Rltb 0 magnitude_a && Rltb 0 magnitude_b then
          Some (dot_product current_vector stored_vector
                / (magnitude_a * magnitude_b))
        else None
      else None
  | JOther => None
  end.

(** Whether the loop body appends the row's id. *)
Definition is_similar (current_vector : vector) (stored : jsonb)
    (threshold : R) : bool :=
  match similarity current_vector stored with
  | Some s => Rltb threshold s
  | None => false
  end.

Fixpoint scan (rows : list (Z * jsonb)) (current_vector : vector)
    (threshold : R) : list Z :=
  match rows with
  | [] => []
  | (listing_id, stored_vector) :: rest =>
      if is_similar current_vector stored_vector threshold
      then listing_id :: scan rest current_vector threshold
      else scan rest current_vector threshold
  end.

(** [table] is [listing_embeddings] in insertion order; the query takes
    the 100 newest rows, newest first. *)
Definition find_similar_by_embedding (table : list (Z * jsonb))
    (vector : vector) (threshold : R) : list Z :=
  firstn 5 (scan (firstn 100 (rev table)) vector threshold).

End Dedup.

(** ** The similarity scan in floating point

    [find_similar_by_embedding] as the interpreter computes it, on
    binary64 numbers.  What the builtin [sum] and the power [** 0.5]
    return is taken from the runtime: [sum] adds from left to right up
    to CPython 3.11 and compensates the rounding errors since 3.12, and
    [** 0.5] is the [pow] of the C library. *)

Module FloatDedup.

Import PrimFloat.

Definition vector := list float.

(** A value of the [vector] column: a list of numbers or anything else. *)
Inductive jsonb :=
| JList (v : vector)
| JOther.

Section Scan.

(** [sum(...)] over floats *)
Variable py_sum : list float -> float.
(** [x ** 0.5] *)
Variable pow_half : float -> float.

(** [sum(a * b for a, b in zip(current_vector, stored_vector))] *)
Definition dot_product (current_vector stored_vector : vector) : float :=
  py_sum (map (fun ab => fst ab * snd ab)%float
            (combine current_vector stored_vector)).

(** [sum(a * a for a in v) ** 0.5] *)
Definition magnitude (v : vector) : float :=
  pow_half (py_sum (map (fun a => a * a)%float v)).

(** The similarity computed for a stored value, when one is computed. *)
Definition similarity (current_vector : vector) (stored : jsonb) : option float :=
  match stored with
  | JList stored_vector =>
      if Nat.eqb (length stored_vector) (length current_vector) then
        let magnitude_a := magnitude current_vector in
        let magnitude_b := magnitude stored_vector in
        if (0 <? magnitude_a)%float && (0 <? magnitude_b)%float then
          Some (dot_product current_vector stored_vector
                / (magnitude_a * magnitude_b))%float
        else None
      else None
  | JOther => None
  end.

(** Whether the loop body appends the row's id. *)
Definition is_similar (current_vector : vector) (stored : jsonb)
    (threshold : float) : bool :=
  match similarity current_vector stored with
  | Some s => (threshold <? s)%float
  | None => false
  end.

Fixpoint scan (rows : list (Z * jsonb)) (current_vector : vector)
    (threshold : float) : list Z :=
  match rows with
  | [] => []
  | (listing_id, stored_vector) :: rest =>
      if is_similar current_vector stored_vector threshold
      then listing_id :: scan rest current_vector threshold
      else scan rest current_vector threshold
  end.

(** [table] is [listing_embeddings] in insertion order; the query takes
    the 100 newest rows, newest first. *)
Definition find_similar_by_embedding (table : list (Z * jsonb))
    (vector : vector) (threshold : float) : list Z :=
  firstn 5 (scan (firstn 100 (rev table)) vector threshold).

End Scan.


End FloatDedup.

(** ** Scraping *)

(** An entry of the ['listings'] array of a scrape result: its field
    map, and the entry as [str] prints it. *)
Record scraped_listing := {
  listing_fields : extracted;
  listing_str : ustring
}.

(** What [scrape_url] returned: the ['listings'] under ['extract']
    (empty when either key is absent or falsy) and the ['markdown']
    (empty when absent). *)
Record scrape_result := {
  extract_listings : list scraped_listing;
  markdown : ustring
}.

(** ["CarDekho"], ["OLX"], ["Cars24"], ["CarWale"] *)
Definition CarDekho : ustring := [67; 97; 114; 68; 101; 107; 104; 111]%N.
Definition OLX : ustring := [79; 76; 88]%N.
Definition Cars24 : ustring := [67; 97; 114; 115; 50; 52]%N.
Definition CarWale : ustring := [67; 97; 114; 87; 97; 108; 101]%N.

(** The sources of [portal_urls], in order; a portal's URL is
    determined by its source. *)
Definition portal_urls : list ustring := [CarDekho; OLX; Cars24; CarWale].

Section Scraper.

(** [hash] on a [str], as the running interpreter computes it. *)
Variable py_hash : ustring -> Z.

(** The reply of [firecrawl_client.scrape_url] for the portal of a
    source; [None] when the call, or reading its result, raised. *)
Variable scrape_url : ustring -> option scrape_result.

(** [f"{portal['source']}-{hash(str(listing))}"] *)
Definition scraped_source_id (portal_source : ustring) (l : scraped_listing)
  : ustring :=
  portal_source ++ 45%N :: py_str (SInt (py_hash (listing_str l))).

(** The item built for a listing.  Its [scraped_at] entry, the batch
    timestamp, is read by no later stage and is left out, and with it
    the argument [batch_ts] of [call_firecrawl_api]. *)
Definition scraped_item (portal_source : ustring) (result : scrape_result)
    (l : scraped_listing) : raw_item :=
  {| source := portal_source;
     source_id := scraped_source_id portal_source l;
     raw_html := markdown result;
     extracted_fields := listing_fields l;
     raw_title := SNone; raw_price := SNone; raw_city := SNone;
     raw_images := []; raw_contact := SNone |}.

Fixpoint scrape_portals (portals : list ustring) (all_listings : list raw_item)
  : list raw_item :=
  match portals with
  | [] => all_listings
  | portal :: rest =>
      match scrape_url portal with
      | Some result =>
          scrape_portals rest
            (all_listings
             ++ map (scraped_item portal result) (extract_listings result))
      | None => scrape_portals rest all_listings
      end
  end.

Definition call_firecrawl_api (firecrawl_client : bool) : list raw_item :=
  if negb firecrawl_client then [] else scrape_portals portal_urls [].

(** The number of listings a portal's page gave. *)
Definition page_size (portal : ustring) : nat :=
  match scrape_url portal with
  | Some result => length (extract_listings result)
  | None => 0
  end.

(** A scraped item has no top-level listing fields. *)
Definition bare (raw : raw_item) : Prop :=
  raw_title raw = SNone /\ raw_price raw = SNone /\ raw_city raw = SNone
  /\ raw_images raw = [] /\ raw_contact raw = SNone.

(** The listing of a portal page an item was made from. *)
Definition from_page (raw : raw_item) : Prop :=
  exists result l,
    scrape_url (source raw) = Some result
    /\ In l (extract_listings result)
    /\ source_id raw
       = source raw ++ 45%N :: py_str (SInt (py_hash (listing_str l)))
    /\ raw_html raw = markdown result
    /\ extracted_fields raw = listing_fields l.

End Scraper.

(** ** The spend ledger *)

Module Ledger.

(** Modelled from the spec: the table [daily_spend] of the Spend Ledger
    is not created anywhere in the repository.  Its rows carry the
    columns the two statements of [get_daily_spend] and
    [update_daily_spend] name, and [(date, model)] is unique, as the
    conflict target requires. *)
Record spend_row := {
  date : ustring;
  model : ustring;
  spend_usd : Q
}.

Definition daily_spend := list spend_row.

Definition same_day (date_str model_name : ustring) (r : spend_row) : bool :=
  ustring_eqb (date r) date_str && ustring_eqb (model r) model_name.

(** [conn] is [None] or an open connection to the table.  On [None]
    the call [conn.cursor()] raises and the [except] clause answers
    [0.0]. *)
Definition get_daily_spend (conn : option daily_spend)
    (date_str model_name : ustring) : Q :=
  match conn with
  | None => 0
  | Some table =>
      match find (same_day date_str model_name) table with
      | Some row => spend_usd row
      | None => 0
      end
  end.

(** [DO UPDATE SET spend_usd = daily_spend.spend_usd + amount] on the
    row that holds the key, or [None] when no row holds it. *)
Fixpoint do_update (date_str model_name : ustring) (amount_usd : Q)
    (table : daily_spend) : option daily_spend :=
  match table with
  | [] => None
  | r :: rs =>
      if same_day date_str model_name r
      then Some ({| date := date r; model := model r;
                    spend_usd := spend_usd r + amount_usd |} :: rs)
      else match do_update date_str model_name amount_usd rs with
           | Some rs' => Some (r :: rs')
           | None => None
           end
  end.

(** Without a connection the function returns at once; otherwise the
    upsert on [(date, model)]. *)
Definition update_daily_spend (conn : option daily_spend)
    (date_str model_name : ustring) (amount_usd : Q) : option daily_spend :=
  match conn with
  | None => None
  | Some table =>
      match do_update date_str model_name amount_usd table with
      | Some table' => Some table'
      | None =>
          Some (table ++ [{| date := date_str; model := model_name;
                             spend_usd := amount_usd |}])
      end
  end.

(** The conflict target, and its uniqueness over the table. *)
Definition ledger_key (r : spend_row) : ustring * ustring := (date r, model r).

Definition unique_days (conn : option daily_spend) : Prop :=
  match conn with
  | None => True
  | Some table => NoDup (map ledger_key table)
  end.

End Ledger.

(** ** Observations used by the properties *)

Definition is_gpt5_finalize (c : call) : bool :=
  match c with c_gpt5_finalize => true | _ => false end.
Definition is_anthropic_validation (c : call) : bool :=
  match c with c_anthropic_validation => true | _ => false end.
Definition is_download_image (c : call) : bool :=
  match c with c_download_image _ => true | _ => false end.

(** How many of the calls made so far satisfy [p]. *)
Definition count_calls (p : call -> bool) (w : world) : nat :=
  length (filter p (calls w)).

(** What [upload_to_cdn] returns for a local file. *)
Definition upload_result (o : oracle) (local_path : ustring) : ustring :=
  match upload_reply o local_path with
  | Some public_url => public_url
  | None => file_scheme ++ local_path
  end.

(** The local files among the download results. *)
Fixpoint downloaded (completed : list (option ustring)) : list ustring :=
  match completed with
  | [] => []
  | Some p :: rest => if is_empty p then downloaded rest else p :: downloaded rest
  | None :: rest => downloaded rest
  end.

(** [as_completed] yields every future once. *)
Definition completes_each_once (o : oracle) : Prop :=
  forall l, Permutation (completion_order o l) l.

(** [w1] differs from [w] at most by calls that [p] does not count. *)
Definition quiet (p : call -> bool) (w w1 : world) : Prop :=
  model_spend w1 = model_spend w
  /\ production_portal_listings w1 = production_portal_listings w
  /\ next_row_id w1 = next_row_id w
  /\ listing_embeddings w1 = listing_embeddings w
  /\ trusted_listings w1 = trusted_listings w
  /\ count_calls p w1 = count_calls p w.

Definition identity_key (r : listing_row) : ustring * ustring * ustring :=
  (row_source r, row_source_id r, ingest_batch_ts r).

(** The rows that hold an identity key. *)
Definition holding (src sid ts : ustring) (w : world) : list listing_row :=
  filter (same_identity src sid ts) (production_portal_listings w).

Definition keys (w : world) : list (ustring * ustring * ustring) :=
  map identity_key (production_portal_listings w).

(** An update that leaves a row's key, id, listing and confidence alone. *)
Definition touches_status_only (f : listing_row -> listing_row) : Prop :=
  forall r,
    row_id (f r) = row_id r
    /\ row_normalized (f r) = row_normalized r
    /\ row_confidence (f r) = row_confidence r
    /\ identity_key (f r) = identity_key r.

(** A stored embedding as the real-valued scan sees it. *)
Definition real_row (r : Z * list Q) : Z * Dedup.jsonb :=
  (fst r, Dedup.JList (map Rdefinitions.Q2R (snd r))).

Definition listing_ids (ms : list (mapping * oracle)) : list Z :=
  map (fun mo => fst (fst (fst (fst mo)))) ms.

(** The code points of [0] to [9]. *)
Definition ascii_digit (c : codepoint) : bool := ((48 <=? c) && (c <=? 57))%N.

(** The raw item, and the record and confidence, of an entry of
    [saved_mappings]. *)
Definition mapping_raw (mo : mapping * oracle) : raw_item := snd (fst (fst (fst mo))).
Definition mapping_normalized (mo : mapping * oracle) : normalized * Q :=
  (snd (fst (fst mo)), snd (fst mo)).

(** Whether a call is the anomaly check. *)
Definition is_perplexity_check (c : call) : bool :=
  match c with c_perplexity_check => true | _ => false end.

(** The embedding [get_embedding] obtains from the provider, if any. *)
Definition embedding_returned (cfg : config) (o : oracle) : option (list Q) :=
  if openai_client cfg then embedding_reply o else None.

(** The validation [call_anthropic_validation] obtains, if any. *)
Definition validation_returned (cfg : config) (o : oracle) : option (option Q) :=
  if anthropic_client cfg then anthropic_reply o else None.

(** [p] counts neither downloads nor uploads. *)
Definition ignores_images (p : call -> bool) : Prop :=
  forall u, p (c_download_image u) = false /\ p (c_upload_to_cdn u) = false.

(** The row written to [trusted_listings] for an approved listing. *)
Definition published_row (raw : raw_item) (n : normalized) (trust_score : Q)
    (final : decision) (cached : list ustring) : trusted_row :=
  {| canonical := {| c_listing := n;
                     c_price_band := d_price_band final;
                     c_summary := d_summary final;
                     cached_images := cached |};
     t_trust_score := match final_trust_score final with
                      | Some t => t
                      | None => trust_score
                      end;
     source_list := [source raw] |}.

(** The test before the write to [trusted_listings]. *)
Definition publishes (cfg : config) (trust_score : Q) (final : decision) : bool :=
  approve final && Qgeb trust_score (TRUST_SCORE_PUBLISH cfg).

(** The columns the per-listing loop never writes. *)
Definition row_core (r : listing_row)
  : Z * (ustring * ustring * ustring) * normalized * Q :=
  (row_id r, identity_key r, row_normalized r, row_confidence r).

(** No counter of [s'] is below its value in [s]. *)
Definition spend_le (s s' : spend_counters) : Prop :=
  (gpt5 s <= gpt5 s' /\ perplexity s <= perplexity s'
   /\ gemini s <= gemini s' /\ anthropic s <= anthropic s')%Q.

(** A row before and after the loop over the listings [ids]. *)
Definition status_write (ids : list Z) (r r' : listing_row) : Prop :=
  row_core r' = row_core r
  /\ row_raw r' = row_raw r
  /\ (~ In (row_id r) ids -> r' = r).

(** The status the loop gives a listing. *)
Definition settled (n : normalized) (st : status) : Prop :=
  if missing_critical n then st = Sneeds_human
  else st = Spublished \/ st = Sneeds_review.

(** The constraints of the listings table: the primary key and the
    upsert key are unique, and the id counter is ahead of every id. *)
Definition well_keyed (w : world) : Prop :=
  NoDup (map row_id (production_portal_listings w))
  /\ NoDup (keys w)
  /\ Forall (fun i => (i < next_row_id w)%Z)
       (map row_id (production_portal_listings w)).

(** The row that holds an identity key, if any. *)
Definition holder (src sid ts : ustring) (w : world) : option listing_row :=
  find (same_identity src sid ts) (production_portal_listings w).

(** The id and the upsert key of every stored row. *)
Definition row_index (w : world) : list (Z * (ustring * ustring * ustring)) :=
  map (fun r => (row_id r, identity_key r)) (production_portal_listings w).

(** The listing id of an entry of [saved_mappings]. *)
Definition mapping_id (mo : mapping * oracle) : Z := fst (fst (fst (fst mo))).

(** The successful replies of a Gemini batch, in call order. *)
Definition gemini_replies (items : list (raw_item * oracle)) : gemini_results :=
  flat_map (fun ro => match gemini_reply (snd ro) with
                      | Some extracted_data => [(source_id (fst ro), extracted_data)]
                      | None => []
                      end) items.

(** A count, as a rational. *)
Definition Qof_nat (n : nat) : Q := inject_Z (Z.of_nat n).


(** The record the loop reloads for an entry of [saved_mappings]. *)
Definition reloaded (w : world) (mo : mapping * oracle) : normalized :=
  fst (reload (mapping_id mo) (fst (mapping_normalized mo))
         (snd (mapping_normalized mo)) w).

(** A run of calls to [call_perplexity_check], one per reply. *)
Definition perplexity_calls (cfg : config) (replies : list oracle) (w : world)
  : world :=
  fold_left (fun w o => fst (call_perplexity_check cfg o w)) replies w.

(** How the row that [id] names differs once its key is saved again
    with the record [n], the raw item [raw] and the confidence [c];
    every other row is as it was. *)
Definition saved_again (id : Z) (n : normalized) (raw : raw_item) (c : Q)
    (r r' : listing_row) : Prop :=
  if Z.eqb (row_id r) id
  then row_id r' = row_id r
       /\ identity_key r' = identity_key r
       /\ row_normalized r' = n
       /\ row_raw r' = raw
       /\ row_confidence r' = c
       /\ row_status r' = row_status r
       /\ row_trust_score r' = row_trust_score r
  else r' = r.

(** ** Sample data *)

(** A fragment of the two Unicode tables: the ASCII digits, the
    Devanagari digits (decimal), and the superscripts two, three and one
    (digits without a decimal value). *)
Definition sample_isdigit (c : codepoint) : bool :=
  ((48 <=? c) && (c <=? 57)
   || (2406 <=? c) && (c <=? 2415)
   || (c =? 178) || (c =? 179) || (c =? 185))%N.

Definition sample_decimal_value (c : codepoint) : option N :=
  if ((48 <=? c) && (c <=? 57))%N then Some (c - 48)%N
  else if ((2406 <=? c) && (c <=? 2415))%N then Some (c - 2406)%N
  else None.

(** The rupee sign followed by [4,50,000]. *)
Definition rupees_4_50_000 : ustring :=
  [8377; 52; 44; 53; 48; 44; 48; 48; 48]%N.

(** ["OLX"], ["OLX-1"], a batch timestamp, an image URL, a local path. *)
Definition olx : ustring := [79; 76; 88]%N.
Definition olx_1 : ustring := [79; 76; 88; 45; 49]%N.
Definition ts_0600 : ustring := [48; 54; 58; 48; 48]%N.
Definition img_a : ustring := [97]%N.
Definition tmp_a : ustring := [47; 116; 109; 112; 47; 97]%N.

(** A scraped item whose only fields are a price string and images. *)
Definition scraped (price : scalar) (images : list ustring) : raw_item :=
  {| source := olx; source_id := olx_1; raw_html := [];
     extracted_fields :=
       {| ex_title := SNone; ex_name := SNone; ex_price := price;
          ex_price_inr := SNone; ex_make := SNone; ex_brand := SNone;
          ex_model := SNone; ex_year := SNone; ex_mileage := SNone;
          ex_city := SNone; ex_images := images; ex_contact := SNone |};
     raw_title := SNone; raw_price := SNone; raw_city := SNone;
     raw_images := []; raw_contact := SNone |}.

Definition listing (price : option N) (images : list ustring) : normalized :=
  {| n_title := SNone; n_price := price; n_make := SNone; n_model := SNone;
     n_year := SNone; n_mileage := SNone; n_city := SNone;
     n_images := images; n_contact := SNone |}.

(** An outside world in which every call succeeds: the validation
    returns trust 0.9, an embedding is returned, the chat model
    approves, every image is downloaded and uploaded. *)
Definition all_succeed : oracle :=
  {| gemini_reply := None;
     anthropic_reply := Some (Some 0.9%Q);
     perplexity_reply := true;
     embedding_reply := Some [1%Q];
     gpt5_reply := Some {| approve := true; d_price_band := None;
                           d_summary := None; final_trust_score := Some 0.9%Q |};
     download_reply := fun _ => Some tmp_a;
     upload_reply := fun p => Some p;
     completion_order := fun l => l |}.

(** As [all_succeed], but the embedding call fails. *)
Definition embedding_fails : oracle :=
  {| gemini_reply := None;
     anthropic_reply := Some (Some 0.9%Q);
     perplexity_reply := true;
     embedding_reply := None;
     gpt5_reply := Some {| approve := true; d_price_band := None;
                           d_summary := None; final_trust_score := Some 0.9%Q |};
     download_reply := fun _ => Some tmp_a;
     upload_reply := fun p => Some p;
     completion_order := fun l => l |}.

(** As [all_succeed], but storage refuses every upload. *)
Definition uploads_fail : oracle :=
  {| gemini_reply := None;
     anthropic_reply := Some (Some 0.9%Q);
     perplexity_reply := true;
     embedding_reply := Some [1%Q];
     gpt5_reply := Some {| approve := true; d_price_band := None;
                           d_summary := None; final_trust_score := Some 0.9%Q |};
     download_reply := fun _ => Some tmp_a;
     upload_reply := fun _ => None;
     completion_order := fun l => l |}.

Definition stored_row (id : Z) (n : normalized) (c : Q) : listing_row :=
  {| row_id := id; row_source := olx; row_source_id := olx_1;
     row_normalized := n; row_raw := scraped SNone [];
     ingest_batch_ts := ts_0600; row_status := Sraw;
     row_confidence := c; row_trust_score := None |}.

(** A world holding one saved listing, with the gpt5 counter at [spent]. *)
Definition world_with (n : normalized) (c : Q) (spent : Q) : world :=
  {| model_spend := add_gpt5 spent initial_spend;
     production_portal_listings := [stored_row 1 n c];
     next_row_id := 2;
     listing_embeddings := [];
     trusted_listings := [];
     calls := [] |}.

Definition fresh_batch (w : world) : batch :=
  {| the_world := w; validated_ids := []; needs_human := [] |}.

(** The default thresholds with [DAILY_GPT5_BUDGET_USD=0]: no premium
    spend allowed; only the OpenAI client is configured. *)
Definition premium_disabled : config :=
  {| CONFIDENCE_THRESHOLD := 0.7;
     TRUST_SCORE_PUBLISH := 0.6;
     PRICE_ANOMALY_PCT := 20;
     DEDUPE_SIMILARITY := 0.92;
     GPT5_PRICE_THRESHOLD := 300000;
     DAILY_GPT5_BUDGET := 0;
     DAILY_PERPLEXITY_BUDGET := 40;
     gemini_model := false;
     anthropic_client := false;
     openai_client := true |}.

(** ["100"] *)
Definition price_100 : ustring := [49; 48; 48]%N.

(** An entry of [saved_mappings] for the listing saved with id 1. *)
Definition mapped (n : normalized) (c : Q) (o : oracle) : mapping * oracle :=
  ((1%Z, scraped SNone [], n, c), o).

(** A listing priced 2,500,000 with one image, and the one priced 100. *)
Definition premium_listing : normalized := listing (Some 2500000%N) [img_a].
Definition cheap_listing : normalized := listing (Some 100%N) [img_a].

(** ["gpt5"] and the date ["2025-05-01"]. *)
Definition gpt5_name : ustring := [103; 112; 116; 53]%N.
Definition may_1 : ustring := [50; 48; 50; 53; 45; 48; 53; 45; 48; 49]%N.

(** * Properties *)

Unset Implicit Arguments.

(** ** Numbers *)

Lemma Qltb_lt (x y : Q) : Qltb x y = true <-> (x < y)%Q.
Proof.
  unfold Qltb. rewrite negb_true_iff. split; intro H.
  - apply Qnot_le_lt. intro L. apply Qle_bool_iff in L. congruence.
  - destruct (Qle_bool y x) eqn:E; [|reflexivity].
    apply Qle_bool_iff in E. exfalso. exact (Qlt_not_le _ _ H E).
Qed.

Lemma Qltb_ge (x y : Q) : Qltb x y = false <-> (y <= x)%Q.
Proof.
  unfold Qltb. rewrite negb_false_iff. apply Qle_bool_iff.
Qed.



(** ** Normalizer *)

Section NormalizerFacts.

Variable str_isdigit : codepoint -> bool.
Variable decimal_value : codepoint -> option N.

Lemma digit_values_length (s : ustring) (ds : list N) :
  digit_values decimal_value s = Some ds -> length ds = length s.
Proof.
  revert ds. induction s as [|c s IH]; simpl; intros ds H.
  - injection H as <-. reflexivity.
  - destruct (decimal_value c); [|discriminate].
    destruct (digit_values decimal_value s) as [ds'|]; [|discriminate].
    injection H as <-. simpl. f_equal. apply IH. reflexivity.
Qed.

(** The accumulating loop of [int] reads the digits positionally. *)
Lemma int_digits_positional (s : ustring) (acc : N) :
  int_digits decimal_value acc s =
  match digit_values decimal_value s with
  | Some ds => Some (acc * 10 ^ N.of_nat (length ds) + positional ds)%N
  | None => None
  end.
Proof.
  revert acc. induction s as [|c s IH]; intro acc;
    cbn [int_digits digit_values].
  - f_equal. cbn. lia.
  - destruct (decimal_value c) as [d|]; [|reflexivity].
    rewrite IH. destruct (digit_values decimal_value s) as [ds|]; [|reflexivity].
    f_equal. cbn [length positional].
    rewrite Nat2N.inj_succ, N.pow_succ_r'. ring.
Qed.

Lemma py_int_positional (s : ustring) :
  py_int decimal_value s =
  if (int_max_str_digits <? N.of_nat (length s))%N then None
  else match digit_values decimal_value s with
       | Some (d :: ds) => Some (positional (d :: ds))
       | _ => None
       end.
Proof.
  destruct s as [|c s]; [reflexivity|].
  unfold py_int.
  destruct (int_max_str_digits <? N.of_nat (length (c :: s)))%N; [reflexivity|].
  rewrite int_digits_positional.
  destruct (digit_values decimal_value (c :: s)) as [[|d ds]|] eqn:E;
    try reflexivity.
  apply digit_values_length in E. discriminate.
Qed.

(** The [or] chain of the source picks the offered price. *)
Lemma raw_price_value_offered (raw : raw_item) :
  raw_price_value raw = offered_price raw.
Proof.
  unfold raw_price_value, offered_price, py_or.
  destruct (truthy (ex_price (extracted_fields raw))) eqn:E; [rewrite E|];
    reflexivity.
Qed.

Lemma normalized_price (raw : raw_item) :
  n_price (fst (normalize_item str_isdigit decimal_value raw))
  = stated_price str_isdigit decimal_value raw.
Proof.
  unfold normalize_item, stated_price, price_digits.
  rewrite raw_price_value_offered.
  destruct (offered_price raw) as [|s|z]; [reflexivity| |];
    rewrite py_int_positional;
    destruct (int_max_str_digits <? N.of_nat (length (filter str_isdigit _)))%N;
    try reflexivity;
    destruct (digit_values decimal_value (filter str_isdigit _)) as [[|d ds]|];
    reflexivity.
Qed.

Lemma normalized_images (raw : raw_item) :
  is_empty (n_images (fst (normalize_item str_isdigit decimal_value raw)))
  = images_missing raw.
Proof.
  unfold normalize_item, images_missing, images_or.
  destruct (raw_price_value raw);
    try destruct (py_int decimal_value (filter str_isdigit _));
    cbn [fst n_images];
    destruct (ex_images (extracted_fields raw));
    destruct (raw_images raw); reflexivity.
Qed.

Lemma normalized_contact (raw : raw_item) :
  truthy (n_contact (fst (normalize_item str_isdigit decimal_value raw)))
  = negb (contact_missing raw).
Proof.
  unfold normalize_item, contact_missing, py_or.
  destruct (raw_price_value raw);
    try destruct (py_int decimal_value (filter str_isdigit _));
    cbn [fst n_contact];
    destruct (truthy (ex_contact (extracted_fields raw))) eqn:E;
    rewrite ?E; cbn [negb andb]; rewrite ?negb_involutive; reflexivity.
Qed.

(** The confidence in terms of the three checks on the returned
    record. *)
Lemma confidence_of_record (raw : raw_item) :
  let n := fst (normalize_item str_isdigit decimal_value raw) in
  let c := snd (normalize_item str_isdigit decimal_value raw) in
  (c == clamp01 (0.9 - missing_penalties n) /\ 0 <= c /\ c <= 1 /\ c <= 0.9)%Q.
Proof.
  unfold normalize_item;
  destruct (raw_price_value raw) as [|s|z];
  try destruct (py_int decimal_value (filter str_isdigit _));
  destruct (is_empty (images_or (images_or (ex_images (extracted_fields raw))
                                           (raw_images raw)) [])) eqn:Ei;
  destruct (truthy (py_or (ex_contact (extracted_fields raw)) (raw_contact raw)))
    eqn:Ec;
  cbn -[clamp01 Qminus]; unfold missing_penalties; cbn -[clamp01 Qminus Qplus];
  rewrite ?Ei, ?Ec; vm_compute; intuition discriminate.
Qed.

Lemma missing_penalties_deductions (raw : raw_item) :
  missing_penalties (fst (normalize_item str_isdigit decimal_value raw))
  = deductions str_isdigit decimal_value raw.
Proof.
  unfold missing_penalties, deductions.
  rewrite normalized_price, normalized_images, normalized_contact.
  destruct (contact_missing raw); reflexivity.
Qed.

(** C6.  The confidence returned by [normalize_item] is the baseline
    0.9 minus 0.4 when the raw item states no price (none offered, or
    none that parses), 0.3 when it has no image under ["extracted"] nor
    on the item itself, and 0.2 when it has no contact in either place,
    clamped to [0,1]; so it lies in [0,1] and never exceeds 0.9.  The
    returned record shows the same three fields: its price is the
    stated price, its image list is empty exactly when the images are
    missing, its contact falsy exactly when the contact is missing. *)
Theorem normalize_item_confidence (raw : raw_item) :
  let n := fst (normalize_item str_isdigit decimal_value raw) in
  let c := snd (normalize_item str_isdigit decimal_value raw) in
  (c == clamp01 (0.9
                 - (match stated_price str_isdigit decimal_value raw with
                    | None => 0.4
                    | Some _ => 0
                    end
                    + (if images_missing raw then 0.3 else 0)
                    + (if contact_missing raw then 0.2 else 0)))
   /\ 0 <= c /\ c <= 1 /\ c <= 0.9)%Q
  /\ n_price n = stated_price str_isdigit decimal_value raw
  /\ is_empty (n_images n) = images_missing raw
  /\ truthy (n_contact n) = negb (contact_missing raw).
Proof.
  cbv zeta. split; [|split; [apply normalized_price|
                             split; [apply normalized_images
                                    |apply normalized_contact]]].
  fold (deductions str_isdigit decimal_value raw).
  rewrite <- missing_penalties_deductions. apply confidence_of_record.
Qed.

(** C7, as amended.  The price the Normalizer parses is the one the
    raw item offers: the extracted price when truthy, else the
    extracted rupee price when truthy, else the item's own price; it is
    turned into a string, the characters that fail [isdigit] are
    dropped and the rest is read as a decimal number.  When no price is
    offered, or no digit is left, or more than [int_max_str_digits]
    are left, or a digit has no decimal value, the price is null and
    0.4 is taken off the confidence; otherwise nothing is taken off for
    the price.  [normalize_item] returns in every case. *)
Theorem normalize_item_price (raw : raw_item) :
  let offered :=
    if truthy (ex_price (extracted_fields raw))
    then ex_price (extracted_fields raw)
    else if truthy (ex_price_inr (extracted_fields raw))
         then ex_price_inr (extracted_fields raw)
         else raw_price raw in
  let digits := filter str_isdigit (py_str offered) in
  let n := fst (normalize_item str_isdigit decimal_value raw) in
  let c := snd (normalize_item str_isdigit decimal_value raw) in
  let less (for_price : Q) :=
    clamp01 (0.9 - (for_price
                    + (if images_missing raw then 0.3 else 0)
                    + (if contact_missing raw then 0.2 else 0)))%Q in
  let penalised := n_price n = None /\ (c == less 0.4)%Q in
  match offered with
  | SNone => penalised
  | _ =>
      if (int_max_str_digits <? N.of_nat (length digits))%N then penalised
      else match digit_values decimal_value digits with
           | Some (d :: ds) =>
               n_price n = Some (positional (d :: ds)) /\ (c == less 0)%Q
           | _ => penalised
           end
  end.
Proof.
  cbv zeta.
  destruct (normalize_item_confidence raw) as ((Hc & _) & Hp & _).
  cbv zeta in Hc, Hp. rewrite Hp. revert Hc.
  unfold stated_price, price_digits, offered_price.
  match goal with
  | |- context [py_str ?v] => set (offered := v); clearbody offered
  end.
  destruct offered as [|s|z]; cbv beta iota;
    try (intro Hc; split; [reflexivity|exact Hc]);
    match goal with
    | |- context [(int_max_str_digits <? ?x)%N] =>
        destruct (int_max_str_digits <? x)%N
    end;
    try (intro Hc; split; [reflexivity|exact Hc]);
    match goal with
    | |- context [digit_values decimal_value ?l] =>
        destruct (digit_values decimal_value l) as [[|d ds]|]
    end;
    intro Hc; (split; [reflexivity|exact Hc]).
Qed.

End NormalizerFacts.

(** Scenario 1 of the spec, at the Normalizer: the price string with a
    rupee sign and grouping commas, no images, no contact. *)
Example normalize_rupees :
  normalize_item sample_isdigit sample_decimal_value
    (scraped (SStr rupees_4_50_000) [])
  = (listing (Some 450000%N) [], clamp01 (0.9 - 0.3 - 0.2)%Q).
Proof. reflexivity. Qed.

(** A superscript digit passes [isdigit] but [int] rejects it: the price
    is null, and nothing is raised. *)
Example normalize_superscript :
  n_price (fst (normalize_item sample_isdigit sample_decimal_value
                  (scraped (SStr [52; 178]%N) [img_a]))) = None.
Proof. reflexivity. Qed.

(** C7 as stated fails.  An extracted price of [0] is a price value
    present in the raw item, and the digits of ["0"] read as the
    integer 0; yet the [or] chain passes over it, and with no other
    price the Normalizer returns a null price and takes the 0.4 off. *)
Lemma extracted_zero_price_is_dropped :
  let raw := scraped (SInt 0) [img_a] in
  ex_price (extracted_fields raw) = SInt 0
  /\ py_int sample_decimal_value (filter sample_isdigit (py_str (SInt 0)))
     = Some 0%N
  /\ n_price (fst (normalize_item sample_isdigit sample_decimal_value raw)) = None
  /\ (snd (normalize_item sample_isdigit sample_decimal_value raw)
      == 0.9 - 0.4 - 0.2)%Q.
Proof. cbv zeta. repeat split. Qed.

(** ** The per-listing loop *)

Ltac break_step :=
  match goal with
  | |- context [if ?c then _ else _] => destruct c eqn:?
  | |- context [match ?x with Some _ => _ | None => _ end] => destruct x eqn:?
  end.

Lemma quiet_refl p w : quiet p w w.
Proof. repeat split. Qed.

Lemma quiet_trans p w w1 w2 : quiet p w w1 -> quiet p w1 w2 -> quiet p w w2.
Proof. unfold quiet. intuition congruence. Qed.

Lemma submit_downloads_spec o urls : forall w,
  snd (submit_downloads o urls w) = map (download_reply o) urls
  /\ quiet is_gpt5_finalize w (fst (submit_downloads o urls w))
  /\ quiet is_anthropic_validation w (fst (submit_downloads o urls w))
  /\ count_calls is_download_image (fst (submit_downloads o urls w))
     = (count_calls is_download_image w + length urls)%nat.
Proof.
  induction urls as [|u r IH]; intro w; cbn [submit_downloads].
  - cbn. repeat split; lia.
  - unfold download_image.
    destruct (submit_downloads o r (invoke (c_download_image u) w)) as [w1 fs] eqn:E.
    specialize (IH (invoke (c_download_image u) w)). rewrite E in IH.
    cbn [fst snd] in *. destruct IH as (-> & Q1 & Q2 & C).
    split; [reflexivity|]. split; [|split].
    + eapply quiet_trans; [|exact Q1]. repeat split.
    + eapply quiet_trans; [|exact Q2]. repeat split.
    + rewrite C. unfold count_calls. cbn. lia.
Qed.

Lemma upload_to_cdn_eq o p w :
  upload_to_cdn o p w = (invoke (c_upload_to_cdn p) w, upload_result o p).
Proof. unfold upload_to_cdn, upload_result. destruct (upload_reply o p); reflexivity. Qed.

Lemma collect_uploads_spec o completed : forall w cached,
  snd (collect_uploads o completed w cached)
  = cached ++ map (upload_result o) (downloaded completed)
  /\ quiet is_gpt5_finalize w (fst (collect_uploads o completed w cached))
  /\ quiet is_anthropic_validation w (fst (collect_uploads o completed w cached))
  /\ quiet is_download_image w (fst (collect_uploads o completed w cached)).
Proof.
  induction completed as [|[p|] r IH]; intros w cached;
    cbn [collect_uploads downloaded].
  - cbn. rewrite app_nil_r. repeat split.
  - destruct (is_empty p).
    + apply IH.
    + rewrite upload_to_cdn_eq.
      destruct (IH (invoke (c_upload_to_cdn p) w) (cached ++ [upload_result o p]))
        as (-> & Q1 & Q2 & Q3).
      split; [cbn; rewrite <- app_assoc; reflexivity|].
      repeat split; first [apply Q1 | apply Q2 | apply Q3].
  - apply IH.
Qed.

Lemma downloaded_perm l l' :
  Permutation l l' -> Permutation (downloaded l) (downloaded l').
Proof.
  induction 1 as [|x l l' _ IH|x y l|l l' l'' _ IH1 _ IH2]; cbn [downloaded].
  - constructor.
  - destruct x as [p|]; [destruct (is_empty p)|]; auto.
  - destruct x as [p|], y as [q|];
      repeat match goal with |- context [is_empty ?p] => destruct (is_empty p) end;
      try apply Permutation_refl; apply perm_swap.
  - eapply Permutation_trans; eassumption.
Qed.

Lemma downloaded_length l : (length (downloaded l) <= length l)%nat.
Proof.
  induction l as [|[p|] l IH]; cbn [downloaded length]; [lia| |lia].
  destruct (is_empty p); cbn [length]; lia.
Qed.

Lemma cache_images_spec o images w :
  completes_each_once o ->
  snd (cache_images o images w)
  = map (upload_result o)
      (downloaded (completion_order o (map (download_reply o) (firstn 5 images))))
  /\ quiet is_gpt5_finalize w (fst (cache_images o images w))
  /\ quiet is_anthropic_validation w (fst (cache_images o images w))
  /\ count_calls is_download_image (fst (cache_images o images w))
     = (count_calls is_download_image w + length (firstn 5 images))%nat.
Proof.
  intro Hc. unfold cache_images. destruct images as [|i r].
  - cbn [is_empty firstn map fst snd length].
    rewrite (Permutation_nil (Permutation_sym (Hc []))). cbn.
    repeat split; lia.
  - cbn [is_empty]. set (urls := firstn 5 (i :: r)).
    destruct (submit_downloads_spec o urls w) as (F & Q1 & Q2 & C).
    destruct (submit_downloads o urls w) as [w1 fs]. cbn [fst snd] in *. subst fs.
    destruct (collect_uploads_spec o
                (completion_order o (map (download_reply o) urls)) w1 [])
      as (S & R1 & R2 & R3).
    split; [exact S|]. split; [|split].
    + eapply quiet_trans; eassumption.
    + eapply quiet_trans; eassumption.
    + destruct R3 as (_ & _ & _ & _ & _ & ->). exact C.
Qed.

Lemma cache_images_quiet o images w :
  quiet is_gpt5_finalize w (fst (cache_images o images w))
  /\ quiet is_anthropic_validation w (fst (cache_images o images w)).
Proof.
  unfold cache_images. destruct images as [|i r].
  - cbn. split; apply quiet_refl.
  - cbn [is_empty]. set (urls := firstn 5 (i :: r)).
    destruct (submit_downloads_spec o urls w) as (F & Q1 & Q2 & C).
    destruct (submit_downloads o urls w) as [w1 fs]. cbn [fst snd] in *.
    destruct (collect_uploads_spec o (completion_order o fs) w1 [])
      as (S & R1 & R2 & R3).
    split; eapply quiet_trans; eassumption.
Qed.

(** *** The gate *)

Lemma needs_final_iff cfg price trust_score similar :
  needs_final cfg price trust_score similar = true <->
  (GPT5_PRICE_THRESHOLD cfg <= Z.of_N price)%Z
  \/ (trust_score < TRUST_SCORE_PUBLISH cfg)%Q
  \/ (0 < length similar)%nat.
Proof.
  unfold needs_final. rewrite !orb_true_iff, Z.leb_le, Qltb_lt, Nat.ltb_lt.
  tauto.
Qed.

Lemma passes_gate_price n :
  missing_critical n = false ->
  exists p, n_price n = Some p /\ p <> 0%N /\ n_images n <> [].
Proof.
  unfold missing_critical, price_missing. intro H.
  apply orb_false_iff in H. destruct H as [Hp Hi].
  destruct (n_price n) as [p|]; [|discriminate].
  exists p. split; [reflexivity|]. split.
  - apply N.eqb_neq. exact Hp.
  - intro E. rewrite E in Hi. discriminate.
Qed.

Lemma finalize_not_escalated cfg o n trust_score similar w :
  needs_final cfg (listed_price n) trust_score similar
  && Qltb (gpt5 (model_spend w)) (DAILY_GPT5_BUDGET cfg) = false ->
  finalize cfg o n trust_score similar w
  = (w, Ok (default_decision (listed_price n) trust_score)).
Proof. intro H. unfold finalize. rewrite H. reflexivity. Qed.

Lemma finalize_escalated cfg o n price trust_score similar w :
  n_price n = Some price ->
  needs_final cfg (listed_price n) trust_score similar
  && Qltb (gpt5 (model_spend w)) (DAILY_GPT5_BUDGET cfg) = true ->
  exists w1 d,
    finalize cfg o n trust_score similar w = (w1, Ok d)
    /\ count_calls is_gpt5_finalize w1 = S (count_calls is_gpt5_finalize w)
    /\ production_portal_listings w1 = production_portal_listings w
    /\ trusted_listings w1 = trusted_listings w
    /\ (gpt5 (model_spend w1) = gpt5 (model_spend w) + 0.05
        \/ gpt5 (model_spend w1) = gpt5 (model_spend w) + 0.05 + 0.05)%Q.
Proof.
  intros Hp H. unfold finalize. rewrite H.
  unfold call_gpt5_finalize, update_daily_spend. rewrite Hp.
  destruct (openai_client cfg); cbn [negb].
  - destruct (gpt5_reply o) as [d|]; eexists; eexists;
      (split; [reflexivity|]); cbn; auto.
  - eexists; eexists; (split; [reflexivity|]); cbn; auto.
Qed.

(** *** Rows *)

Lemma set_status_only s : touches_status_only (set_status s).
Proof. intro r. repeat split. Qed.

Lemma set_status_trust_only s t : touches_status_only (set_status_trust s t).
Proof. intro r. repeat split. Qed.

Lemma find_update_same id f rows :
  (forall r, row_id (f r) = row_id r) ->
  find (fun r => Z.eqb (row_id r) id) (update_where id f rows)
  = option_map f (find (fun r => Z.eqb (row_id r) id) rows).
Proof.
  intro Hf. induction rows as [|r rows IH]; [reflexivity|].
  cbn [update_where map find].
  destruct (Z.eqb (row_id r) id) eqn:E.
  - rewrite Hf, E. reflexivity.
  - rewrite E. exact IH.
Qed.

Lemma find_update_other id id' f rows :
  (forall r, row_id (f r) = row_id r) ->
  id <> id' ->
  find (fun r => Z.eqb (row_id r) id) (update_where id' f rows)
  = find (fun r => Z.eqb (row_id r) id) rows.
Proof.
  intros Hf Hne. induction rows as [|r rows IH]; [reflexivity|].
  cbn [update_where map find].
  destruct (Z.eqb (row_id r) id') eqn:E'.
  - rewrite Hf. apply Z.eqb_eq in E'.
    destruct (Z.eqb (row_id r) id) eqn:E; [apply Z.eqb_eq in E; congruence|].
    exact IH.
  - destruct (Z.eqb (row_id r) id); [reflexivity|exact IH].
Qed.

(** *** One iteration *)

Lemma settle_spec cfg o b id raw n trust_score final w :
  let b' := settle cfg o b id raw n trust_score final w in
  model_spend (the_world b') = model_spend w
  /\ count_calls is_gpt5_finalize (the_world b') = count_calls is_gpt5_finalize w
  /\ count_calls is_anthropic_validation (the_world b')
     = count_calls is_anthropic_validation w
  /\ (exists s, (s = Spublished \/ s = Sneeds_review)
       /\ production_portal_listings (the_world b')
          = update_where id (set_status_trust s trust_score)
              (production_portal_listings w)).
Proof.
  unfold settle.
  destruct (cache_images_quiet o (n_images n) w) as [Q1 Q2].
  destruct (cache_images o (n_images n) w) as [w1 cached]. cbn [fst] in *.
  destruct Q1 as (S1 & L1 & _ & _ & _ & C1).
  destruct Q2 as (_ & _ & _ & _ & _ & C2).
  destruct (approve final && Qgeb trust_score (TRUST_SCORE_PUBLISH cfg));
    cbn; unfold count_calls in *; cbn; rewrite ?S1, ?L1;
    (repeat split; try assumption);
    eexists; (split; [|reflexivity]); auto.
Qed.

Lemma assess_spec cfg o id n c w w1 trust_score similar :
  assess cfg o id n c w = (w1, trust_score, similar) ->
  production_portal_listings w1 = production_portal_listings w
  /\ trusted_listings w1 = trusted_listings w
  /\ count_calls is_gpt5_finalize w1 = count_calls is_gpt5_finalize w
  /\ (gpt5 (model_spend w1) = gpt5 (model_spend w)
      \/ gpt5 (model_spend w1) = (gpt5 (model_spend w) + 0.0001)%Q)
  /\ (perplexity (model_spend w1) = perplexity (model_spend w)
      \/ (perplexity (model_spend w) < DAILY_PERPLEXITY_BUDGET cfg)%Q
         /\ perplexity (model_spend w1) = (perplexity (model_spend w) + 0.03)%Q).
Proof.
  unfold assess, call_anthropic_validation, call_perplexity_check, get_embedding,
    find_similar, save_embedding, update_daily_spend.
  repeat break_step; intro H; injection H as <- <- <-; cbn; auto 10;
    repeat split; auto;
    right; (split; [|reflexivity]);
    match goal with
    | H : Qgeb _ _ = false |- _ =>
        apply Qltb_lt; unfold Qltb; cbn in H; unfold Qgeb in H;
        rewrite H; reflexivity
    end.
Qed.

Lemma process_listing_gated cfg b id raw n0 c0 o :
  missing_critical (fst (reload id n0 c0 (the_world b))) = true ->
  process_listing cfg b (id, raw, n0, c0) o
  = ({| the_world := update_listing id (set_status Sneeds_human) (the_world b);
        validated_ids := validated_ids b;
        needs_human := needs_human b ++ [id] |}, None).
Proof.
  intro H. unfold process_listing.
  destruct (reload id n0 c0 (the_world b)) as [n c]. cbn [fst] in H.
  rewrite H. reflexivity.
Qed.

(** What an iteration does once the gate is passed. *)
Lemma process_listing_passed cfg b id raw n0 c0 o n c w1 trust_score similar :
  reload id n0 c0 (the_world b) = (n, c) ->
  missing_critical n = false ->
  assess cfg o id n c (the_world b) = (w1, trust_score, similar) ->
  exists w2 d,
    finalize cfg o n trust_score similar w1 = (w2, Ok d)
    /\ process_listing cfg b (id, raw, n0, c0) o
       = (settle cfg o b id raw n trust_score d w2, None).
Proof.
  intros Hr Hg Ha. unfold process_listing. rewrite Hr, Hg, Ha.
  destruct (passes_gate_price n Hg) as (p & Hp & _).
  destruct (needs_final cfg (listed_price n) trust_score similar
            && Qltb (gpt5 (model_spend w1)) (DAILY_GPT5_BUDGET cfg)) eqn:E.
  - destruct (finalize_escalated cfg o n p trust_score similar w1 Hp E)
      as (w2 & d & -> & _).
    exists w2, d. split; reflexivity.
  - rewrite (finalize_not_escalated cfg o n trust_score similar w1 E).
    eexists; eexists; split; reflexivity.
Qed.

(** With typed replies no iteration raises: the one exception of the
    model, the comparison of a null price in [call_gpt5_finalize], lies
    behind the gate. *)
Lemma process_listing_never_raises cfg b m o :
  snd (process_listing cfg b m o) = None.
Proof.
  destruct m as [[[id raw] n0] c0].
  destruct (reload id n0 c0 (the_world b)) as [n c] eqn:Hr.
  destruct (missing_critical n) eqn:Hg.
  - rewrite process_listing_gated; [reflexivity|]. rewrite Hr. exact Hg.
  - destruct (assess cfg o id n c (the_world b)) as [[w1 t] sim] eqn:Ha.
    destruct (process_listing_passed cfg b id raw n0 c0 o n c w1 t sim Hr Hg Ha)
      as (w2 & d & _ & ->).
    reflexivity.
Qed.

Lemma postprocess_never_raises cfg ms : forall b,
  snd (postprocess cfg b ms) = None.
Proof.
  induction ms as [|[m o] ms IH]; intro b; cbn [postprocess]; [reflexivity|].
  pose proof (process_listing_never_raises cfg b m o) as H.
  destruct (process_listing cfg b m o) as [b' [e|]]; [discriminate|].
  apply IH.
Qed.

(** The escalation test as it is coded.  For a listing that passes the
    missing-field gate, [call_gpt5_finalize] is invoked (once) exactly
    when the price is at least [GPT5_PRICE_THRESHOLD], or the trust
    score is below [TRUST_SCORE_PUBLISH], or the scan returned an id,
    and the gpt5 counter as the gate reads it is below
    [DAILY_GPT5_BUDGET]; otherwise it is not invoked.  The ids the scan
    returns include the listing's own, see
    [unique_listing_is_escalated]. *)
Theorem escalation_rule cfg b id raw n0 c0 o n c w1 trust_score similar :
  reload id n0 c0 (the_world b) = (n, c) ->
  missing_critical n = false ->
  assess cfg o id n c (the_world b) = (w1, trust_score, similar) ->
  let before := count_calls is_gpt5_finalize (the_world b) in
  let after :=
    count_calls is_gpt5_finalize
      (the_world (fst (process_listing cfg b (id, raw, n0, c0) o))) in
  let warranted :=
    (GPT5_PRICE_THRESHOLD cfg <= Z.of_N (listed_price n))%Z
    \/ (trust_score < TRUST_SCORE_PUBLISH cfg)%Q
    \/ (0 < length similar)%nat in
  let in_budget := (gpt5 (model_spend w1) < DAILY_GPT5_BUDGET cfg)%Q in
  (after = S before <-> warranted /\ in_budget)
  /\ (after = before <-> ~ (warranted /\ in_budget))
  /\ ((GPT5_PRICE_THRESHOLD cfg <= Z.of_N (listed_price n))%Z ->
      in_budget -> after = S before).
Proof.
  intros Hr Hg Ha. cbv zeta.
  destruct (process_listing_passed cfg b id raw n0 c0 o n c w1 trust_score similar
              Hr Hg Ha) as (w2 & d & Hf & ->).
  destruct (assess_spec _ _ _ _ _ _ _ _ _ Ha) as (_ & _ & Hc & _).
  destruct (settle_spec cfg o b id raw n trust_score d w2) as (_ & Hs & _).
  cbn [fst]. rewrite Hs, <- Hc.
  rewrite <- needs_final_iff, <- Qltb_lt, <- andb_true_iff.
  destruct (passes_gate_price n Hg) as (p & Hp & _).
  destruct (needs_final cfg (listed_price n) trust_score similar
            && Qltb (gpt5 (model_spend w1)) (DAILY_GPT5_BUDGET cfg)) eqn:E.
  - destruct (finalize_escalated cfg o n p trust_score similar w1 Hp E)
      as (w2' & d' & Hf' & Hcount & _).
    rewrite Hf in Hf'. injection Hf' as <- <-. rewrite Hcount.
    split; [tauto|]. split; [|tauto].
    split; [lia|]. intro H. exfalso. apply H. reflexivity.
  - rewrite (finalize_not_escalated cfg o n trust_score similar w1 E) in Hf.
    injection Hf as <- <-.
    split; [split; [lia|discriminate]|]. split; [split; [discriminate|reflexivity]|].
    intros Hprice Hbudget. exfalso.
    assert (Hn : needs_final cfg (listed_price n) trust_score similar = true)
      by (apply needs_final_iff; auto).
    rewrite Hn, Hbudget in E. discriminate.
Qed.




(** *** Gate: needs_human *)

Lemma process_listing_rows cfg b id raw n0 c0 o :
  exists f, touches_status_only f
    /\ production_portal_listings
         (the_world (fst (process_listing cfg b (id, raw, n0, c0) o)))
       = update_where id f (production_portal_listings (the_world b)).
Proof.
  destruct (reload id n0 c0 (the_world b)) as [n c] eqn:Hr.
  destruct (missing_critical n) eqn:Hg.
  - rewrite process_listing_gated by (rewrite Hr; exact Hg).
    exists (set_status Sneeds_human). split; [apply set_status_only|reflexivity].
  - destruct (assess cfg o id n c (the_world b)) as [[w1 t] sim] eqn:Ha.
    destruct (process_listing_passed cfg b id raw n0 c0 o n c w1 t sim Hr Hg Ha)
      as (w2 & d & Hf & ->).
    destruct (assess_spec _ _ _ _ _ _ _ _ _ Ha) as (Hrows & _).
    destruct (settle_spec cfg o b id raw n t d w2) as (_ & _ & _ & s & _ & Hs).
    cbn [fst]. rewrite Hs.
    assert (Hw2 : production_portal_listings w2 = production_portal_listings w1).
    { destruct (passes_gate_price n Hg) as (p & Hp & _).
      destruct (needs_final cfg (listed_price n) t sim
                && Qltb (gpt5 (model_spend w1)) (DAILY_GPT5_BUDGET cfg)) eqn:E.
      - destruct (finalize_escalated cfg o n p t sim w1 Hp E)
          as (w2' & d' & Hf' & _ & Hl & _).
        rewrite Hf in Hf'. injection Hf' as <- <-. exact Hl.
      - rewrite (finalize_not_escalated cfg o n t sim w1 E) in Hf.
        injection Hf as <- <-. reflexivity. }
    rewrite Hw2, Hrows.
    exists (set_status_trust s t). split; [apply set_status_trust_only|reflexivity].
Qed.

Lemma postprocess_stays_needs_human cfg id ms : forall b row,
  select_row id (the_world b) = Some row ->
  missing_critical (row_normalized row) = true ->
  row_status row = Sneeds_human ->
  exists row',
    select_row id (the_world (fst (postprocess cfg b ms))) = Some row'
    /\ row_normalized row' = row_normalized row
    /\ row_status row' = Sneeds_human.
Proof.
  induction ms as [|[[[[id' raw] n0] c0] o] ms IH]; intros b row Hsel Hg Hst.
  - exists row. auto.
  - cbn [postprocess].
    pose proof (process_listing_never_raises cfg b (id', raw, n0, c0) o) as Hn.
    destruct (Z.eq_dec id id') as [<-|Hne].
    + rewrite process_listing_gated in *
        by (unfold reload; rewrite Hsel; exact Hg).
      destruct (IH {| the_world :=
                        update_listing id (set_status Sneeds_human) (the_world b);
                      validated_ids := validated_ids b;
                      needs_human := needs_human b ++ [id] |}
                   (set_status Sneeds_human row)) as (row' & H1 & H2 & H3);
        try assumption; try reflexivity.
      * unfold select_row, update_listing. cbn.
        rewrite find_update_same by reflexivity.
        unfold select_row in Hsel. rewrite Hsel. reflexivity.
      * exists row'. auto.
    + destruct (process_listing_rows cfg b id' raw n0 c0 o) as (f & Hf & Hrows).
      destruct (process_listing cfg b (id', raw, n0, c0) o) as [b1 e].
      cbn [fst snd] in *. subst e.
      apply (IH b1 row); try assumption.
      unfold select_row. rewrite Hrows.
      rewrite find_update_other; [exact Hsel| |exact Hne].
      intro r. apply Hf.
Qed.

Lemma postprocess_needs_human cfg id ms : forall b row,
  select_row id (the_world b) = Some row ->
  missing_critical (row_normalized row) = true ->
  In id (map (fun mo => fst (fst (fst (fst mo)))) ms) ->
  exists row',
    select_row id (the_world (fst (postprocess cfg b ms))) = Some row'
    /\ row_normalized row' = row_normalized row
    /\ row_status row' = Sneeds_human.
Proof.
  induction ms as [|[[[[id' raw] n0] c0] o] ms IH]; intros b row Hsel Hg Hin.
  - destruct Hin.
  - cbn [postprocess].
    pose proof (process_listing_never_raises cfg b (id', raw, n0, c0) o) as Hn.
    destruct (Z.eq_dec id id') as [<-|Hne].
    + rewrite process_listing_gated in *
        by (unfold reload; rewrite Hsel; exact Hg).
      apply (postprocess_stays_needs_human cfg id ms _ (set_status Sneeds_human row));
        try assumption; try reflexivity.
      unfold select_row, update_listing. cbn.
      rewrite find_update_same by reflexivity.
      unfold select_row in Hsel. rewrite Hsel. reflexivity.
    + destruct (process_listing_rows cfg b id' raw n0 c0 o) as (f & Hf & Hrows).
      destruct (process_listing cfg b (id', raw, n0, c0) o) as [b1 e].
      cbn [fst snd] in *. subst e.
      apply (IH b1 row); try assumption.
      * unfold select_row. rewrite Hrows.
        rewrite find_update_other; [exact Hsel| |exact Hne].
        intro r. apply Hf.
      * destruct Hin as [Hin|Hin]; [cbn in Hin; congruence|exact Hin].
Qed.

(** C4.  A listing whose stored record has a null price or an empty
    image list is set to [needs_human] by its iteration, which does
    nothing else: no provider call, no spend, no embedding, no row in
    [trusted_listings].  Its status is still [needs_human] when the loop
    over any list of mappings that contains it has finished. *)
Theorem missing_field_gate cfg b id raw n0 c0 o row :
  select_row id (the_world b) = Some row ->
  n_price (row_normalized row) = None \/ n_images (row_normalized row) = [] ->
  let w := the_world b in
  let w' := the_world (fst (process_listing cfg b (id, raw, n0, c0) o)) in
  process_listing cfg b (id, raw, n0, c0) o
  = ({| the_world := update_listing id (set_status Sneeds_human) w;
        validated_ids := validated_ids b;
        needs_human := needs_human b ++ [id] |}, None)
  /\ option_map row_status (select_row id w') = Some Sneeds_human
  /\ calls w' = calls w
  /\ model_spend w' = model_spend w
  /\ listing_embeddings w' = listing_embeddings w
  /\ trusted_listings w' = trusted_listings w
  /\ forall ms, In id (listing_ids ms) ->
       option_map row_status
         (select_row id (the_world (fst (postprocess cfg b ms))))
       = Some Sneeds_human.
Proof.
  intros Hsel Hmiss w w'.
  assert (Hg : missing_critical (row_normalized row) = true).
  { unfold missing_critical, price_missing.
    destruct Hmiss as [-> | ->]; [reflexivity|apply orb_true_r]. }
  assert (Hstep : process_listing cfg b (id, raw, n0, c0) o
                  = ({| the_world := update_listing id (set_status Sneeds_human) w;
                        validated_ids := validated_ids b;
                        needs_human := needs_human b ++ [id] |}, None)).
  { apply process_listing_gated. unfold reload. rewrite Hsel. exact Hg. }
  split; [exact Hstep|].
  subst w'. rewrite Hstep. cbn [fst the_world].
  split.
  { unfold select_row, update_listing. cbn.
    rewrite find_update_same by reflexivity.
    unfold select_row in Hsel. subst w. rewrite Hsel. reflexivity. }
  repeat (split; [reflexivity|]).
  intros ms Hin.
  destruct (postprocess_needs_human cfg id ms b row Hsel Hg Hin) as (row' & -> & _ & Hs).
  cbn. rewrite Hs. reflexivity.
Qed.

(** *** Budget *)

Lemma process_listing_spend cfg b m o :
  let s := model_spend (the_world b) in
  let b' := fst (process_listing cfg b m o) in
  let s' := model_spend (the_world b') in
  (perplexity s' = perplexity s
   \/ (perplexity s < DAILY_PERPLEXITY_BUDGET cfg)%Q
      /\ perplexity s' = (perplexity s + 0.03)%Q)
  /\ ((DAILY_GPT5_BUDGET cfg <= gpt5 s)%Q ->
      count_calls is_gpt5_finalize (the_world b')
      = count_calls is_gpt5_finalize (the_world b)
      /\ (gpt5 s' = gpt5 s \/ gpt5 s' = (gpt5 s + 0.0001)%Q)).
Proof.
  destruct m as [[[id raw] n0] c0]. cbv zeta.
  destruct (reload id n0 c0 (the_world b)) as [n c] eqn:Hr.
  destruct (missing_critical n) eqn:Hg.
  - rewrite process_listing_gated by (rewrite Hr; exact Hg).
    cbn. auto.
  - destruct (assess cfg o id n c (the_world b)) as [[w1 t] sim] eqn:Ha.
    destruct (process_listing_passed cfg b id raw n0 c0 o n c w1 t sim Hr Hg Ha)
      as (w2 & d & Hf & ->).
    destruct (assess_spec _ _ _ _ _ _ _ _ _ Ha) as (_ & _ & Hc & Hgpt & Hper).
    destruct (settle_spec cfg o b id raw n t d w2) as (Hs & Hcs & _).
    cbn [fst]. rewrite Hs, Hcs.
    destruct (passes_gate_price n Hg) as (p & Hp & _).
    split.
    + assert (Hw2 : perplexity (model_spend w2) = perplexity (model_spend w1)).
      { destruct (needs_final cfg (listed_price n) t sim
                  && Qltb (gpt5 (model_spend w1)) (DAILY_GPT5_BUDGET cfg)) eqn:E.
        - revert Hf. unfold finalize. rewrite E.
          unfold call_gpt5_finalize, update_daily_spend. rewrite Hp.
          repeat break_step; intro Hf; injection Hf as <- _; reflexivity.
        - rewrite (finalize_not_escalated cfg o n t sim w1 E) in Hf.
          injection Hf as <- _. reflexivity. }
      rewrite Hw2. exact Hper.
    + intro Hcap.
      assert (E : needs_final cfg (listed_price n) t sim
                  && Qltb (gpt5 (model_spend w1)) (DAILY_GPT5_BUDGET cfg) = false).
      { apply andb_false_iff. right. apply Qltb_ge.
        destruct Hgpt as [-> | ->]; [exact Hcap|].
        eapply Qle_trans; [exact Hcap|].
        rewrite <- (Qplus_0_r (gpt5 (model_spend (the_world b)))) at 1.
        apply Qplus_le_r. discriminate. }
      rewrite (finalize_not_escalated cfg o n t sim w1 E) in Hf.
      injection Hf as <- _. split; [exact Hc|exact Hgpt].
Qed.

Lemma postprocess_perplexity cfg ms : forall b,
  (perplexity (model_spend (the_world (fst (postprocess cfg b ms))))
   <= Qmax (perplexity (model_spend (the_world b)))
           (DAILY_PERPLEXITY_BUDGET cfg + 0.03))%Q.
Proof.
  induction ms as [|[m o] ms IH]; intro b; cbn [postprocess].
  - apply Q.le_max_l.
  - pose proof (process_listing_never_raises cfg b m o) as Hn.
    destruct (process_listing_spend cfg b m o) as [Hp _].
    destruct (process_listing cfg b m o) as [b1 e]. cbn [fst snd] in *. subst e.
    eapply Qle_trans; [apply IH|].
    apply Q.max_lub; [|apply Q.le_max_r].
    destruct Hp as [-> | [Hlt ->]]; [apply Q.le_max_l|].
    eapply Qle_trans; [|apply Q.le_max_r].
    apply Qplus_le_l. apply Qlt_le_weak. exact Hlt.
Qed.

Lemma postprocess_at_cap cfg ms : forall b,
  (DAILY_GPT5_BUDGET cfg <= gpt5 (model_spend (the_world b)))%Q ->
  let b' := fst (postprocess cfg b ms) in
  count_calls is_gpt5_finalize (the_world b')
  = count_calls is_gpt5_finalize (the_world b)
  /\ (gpt5 (model_spend (the_world b)) <= gpt5 (model_spend (the_world b'))
      /\ gpt5 (model_spend (the_world b'))
         <= gpt5 (model_spend (the_world b))
            + 0.0001 * inject_Z (Z.of_nat (length ms)))%Q.
Proof.
  induction ms as [|[m o] ms IH]; intros b Hcap; cbn [postprocess].
  - cbn. split; [reflexivity|]. split; [apply Qle_refl|].
    rewrite Qmult_0_r, Qplus_0_r. apply Qle_refl.
  - pose proof (process_listing_never_raises cfg b m o) as Hn.
    destruct (process_listing_spend cfg b m o) as [_ Hg].
    destruct (Hg Hcap) as (Hc & Hs). clear Hg.
    destruct (process_listing cfg b m o) as [b1 e]. cbn [fst snd] in *. subst e.
    assert (Hle : (gpt5 (model_spend (the_world b))
                   <= gpt5 (model_spend (the_world b1))
                   /\ gpt5 (model_spend (the_world b1))
                      <= gpt5 (model_spend (the_world b)) + 0.0001)%Q).
    { destruct Hs as [-> | ->]; split; try apply Qle_refl.
      - rewrite <- (Qplus_0_r (gpt5 (model_spend (the_world b)))) at 1.
        apply Qplus_le_r. discriminate.
      - rewrite <- (Qplus_0_r (gpt5 (model_spend (the_world b)))) at 1.
        apply Qplus_le_r. discriminate. }
    destruct Hle as [Hle1 Hle2].
    destruct (IH b1 (Qle_trans _ _ _ Hcap Hle1)) as (Hc' & Hlo & Hhi).
    split; [congruence|]. split; [eapply Qle_trans; eassumption|].
    eapply Qle_trans; [exact Hhi|].
    cbn [length]. rewrite Nat2Z.inj_succ. unfold Z.succ. rewrite inject_Z_plus.
    change (inject_Z 1) with 1%Q.
    set (k := inject_Z (Z.of_nat (length ms))) in *.
    set (x := gpt5 (model_spend (the_world b1))) in *.
    set (y := gpt5 (model_spend (the_world b))) in *.
    lra.
Qed.

(** *** Budget, escalation and gate on sample data *)

(** C1, as amended.  Through any run of the per-listing loop the
    perplexity counter stays at or below the larger of its starting
    value and the perplexity cap plus one call's cost.  For the gpt5
    counter the cap gates the finalization call only: once the counter
    has reached [DAILY_GPT5_BUDGET] the loop makes no finalization call,
    and the counter grows by the embedding charge alone, which no cap
    gates: at most 0.0001 per listing. *)
Theorem budget_gate cfg b ms :
  let b' := fst (postprocess cfg b ms) in
  let s := model_spend (the_world b) in
  let s' := model_spend (the_world b') in
  (perplexity s' <= Qmax (perplexity s) (DAILY_PERPLEXITY_BUDGET cfg + 0.03))%Q
  /\ ((DAILY_GPT5_BUDGET cfg <= gpt5 s)%Q ->
      count_calls is_gpt5_finalize (the_world b')
      = count_calls is_gpt5_finalize (the_world b)
      /\ (gpt5 s <= gpt5 s')%Q
      /\ (gpt5 s' <= gpt5 s + 0.0001 * inject_Z (Z.of_nat (length ms)))%Q).
Proof.
  cbv zeta. split; [apply postprocess_perplexity|].
  intro H. apply postprocess_at_cap. exact H.
Qed.

(** [budget_gate] at a listing worth 2,500,000 met with the counter at
    the default cap of 50. *)
Lemma budget_gate_witness :
  count_calls is_gpt5_finalize
    (the_world (fst (postprocess (default_config true true true)
       (fresh_batch (world_with (listing (Some 2500000%N) [img_a]) 0.9 50))
       [mapped (listing (Some 2500000%N) [img_a]) 0.9 all_succeed])))
  = 0%nat.
Proof.
  refine (proj1 (proj2 (budget_gate (default_config true true true)
            (fresh_batch (world_with (listing (Some 2500000%N) [img_a]) 0.9 50))
            [mapped (listing (Some 2500000%N) [img_a]) 0.9 all_succeed]) _)).
  vm_compute. discriminate.
Defined.

(** C1 as stated fails.  With the premium budget set to 0 and 501
    scraped listings whose embeddings are all returned, no finalization
    call is made and yet the gpt5 counter ends above the cap plus the
    cost of a finalization call (0.05). *)
Lemma embeddings_exceed_cap :
  let b := fst (process_ingest_batch sample_isdigit sample_decimal_value
                  premium_disabled ts_0600
                  (repeat (scraped (SStr price_100) [img_a], all_succeed) 501)
                  empty_world) in
  count_calls is_gpt5_finalize (the_world b) = 0%nat
  /\ (DAILY_GPT5_BUDGET premium_disabled + 0.05
      < gpt5 (model_spend (the_world b)))%Q.
Proof. vm_compute. split; reflexivity. Qed.

(** An escalated listing whose chat call succeeds is charged 0.05 by
    [call_gpt5_finalize] and 0.05 again by the loop, on top of the
    embedding. *)
Example double_charge :
  let b := fst (process_ingest_batch sample_isdigit sample_decimal_value
                  (default_config false true true) ts_0600
                  [(scraped (SInt 2500000) [img_a], all_succeed)]
                  empty_world) in
  count_calls is_gpt5_finalize (the_world b) = 1%nat
  /\ (gpt5 (model_spend (the_world b)) == 0.0001 + 0.05 + 0.05)%Q.
Proof. vm_compute. split; reflexivity. Qed.

(** Scenario 2 of the spec: price 2,500,000, trust 0.9, no duplicates
    (the embedding call failed, and a zero vector is similar to
    nothing), budget available. *)
Lemma escalation_rule_witness :
  let cfg := default_config true true true in
  let n := listing (Some 2500000%N) [img_a] in
  let b := fresh_batch (world_with n 0.9 0) in
  snd (assess cfg embedding_fails 1 n 0.9 (the_world b)) = []
  /\ snd (fst (assess cfg embedding_fails 1 n 0.9 (the_world b))) == 0.9
  /\ count_calls is_gpt5_finalize
       (the_world (fst (process_listing cfg b
                          (fst (mapped n 0.9 embedding_fails)) embedding_fails)))
     = 1%nat.
Proof.
  cbv zeta.
  pose (cfg := default_config true true true).
  pose (n := listing (Some 2500000%N) [img_a]).
  pose (b := fresh_batch (world_with n 0.9 0)).
  pose (a := assess cfg embedding_fails 1 n 0.9 (the_world b)).
  split; [vm_compute; reflexivity|]. split; [vm_compute; reflexivity|].
  refine (proj2 (proj2 (escalation_rule cfg b 1%Z (scraped SNone []) n 0.9
            embedding_fails n 0.9 (fst (fst a)) (snd (fst a)) (snd a) _ _ _)) _ _).
  - reflexivity.
  - reflexivity.
  - vm_compute. reflexivity.
  - vm_compute. discriminate.
  - vm_compute. reflexivity.
Defined.


(** Scenario 1 of the spec, at the gate: a price but no images. *)
Lemma missing_field_gate_witness :
  let n := listing (Some 450000%N) [] in
  let b := fresh_batch (world_with n 0.6 0) in
  let m := mapped n 0.6 all_succeed in
  option_map row_status
    (select_row 1 (the_world (fst (process_listing (default_config true true true)
                                     b (fst m) all_succeed))))
  = Some Sneeds_human
  /\ option_map row_status
       (select_row 1 (the_world (fst (postprocess (default_config true true true)
                                        b [m; m]))))
     = Some Sneeds_human.
Proof.
  cbv zeta.
  pose proof (missing_field_gate (default_config true true true)
                (fresh_batch (world_with (listing (Some 450000%N) []) 0.6 0))
                1%Z (scraped SNone []) (listing (Some 450000%N) []) 0.6 all_succeed
                (stored_row 1 (listing (Some 450000%N) []) 0.6)
                eq_refl (or_intror eq_refl)) as H.
  cbv zeta in H. destruct H as (_ & Hstep & _ & _ & _ & _ & Hloop).
  split; [exact Hstep|].
  apply Hloop. left. reflexivity.
Defined.

(** A listing whose embedding is returned is found similar to itself:
    the scan reads the row that [save_embedding] has just written. *)
Example own_embedding_is_similar :
  let n := listing (Some 100%N) [img_a] in
  snd (assess (default_config true true true) all_succeed 1 n 0.9
         (world_with n 0.9 0)) = [1%Z].
Proof. vm_compute. reflexivity. Qed.

(** C2 fails in the code.  One listing is stored and no embedding is:
    the listing has no duplicate.  Its price, 100, is below
    [GPT5_PRICE_THRESHOLD]; with price, image and contact its
    confidence is 0.9, so it is not validated and its trust score, 0.9,
    is at or above [TRUST_SCORE_PUBLISH].  The embedding provider
    answers.  [save_embedding] then stores the vector, the scan that
    follows finds it, and [len(similar) > 0] holds of the listing's own
    row: [call_gpt5_finalize] is invoked and the gpt5 counter is
    charged 0.0001 + 0.05 + 0.05. *)
Theorem unique_listing_is_escalated :
  let cfg := default_config true true true in
  let b := fresh_batch (world_with cheap_listing 0.9 0) in
  let a := assess cfg all_succeed 1 cheap_listing 0.9 (the_world b) in
  let b' := fst (process_listing cfg b
                   (1%Z, scraped (SStr price_100) [img_a], cheap_listing, 0.9%Q)
                   all_succeed) in
  map row_id (production_portal_listings (the_world b)) = [1%Z]
  /\ listing_embeddings (the_world b) = []
  /\ missing_critical cheap_listing = false
  /\ (Z.of_N (listed_price cheap_listing) < GPT5_PRICE_THRESHOLD cfg)%Z
  /\ (TRUST_SCORE_PUBLISH cfg <= snd (fst a))%Q
  /\ (gpt5 (model_spend (the_world b)) < DAILY_GPT5_BUDGET cfg)%Q
  /\ snd a = [1%Z]
  /\ count_calls is_gpt5_finalize (the_world b) = 0%nat
  /\ count_calls is_gpt5_finalize (the_world b') = 1%nat
  /\ (gpt5 (model_spend (the_world b')) == 0.1001)%Q.
Proof.
  cbv zeta. repeat split; try (vm_compute; reflexivity);
    vm_compute; discriminate.
Qed.

(** Scenario 4 of the spec: similarity 3 / sqrt 10, about 0.95, is over
    the default threshold. *)
Example close_vectors_are_similar :
  find_similar_by_embedding [(7%Z, [3; 1]%Q)] [1; 0]%Q 0.92 = [7%Z].
Proof. vm_compute. reflexivity. Qed.

(** Scenario 1 end to end. *)
Example rupees_without_images_needs_human :
  let b := fst (process_ingest_batch sample_isdigit sample_decimal_value
                  (default_config false true true) ts_0600
                  [(scraped (SStr rupees_4_50_000) [], all_succeed)]
                  empty_world) in
  map row_status (production_portal_listings (the_world b)) = [Sneeds_human]
  /\ map (fun r => n_price (row_normalized r))
       (production_portal_listings (the_world b)) = [Some 450000%N]
  /\ trusted_listings (the_world b) = []
  /\ calls (the_world b) = [].
Proof. vm_compute. repeat split. Qed.

(** ** Image caching and the unconfigured finalizer *)

Lemma downloaded_in p l : In (Some p) l -> p <> [] -> In p (downloaded l).
Proof.
  intros Hin Hp. induction l as [|[q|] l IH]; cbn [downloaded].
  - destruct Hin.
  - destruct Hin as [E|Hin].
    + injection E as ->. destruct p; [congruence|]. left. reflexivity.
    + destruct (is_empty q); [|right]; apply IH; exact Hin.
  - destruct Hin as [E|Hin]; [discriminate|]. apply IH. exact Hin.
Qed.

(** C9, as amended.  At most 5 images of a listing are downloaded.  The
    cached-image list holds, in completion order, one entry for each of
    them whose download succeeded: the public URL when the upload
    succeeded, and the local path under [file://] when the upload
    failed.  A failed download contributes nothing, and no failure
    makes the iteration raise. *)
Theorem cached_images_entries cfg b m o images w :
  completes_each_once o ->
  let attempted := firstn 5 images in
  let results := map (download_reply o) attempted in
  let w' := fst (cache_images o images w) in
  let cached := snd (cache_images o images w) in
  count_calls is_download_image w'
  = (count_calls is_download_image w + length attempted)%nat
  /\ (length attempted <= 5)%nat
  /\ Permutation cached (map (upload_result o) (downloaded results))
  /\ (length cached <= 5)%nat
  /\ (forall p, In (Some p) results -> p <> [] -> upload_reply o p = None ->
        In (file_scheme ++ p) cached)
  /\ snd (process_listing cfg b m o) = None.
Proof.
  intro Hc. cbv zeta.
  destruct (cache_images_spec o images w Hc) as (Hcached & _ & _ & Hcount).
  assert (Hperm : Permutation (snd (cache_images o images w))
                    (map (upload_result o)
                       (downloaded (map (download_reply o) (firstn 5 images))))).
  { rewrite Hcached. apply Permutation_map, downloaded_perm, Hc. }
  assert (H5 : (length (firstn 5 images) <= 5)%nat) by apply firstn_le_length.
  split; [exact Hcount|]. split; [exact H5|]. split; [exact Hperm|].
  split.
  - rewrite (Permutation_length Hperm), length_map.
    eapply Nat.le_trans; [apply downloaded_length|].
    rewrite length_map. exact H5.
  - split; [|apply process_listing_never_raises].
    intros p Hin Hp Hup.
    eapply Permutation_in; [apply Permutation_sym; exact Hperm|].
    apply in_map_iff. exists p. split; [|apply downloaded_in; assumption].
    unfold upload_result. rewrite Hup. reflexivity.
Qed.

Lemma uploads_fail_completes : completes_each_once uploads_fail.
Proof. intro l. apply Permutation_refl. Defined.

Lemma cached_images_witness :
  In (file_scheme ++ tmp_a) (snd (cache_images uploads_fail [img_a] empty_world)).
Proof.
  refine (proj1 (proj2 (proj2 (proj2 (proj2
            (cached_images_entries (default_config true true true)
               (fresh_batch empty_world)
               (fst (mapped (listing None []) 0.9 uploads_fail))
               uploads_fail [img_a] empty_world uploads_fail_completes)))))
            tmp_a _ _ _).
  - left. reflexivity.
  - discriminate.
  - reflexivity.
Defined.

(** C9 as stated fails: the upload of the one downloaded image fails,
    and the list, also as published, holds its [file://] path. *)
Lemma failed_upload_is_cached :
  upload_reply uploads_fail tmp_a = None
  /\ snd (cache_images uploads_fail [img_a] empty_world) = [file_scheme ++ tmp_a]
  /\ map (fun r => cached_images (canonical r))
       (trusted_listings (the_world (fst (process_listing
          (default_config true true true)
          (fresh_batch (world_with (listing (Some 100%N) [img_a]) 0.9 0))
          (fst (mapped (listing (Some 100%N) [img_a]) 0.9 uploads_fail))
          uploads_fail))))
     = [[file_scheme ++ tmp_a]].
Proof. vm_compute. repeat split. Qed.




(** ** The upsert *)

Lemma ustring_eqb_eq a : forall b, ustring_eqb a b = true <-> a = b.
Proof.
  induction a as [|x a IH]; intros [|y b]; cbn; split; intro H;
    try reflexivity; try discriminate.
  - apply andb_true_iff in H. destruct H as [H1 H2].
    apply N.eqb_eq in H1. apply IH in H2. congruence.
  - injection H as -> ->. rewrite N.eqb_refl. apply (IH b). reflexivity.
Qed.

Lemma same_identity_key src sid ts r :
  same_identity src sid ts r = true <-> identity_key r = (src, sid, ts).
Proof.
  unfold same_identity, identity_key.
  rewrite !andb_true_iff, !ustring_eqb_eq. split.
  - intros [[-> ->] ->]. reflexivity.
  - intro H. injection H as -> -> ->. auto.
Qed.

Section Upsert.
Variables (src sid ts : ustring) (n : normalized) (raw : raw_item) (c : Q).

Lemma on_conflict_none rows :
  on_conflict src sid ts n raw c rows = None <->
  filter (same_identity src sid ts) rows = [].
Proof.
  induction rows as [|r rs IH]; cbn [on_conflict filter]; [tauto|].
  destruct (same_identity src sid ts r); [split; discriminate|].
  destruct (on_conflict src sid ts n raw c rs) as [[i rs']|].
  - split; [discriminate|]. intro H. apply IH in H. discriminate.
  - rewrite <- IH. tauto.
Qed.

Lemma on_conflict_some rows i rows' :
  on_conflict src sid ts n raw c rows = Some (i, rows') ->
  on_conflict src sid ts n raw c rows' = Some (i, rows')
  /\ map identity_key rows' = map identity_key rows
  /\ map row_id rows' = map row_id rows
  /\ length (filter (same_identity src sid ts) rows')
     = length (filter (same_identity src sid ts) rows)
  /\ (1 <= length (filter (same_identity src sid ts) rows))%nat.
Proof.
  revert i rows'. induction rows as [|r rs IH]; intros i rows';
    cbn [on_conflict]; [discriminate|].
  destruct (same_identity src sid ts r) eqn:E.
  - intro H. injection H as <- <-. cbn [on_conflict filter map].
    change (same_identity src sid ts (overwrite n raw c r))
      with (same_identity src sid ts r).
    rewrite E. cbn. repeat split; lia.
  - destruct (on_conflict src sid ts n raw c rs) as [[j rs']|]; [|discriminate].
    intro H. injection H as <- <-.
    destruct (IH j rs' eq_refl) as (H1 & H2 & H3 & H4 & H5).
    cbn [on_conflict filter map]. rewrite E, H1, H2, H3.
    repeat split; assumption.
Qed.

Lemma on_conflict_appended rows row :
  on_conflict src sid ts n raw c rows = None ->
  same_identity src sid ts row = true ->
  on_conflict src sid ts n raw c (rows ++ [row])
  = Some (row_id row, rows ++ [overwrite n raw c row]).
Proof.
  intros Hn Hrow. induction rows as [|r rs IH]; cbn [on_conflict app].
  - rewrite Hrow. reflexivity.
  - cbn [on_conflict] in Hn. destruct (same_identity src sid ts r); [discriminate|].
    destruct (on_conflict src sid ts n raw c rs) as [[j rs']|]; [discriminate|].
    rewrite IH by reflexivity. reflexivity.
Qed.
End Upsert.

Lemma same_identity_refl raw ts n c i :
  same_identity (source raw) (source_id raw) ts
    {| row_id := i; row_source := source raw; row_source_id := source_id raw;
       row_normalized := n; row_raw := raw; ingest_batch_ts := ts;
       row_status := Sraw; row_confidence := c; row_trust_score := None |} = true.
Proof. apply same_identity_key. reflexivity. Qed.

Lemma save_cached_listing_keys w raw n c ts :
  keys (fst (save_cached_listing w raw n c ts))
  = if existsb (same_identity (source raw) (source_id raw) ts)
         (production_portal_listings w)
    then keys w
    else keys w ++ [(source raw, source_id raw, ts)].
Proof.
  unfold save_cached_listing, keys.
  destruct (on_conflict (source raw) (source_id raw) ts n raw c
              (production_portal_listings w)) as [[i rows']|] eqn:E.
  - destruct (on_conflict_some _ _ _ _ _ _ _ _ _ E) as (_ & Hk & _ & _ & Hlen).
    cbn. rewrite Hk.
    destruct (existsb _ _) eqn:Ex; [reflexivity|].
    exfalso. destruct (filter (same_identity (source raw) (source_id raw) ts)
                         (production_portal_listings w)) as [|r l] eqn:F;
      [cbn in Hlen; lia|].
    assert (Hin : In r (r :: l)) by (left; reflexivity).
    rewrite <- F in Hin. apply filter_In in Hin. destruct Hin as [Hin Hs].
    assert (existsb (same_identity (source raw) (source_id raw) ts)
              (production_portal_listings w) = true)
      by (apply existsb_exists; eauto).
    congruence.
  - apply on_conflict_none in E. cbn. rewrite map_app. cbn.
    destruct (existsb _ _) eqn:Ex; [|reflexivity].
    exfalso. apply existsb_exists in Ex. destruct Ex as (r & Hin & Hs).
    assert (In r (filter (same_identity (source raw) (source_id raw) ts)
                    (production_portal_listings w)))
      by (apply filter_In; auto).
    rewrite E in H. destruct H.
Qed.

Lemma save_twice w raw n c ts :
  let first := save_cached_listing w raw n c ts in
  let second := save_cached_listing (fst first) raw n c ts in
  snd second = snd first
  /\ production_portal_listings (fst second) = production_portal_listings (fst first)
  /\ length (holding (source raw) (source_id raw) ts (fst first))
     = Nat.max 1 (length (holding (source raw) (source_id raw) ts w))
  /\ length (holding (source raw) (source_id raw) ts (fst second))
     = length (holding (source raw) (source_id raw) ts (fst first)).
Proof.
  cbv zeta. unfold holding.
  assert (H : exists i rows1 next,
    save_cached_listing w raw n c ts = (with_listings rows1 next w, i)
    /\ on_conflict (source raw) (source_id raw) ts n raw c rows1 = Some (i, rows1)
    /\ length (filter (same_identity (source raw) (source_id raw) ts) rows1)
       = Nat.max 1 (length (filter (same_identity (source raw) (source_id raw) ts)
                              (production_portal_listings w)))).
  { unfold save_cached_listing.
    destruct (on_conflict (source raw) (source_id raw) ts n raw c
                (production_portal_listings w)) as [[i rows']|] eqn:E.
    - destruct (on_conflict_some _ _ _ _ _ _ _ _ _ E) as (Hi & _ & _ & Hl & Hpos).
      exists i, rows', (next_row_id w). split; [reflexivity|]. split; [exact Hi|]. lia.
    - eexists; eexists; eexists. split; [reflexivity|]. split.
      + rewrite (on_conflict_appended _ _ _ _ _ _ _ _ E
                   (same_identity_refl raw ts n c _)).
        reflexivity.
      + apply on_conflict_none in E. rewrite filter_app, E.
        cbn [filter app]. rewrite same_identity_refl. reflexivity. }
  destruct H as (i & rows1 & next & -> & Hidem & Hlen).
  cbn [fst snd]. unfold save_cached_listing at 1 2 3.
  cbn [production_portal_listings with_listings]. rewrite Hidem. cbn.
  repeat split. exact Hlen.
Qed.

(** *** Re-running a batch *)

Lemma update_where_keys id f rows :
  (forall r, identity_key (f r) = identity_key r) ->
  map identity_key (update_where id f rows) = map identity_key rows.
Proof.
  intro Hf. unfold update_where. rewrite map_map. apply map_ext.
  intro r. destruct (Z.eqb (row_id r) id); [apply Hf|reflexivity].
Qed.

Lemma process_listing_keys cfg b m o :
  keys (the_world (fst (process_listing cfg b m o))) = keys (the_world b).
Proof.
  destruct m as [[[id raw] n0] c0].
  destruct (process_listing_rows cfg b id raw n0 c0 o) as (f & Hf & Hrows).
  unfold keys. rewrite Hrows. apply update_where_keys. intro r. apply Hf.
Qed.

Lemma postprocess_keys cfg ms : forall b,
  keys (the_world (fst (postprocess cfg b ms))) = keys (the_world b).
Proof.
  induction ms as [|[m o] ms IH]; intro b; cbn [postprocess]; [reflexivity|].
  pose proof (process_listing_never_raises cfg b m o) as Hn.
  pose proof (process_listing_keys cfg b m o) as Hk.
  destruct (process_listing cfg b m o) as [b1 e]. cbn [fst snd] in *. subst e.
  rewrite IH. exact Hk.
Qed.

Lemma gemini_items_keys items : forall w results,
  keys (fst (gemini_items items w results)) = keys w.
Proof.
  induction items as [|[raw o] items IH]; intros w results;
    cbn [gemini_items]; [reflexivity|].
  destruct (gemini_reply o); rewrite IH; reflexivity.
Qed.

Lemma call_gemini_batch_keys cfg items w :
  keys (fst (call_gemini_batch cfg items w)) = keys w.
Proof.
  unfold call_gemini_batch.
  destruct (negb (gemini_model cfg) || is_empty items); [reflexivity|].
  apply gemini_items_keys.
Qed.

Section BatchFacts.

Variable str_isdigit : codepoint -> bool.
Variable decimal_value : codepoint -> option N.

Lemma merge_gemini_keys gemini to_fallback : forall w,
  keys (merge_gemini str_isdigit decimal_value gemini to_fallback w) = keys w.
Proof.
  induction to_fallback as [|[id [raw o]] rest IH]; intro w;
    cbn [merge_gemini]; [reflexivity|].
  destruct (results_get (source_id raw) gemini) as [[gem|]|]; try apply IH.
  destruct (normalize_item str_isdigit decimal_value (only_extracted gem))
    as [norm2 conf2].
  rewrite IH. unfold keys, update_listing. cbn.
  apply update_where_keys. reflexivity.
Qed.

Lemma existsb_same_identity src sid ts w :
  existsb (same_identity src sid ts) (production_portal_listings w) = true
  <-> In (src, sid, ts) (keys w).
Proof.
  unfold keys. rewrite existsb_exists, in_map_iff. split.
  - intros (r & Hin & Hs). exists r. split; [|exact Hin].
    apply same_identity_key. exact Hs.
  - intros (r & Hk & Hin). exists r. split; [exact Hin|].
    apply same_identity_key. exact Hk.
Qed.

(** The first loop adds a row for each key the table lacks, and none
    for a key it has. *)
Lemma save_raw_items_keys cfg ts raw_items : forall w saved to_fallback,
  let w' := fst (fst (save_raw_items str_isdigit decimal_value cfg ts raw_items w
                        saved to_fallback)) in
  incl (keys w) (keys w')
  /\ Forall (fun raw => In (source raw, source_id raw, ts) (keys w'))
       (map fst raw_items)
  /\ (Forall (fun raw => In (source raw, source_id raw, ts) (keys w))
        (map fst raw_items) -> keys w' = keys w).
Proof.
  induction raw_items as [|[raw o] rest IH]; intros w saved to_fallback;
    cbn [save_raw_items map fst].
  - cbn. split; [apply incl_refl|]. split; [constructor|reflexivity].
  - destruct (normalize_item str_isdigit decimal_value raw) as [n c].
    pose proof (save_cached_listing_keys w raw n c ts) as Hk.
    destruct (save_cached_listing w raw n c ts) as [w1 id]. cbn [fst] in Hk.
    match goal with
    | |- context [save_raw_items _ _ _ _ rest w1 ?s ?t] =>
        destruct (IH w1 s t) as (Hincl & Hall & Hsame)
    end.
    assert (Hw1 : incl (keys w) (keys w1)
                  /\ In (source raw, source_id raw, ts) (keys w1)).
    { rewrite Hk.
      destruct (existsb _ _) eqn:Ex.
      - split; [apply incl_refl|]. apply existsb_same_identity. exact Ex.
      - split; [apply incl_appl, incl_refl|].
        apply in_or_app. right. left. reflexivity. }
    destruct Hw1 as [Hi1 Hin1].
    split; [eapply incl_tran; eassumption|].
    split; [constructor; [apply Hincl; exact Hin1|exact Hall]|].
    intro HF. inversion HF as [|x l Hx Hl]; subst.
    assert (Hk1 : keys w1 = keys w).
    { rewrite Hk. apply existsb_same_identity in Hx. rewrite Hx. reflexivity. }
    rewrite Hsame; [exact Hk1|]. rewrite Hk1. exact Hl.
Qed.

Lemma process_ingest_batch_keys cfg ts raw_items w :
  keys (the_world (fst (process_ingest_batch str_isdigit decimal_value cfg ts
                          raw_items w)))
  = keys (fst (fst (save_raw_items str_isdigit decimal_value cfg ts raw_items w
                      [] []))).
Proof.
  unfold process_ingest_batch.
  destruct (save_raw_items str_isdigit decimal_value cfg ts raw_items w [] [])
    as [[w1 saved] to_fallback]. cbn [fst].
  rewrite postprocess_keys. cbn [the_world].
  destruct (is_empty to_fallback); [reflexivity|].
  pose proof (call_gemini_batch_keys cfg (map snd to_fallback) w1) as Hg.
  destruct (call_gemini_batch cfg (map snd to_fallback) w1) as [w2 gemini].
  rewrite merge_gemini_keys. exact Hg.
Qed.

Lemma rerun_keys cfg cfg' ts raw_items raw_items' w :
  map fst raw_items' = map fst raw_items ->
  let first := fst (process_ingest_batch str_isdigit decimal_value cfg ts
                      raw_items w) in
  let second := fst (process_ingest_batch str_isdigit decimal_value cfg' ts
                       raw_items' (the_world first)) in
  keys (the_world second) = keys (the_world first).
Proof.
  intros Hsame first second. subst first second.
  rewrite (process_ingest_batch_keys cfg' ts raw_items').
  destruct (save_raw_items_keys cfg' ts raw_items'
              (the_world (fst (process_ingest_batch str_isdigit decimal_value cfg ts
                                 raw_items w))) [] []) as (_ & _ & H).
  apply H. rewrite Hsame.
  rewrite (process_ingest_batch_keys cfg ts raw_items).
  destruct (save_raw_items_keys cfg ts raw_items w [] []) as (_ & H1 & _).
  exact H1.
Qed.

End BatchFacts.

(** ** The similarity scan *)

Section DedupFacts.
Import Reals Lra Qreals.
Local Open Scope R_scope.

Lemma fold_left_Rplus_acc (l : list R) (a : R) :
  fold_left Rplus l a = a + fold_left Rplus l 0.
Proof.
  revert a. induction l as [|x l IH]; intro a; cbn [fold_left].
  - lra.
  - rewrite IH, (IH (0 + x)). lra.
Qed.

Lemma py_sum_cons (x : R) (l : list R) : Dedup.py_sum (x :: l) = x + Dedup.py_sum l.
Proof.
  unfold Dedup.py_sum. cbn [fold_left]. rewrite fold_left_Rplus_acc. lra.
Qed.

Lemma dot_product_self (a : Dedup.vector) :
  Dedup.dot_product a a = Dedup.py_sum (map (fun x => x * x) a).
Proof.
  unfold Dedup.dot_product. induction a as [|x a IH]; [reflexivity|].
  cbn [combine map fst snd]. rewrite !py_sum_cons, IH. reflexivity.
Qed.

Lemma sum_squares_nonneg (a : Dedup.vector) : 0 <= Dedup.py_sum (map (fun x => x * x) a).
Proof.
  induction a as [|x a IH].
  - unfold Dedup.py_sum. cbn. lra.
  - cbn [map]. rewrite py_sum_cons. pose proof (Rle_0_sqr x) as H.
    unfold Rsqr in H. lra.
Qed.

Lemma Rltb_true (x y : R) : Dedup.Rltb x y = true <-> x < y.
Proof. unfold Dedup.Rltb. destruct (Rlt_dec x y); split; intro; auto; discriminate. Qed.

Lemma Rltb_false (x y : R) : Dedup.Rltb x y = false <-> y <= x.
Proof.
  unfold Dedup.Rltb. destruct (Rlt_dec x y); split; intro; auto; try discriminate; lra.
Qed.

Lemma similarity_self (a : Dedup.vector) :
  0 < Dedup.magnitude a -> Dedup.similarity a (Dedup.JList a) = Some 1.
Proof.
  intro H. unfold Dedup.similarity. rewrite Nat.eqb_refl.
  rewrite (proj2 (Rltb_true 0 (Dedup.magnitude a)) H). cbn [andb].
  f_equal. rewrite dot_product_self. unfold Dedup.magnitude in *.
  rewrite sqrt_sqrt by apply sum_squares_nonneg.
  apply Rinv_r. intro E. rewrite E, sqrt_0 in H. lra.
Qed.

Lemma is_similar_lengths (a b : Dedup.vector) (t : R) :
  length a <> length b -> Dedup.is_similar a (Dedup.JList b) t = false.
Proof.
  intro H. unfold Dedup.is_similar, Dedup.similarity.
  destruct (Nat.eqb (length b) (length a)) eqn:E; [|reflexivity].
  apply Nat.eqb_eq in E. congruence.
Qed.

(** Over the reals a vector of positive magnitude has similarity 1
    with itself and is flagged at every threshold below 1, so the scan
    lists every row that stores it; vectors of different lengths are
    never flagged, in either direction, and the scan skips them. *)
Theorem identical_vectors_flagged_below_one :
  (forall (a : Dedup.vector) (t : R),
      0 < Dedup.magnitude a -> t < 1 ->
      Dedup.similarity a (Dedup.JList a) = Some 1
      /\ Dedup.is_similar a (Dedup.JList a) t = true
      /\ (forall rows id, In (id, Dedup.JList a) rows -> In id (Dedup.scan rows a t))
      /\ (forall id, Dedup.find_similar_by_embedding [(id, Dedup.JList a)] a t = [id]))
  /\ (forall (a b : Dedup.vector) (t : R),
      length a <> length b ->
      Dedup.is_similar a (Dedup.JList b) t = false
      /\ Dedup.is_similar b (Dedup.JList a) t = false
      /\ (forall id, Dedup.find_similar_by_embedding [(id, Dedup.JList b)] a t = [])).
Proof.
  split.
  - intros a t Hm Ht.
    assert (Hs : Dedup.is_similar a (Dedup.JList a) t = true).
    { unfold Dedup.is_similar. rewrite similarity_self by exact Hm.
      apply Rltb_true. exact Ht. }
    split; [apply similarity_self; exact Hm|]. split; [exact Hs|]. split.
    + intros rows id. induction rows as [|[id' v] rows IH]; intro Hin;
        [destruct Hin|]. cbn [Dedup.scan].
      destruct Hin as [E|Hin].
      * injection E as -> ->. rewrite Hs. left. reflexivity.
      * destruct (Dedup.is_similar a v t); [right|]; apply IH; exact Hin.
    + intro id. unfold Dedup.find_similar_by_embedding. cbn [rev app firstn Dedup.scan].
      rewrite Hs. reflexivity.
  - intros a b t Hl.
    assert (Hs : Dedup.is_similar a (Dedup.JList b) t = false)
      by (apply is_similar_lengths; exact Hl).
    split; [exact Hs|]. split; [apply is_similar_lengths; congruence|].
    intro id. unfold Dedup.find_similar_by_embedding. cbn [rev app firstn Dedup.scan].
    rewrite Hs. reflexivity.
Qed.

Lemma magnitude_one : Dedup.magnitude [1] = 1.
Proof.
  unfold Dedup.magnitude. cbn [map]. rewrite py_sum_cons.
  unfold Dedup.py_sum. cbn [fold_left].
  replace (1 * 1 + 0) with 1 by lra. apply sqrt_1.
Qed.

(** Over the reals the similarity of a vector with itself is 1, which
    does not exceed the threshold 1. *)
Lemma threshold_one_not_flagged :
  0 < Dedup.magnitude [1] /\ 1 <= 1
  /\ Dedup.similarity [1] (Dedup.JList [1]) = Some 1
  /\ Dedup.is_similar [1] (Dedup.JList [1]) 1 = false
  /\ Dedup.find_similar_by_embedding [(7%Z, Dedup.JList [1])] [1] 1 = [].
Proof.
  assert (Hm : 0 < Dedup.magnitude [1]) by (rewrite magnitude_one; lra).
  assert (Hs : Dedup.is_similar [1] (Dedup.JList [1]) 1 = false).
  { unfold Dedup.is_similar. rewrite similarity_self by exact Hm.
    apply Rltb_false. lra. }
  split; [exact Hm|]. split; [lra|].
  split; [apply similarity_self; exact Hm|]. split; [exact Hs|].
  unfold Dedup.find_similar_by_embedding. cbn [rev app firstn Dedup.scan].
  rewrite Hs. reflexivity.
Qed.

Lemma identical_vectors_witness :
  Dedup.similarity [1] (Dedup.JList [1]) = Some 1
  /\ Dedup.is_similar [1] (Dedup.JList [1]) (1/2) = true
  /\ Dedup.is_similar [1] (Dedup.JList [1; 1]) 0 = false.
Proof.
  destruct identical_vectors_flagged_below_one as [Hsame Hdiff].
  assert (Hm : 0 < Dedup.magnitude [1]) by (rewrite magnitude_one; lra).
  assert (Ht : 1/2 < 1) by lra.
  destruct (Hsame [1] (1/2) Hm Ht) as (H1 & H2 & _).
  assert (Hl : length [1] <> length [1; 1]) by (cbn; lia).
  destruct (Hdiff [1] [1; 1] 0 Hl) as (H3 & _).
  exact (conj H1 (conj H2 H3)).
Defined.

(** *** The rational test agrees with the real one *)

Lemma Q2R_fold_left (l : list Q) (a : Q) :
  Q2R (fold_left Qplus l a) = fold_left Rplus (map Q2R l) (Q2R a).
Proof.
  revert a. induction l as [|x l IH]; intro a; cbn [fold_left map]; [reflexivity|].
  rewrite IH, Q2R_plus. reflexivity.
Qed.

Lemma Q2R_py_sum (l : list Q) : Q2R (py_sum l) = Dedup.py_sum (map Q2R l).
Proof.
  unfold py_sum, Dedup.py_sum. rewrite Q2R_fold_left, RMicromega.Q2R_0. reflexivity.
Qed.

Lemma Q2R_dot_product (a b : list Q) :
  Q2R (dot_product a b) = Dedup.dot_product (map Q2R a) (map Q2R b).
Proof.
  unfold dot_product, Dedup.dot_product. rewrite Q2R_py_sum. f_equal.
  revert b. induction a as [|x a IH]; intros [|y b]; cbn [combine map fst snd];
    try reflexivity.
  rewrite Q2R_mult, IH. reflexivity.
Qed.

Lemma Q2R_sum_squares (v : list Q) :
  Q2R (sum_squares v) = Dedup.py_sum (map (fun a => a * a) (map Q2R v)).
Proof.
  unfold sum_squares. rewrite Q2R_py_sum. f_equal.
  rewrite !map_map. apply map_ext. intro x. apply Q2R_mult.
Qed.

Lemma Qltb_Rlt (x y : Q) : Qltb x y = true <-> Q2R x < Q2R y.
Proof.
  rewrite Qltb_lt. split; [apply Qlt_Rlt|apply Rlt_Qlt].
Qed.

Lemma Qle_bool_Rle (x y : Q) : Qle_bool x y = true <-> Q2R x <= Q2R y.
Proof.
  rewrite Qle_bool_iff. split; [apply Qle_Rle|apply Rle_Qle].
Qed.

(** Comparing the quotient with [t] is comparing squares. *)
Lemma quotient_exceeds (d A B t : R) :
  0 < A -> 0 < B ->
  (t < d / (sqrt A * sqrt B) <->
   (0 <= t /\ 0 < d /\ t * t * (A * B) < d * d)
   \/ (t < 0 /\ (0 <= d \/ d * d < t * t * (A * B)))).
Proof.
  intros HA HB.
  pose proof (sqrt_lt_R0 A HA) as Ha. pose proof (sqrt_lt_R0 B HB) as Hb.
  pose proof (sqrt_sqrt A (Rlt_le _ _ HA)) as Ea.
  pose proof (sqrt_sqrt B (Rlt_le _ _ HB)) as Eb.
  assert (Es : (sqrt A * sqrt B) * (sqrt A * sqrt B) = A * B).
  { transitivity ((sqrt A * sqrt A) * (sqrt B * sqrt B)); [ring|].
    rewrite Ea, Eb. reflexivity. }
  assert (Hs : 0 < sqrt A * sqrt B) by (apply Rmult_lt_0_compat; assumption).
  set (s := sqrt A * sqrt B) in *.
  rewrite <- Es.
  assert (Hq : t < d / s <-> t * s < d).
  { split; intro H.
    - apply (Rmult_lt_compat_r s) in H; [|exact Hs].
      unfold Rdiv in H. rewrite Rmult_assoc, Rinv_l in H by lra. lra.
    - apply (Rmult_lt_reg_r s); [exact Hs|].
      unfold Rdiv. rewrite Rmult_assoc, Rinv_l by lra. lra. }
  rewrite Hq. clear Hq.
  replace (t * t * (s * s)) with ((t * s) * (t * s)) by ring.
  assert (Hsign : 0 <= t -> 0 <= t * s) by (intro; apply Rmult_le_pos; lra).
  assert (Hneg : t < 0 -> t * s < 0).
  { intro. replace (t * s) with (- ((- t) * s)) by ring.
    apply Ropp_lt_gt_0_contravar. apply Rmult_lt_0_compat; lra. }
  set (u := t * s) in *.
  split.
  - intro H. destruct (Rle_lt_dec 0 t) as [Ht|Ht].
    + left. specialize (Hsign Ht). split; [exact Ht|]. split; [lra|nra].
    + right. split; [exact Ht|].
      destruct (Rle_lt_dec 0 d) as [Hd|Hd]; [left; exact Hd|right; nra].
  - intros [(Ht & Hd & Hsq)|(Ht & [Hd|Hsq])].
    + specialize (Hsign Ht). nra.
    + specialize (Hneg Ht). lra.
    + specialize (Hneg Ht). nra.
Qed.

Lemma cosine_exceeds_agrees (d A B t : Q) :
  0 < Q2R A -> 0 < Q2R B ->
  cosine_exceeds d A B t
  = Dedup.Rltb (Q2R t) (Q2R d / (sqrt (Q2R A) * sqrt (Q2R B))).
Proof.
  intros HA HB. apply eq_true_iff_eq.
  rewrite Rltb_true, (quotient_exceeds _ _ _ _ HA HB).
  unfold cosine_exceeds.
  rewrite <- RMicromega.Q2R_0, <- !Q2R_mult.
  rewrite <- !Qltb_Rlt, <- !Qle_bool_Rle.
  destruct (Qle_bool 0 t) eqn:Et.
  - rewrite andb_true_iff. split; [intros [H1 H2]; left; auto|].
    intros [(_ & H1 & H2)|(H & _)]; [auto|].
    apply Qltb_lt in H. apply Qle_bool_iff in Et.
    exfalso. exact (Qlt_not_le _ _ H Et).
  - rewrite orb_true_iff. split.
    + intro H. right. split; [|exact H].
      unfold Qltb. rewrite Et. reflexivity.
    + intros [(H & _)|(_ & H)]; [discriminate|exact H].
Qed.

Lemma positive_magnitude (v : list Q) :
  Qltb 0 (sum_squares v) = Dedup.Rltb 0 (Dedup.magnitude (map Q2R v)).
Proof.
  apply eq_true_iff_eq. rewrite Rltb_true, Qltb_Rlt, RMicromega.Q2R_0.
  unfold Dedup.magnitude. rewrite <- Q2R_sum_squares. split.
  - apply sqrt_lt_R0.
  - intro H. destruct (Rle_lt_dec (Q2R (sum_squares v)) 0) as [Hle|Hlt];
      [|exact Hlt].
    rewrite (sqrt_neg_0 _ Hle) in H. lra.
Qed.

(** The test on the squares is the test of the source. *)
Lemma is_similar_agrees (a b : list Q) (t : Q) :
  is_similar a b t
  = Dedup.is_similar (map Q2R a) (Dedup.JList (map Q2R b)) (Q2R t).
Proof.
  unfold is_similar, Dedup.is_similar, Dedup.similarity.
  rewrite !length_map.
  destruct (Nat.eqb (length b) (length a)); [|reflexivity].
  cbn [andb]. rewrite !positive_magnitude.
  destruct (Dedup.Rltb 0 (Dedup.magnitude (map Q2R a))) eqn:Ea; [|reflexivity].
  destruct (Dedup.Rltb 0 (Dedup.magnitude (map Q2R b))) eqn:Eb; [|reflexivity].
  cbn [andb].
  rewrite <- positive_magnitude in Ea, Eb.
  apply Qltb_Rlt in Ea, Eb. rewrite RMicromega.Q2R_0 in Ea, Eb.
  rewrite (cosine_exceeds_agrees _ _ _ _ Ea Eb).
  rewrite Q2R_dot_product, !Q2R_sum_squares. reflexivity.
Qed.

Lemma scan_agrees (rows : list (Z * list Q)) (v : list Q) (t : Q) :
  scan rows v t = Dedup.scan (map real_row rows) (map Q2R v) (Q2R t).
Proof.
  induction rows as [|[id w] rows IH]; [reflexivity|].
  cbn [scan map real_row Dedup.scan fst snd].
  rewrite <- is_similar_agrees, IH. reflexivity.
Qed.

Lemma find_similar_agrees (table : list (Z * list Q)) (v : list Q) (t : Q) :
  find_similar_by_embedding table v t
  = Dedup.find_similar_by_embedding (map real_row table) (map Q2R v) (Q2R t).
Proof.
  unfold find_similar_by_embedding, Dedup.find_similar_by_embedding.
  rewrite scan_agrees, <- map_rev, firstn_map. reflexivity.
Qed.
End DedupFacts.

(** *** The scan in floating point *)

Section FloatDedupFacts.

Import PrimFloat FloatDedup.
Local Open Scope float_scope.

Variable py_sum : list float -> float.
Variable pow_half : float -> float.





End FloatDedupFacts.

Section FloatDedupExamples.

Import PrimFloat.


End FloatDedupExamples.


(** ** Integer prices *)

Section IntegerPrices.
Import DecimalPos.

Variable str_isdigit : codepoint -> bool.
Variable decimal_value : codepoint -> option N.
Hypothesis ascii_isdigit : forall c, ascii_digit c = true -> str_isdigit c = true.
Hypothesis ascii_decimal :
  forall c, ascii_digit c = true -> decimal_value c = Some (c - 48)%N.
Hypothesis minus_not_digit : str_isdigit 45%N = false.

Lemma uint_codepoints_ascii d : Forall (fun c => ascii_digit c = true) (uint_codepoints d).
Proof. induction d; cbn [uint_codepoints]; constructor; auto. Qed.

Lemma filter_uint_codepoints d :
  filter str_isdigit (uint_codepoints d) = uint_codepoints d.
Proof.
  pose proof (uint_codepoints_ascii d) as H.
  induction H as [|c l Hc _ IH]; [reflexivity|].
  cbn [filter]. rewrite (ascii_isdigit c Hc), IH. reflexivity.
Qed.

Lemma int_digits_uint d : forall acc,
  int_digits decimal_value (Unsigned.of_lu acc) (uint_codepoints d)
  = Some (Unsigned.of_lu (Decimal.revapp d acc)).
Proof.
  induction d; intro acc; cbn [uint_codepoints int_digits Decimal.revapp];
    try reflexivity;
    (rewrite ascii_decimal by reflexivity);
    match goal with
    | |- int_digits _ ?a _ = Some (Unsigned.of_lu (Decimal.revapp _ ?acc')) =>
        replace a with (Unsigned.of_lu acc'); [apply IHd|]
    end;
    rewrite (Unsigned.of_lu_eqn (_ acc)); cbn [Unsigned.hd Unsigned.tl]; lia.
Qed.

Lemma py_int_to_uint p :
  py_int decimal_value (uint_codepoints (Pos.to_uint p))
  = if (int_max_str_digits
        <? N.of_nat (length (uint_codepoints (Pos.to_uint p))))%N
    then None else Some (Npos p).
Proof.
  unfold py_int.
  destruct (uint_codepoints (Pos.to_uint p)) as [|c l] eqn:E.
  - exfalso. destruct (Pos.to_uint p) eqn:Ed; try discriminate.
    exact (Unsigned.to_uint_nonnil p Ed).
  - rewrite <- E.
    destruct (int_max_str_digits
              <? N.of_nat (length (uint_codepoints (Pos.to_uint p))))%N;
      [reflexivity|].
    change 0%N with (Unsigned.of_lu Decimal.Nil).
    rewrite int_digits_uint. f_equal.
    change (Decimal.revapp (Pos.to_uint p) Decimal.Nil)
      with (Decimal.rev (Pos.to_uint p)).
    rewrite <- Unsigned.of_uint_alt. apply Unsigned.of_to.
Qed.

(** X1.  A price that arrives as an integer is stored as its absolute
    value: [str] prints the minus sign, the digit filter drops it, and
    [int] reads the digits back; an integer of more than
    [int_max_str_digits] digits is refused and the price is null.  The
    tables of [isdigit] and [int] are only assumed to treat the ASCII
    digits as Python does and to reject the minus sign. *)
Theorem integer_price_loses_sign (raw : raw_item) (z : Z) :
  raw_price_value raw = SInt z ->
  n_price (fst (normalize_item str_isdigit decimal_value raw))
  = if (int_max_str_digits <? N.of_nat (length (py_str (SInt (Z.abs z)))))%N
    then None else Some (Z.abs_N z).
Proof.
  intro H. unfold normalize_item. rewrite H.
  destruct z as [|p|p]; cbn [py_str filter Z.abs].
  - rewrite (ascii_isdigit 48%N eq_refl). cbn [py_int int_digits length].
    rewrite (ascii_decimal 48%N eq_refl). reflexivity.
  - rewrite filter_uint_codepoints, py_int_to_uint.
    destruct (int_max_str_digits <? _)%N; reflexivity.
  - rewrite minus_not_digit, filter_uint_codepoints, py_int_to_uint.
    destruct (int_max_str_digits <? _)%N; reflexivity.
Qed.

End IntegerPrices.


(** [integer_price_loses_sign] on sample data. *)
Lemma integer_price_loses_sign_witness :
  n_price (fst (normalize_item sample_isdigit sample_decimal_value
                  (scraped (SInt (-450000)) [img_a])))
  = Some 450000%N.
Proof.
  refine (integer_price_loses_sign sample_isdigit sample_decimal_value _ _ _
            (scraped (SInt (-450000)) [img_a]) (-450000)%Z _).
  - intros c H. unfold sample_isdigit. unfold ascii_digit in H. rewrite H.
    reflexivity.
  - intros c H. unfold sample_decimal_value. unfold ascii_digit in H. rewrite H.
    reflexivity.
  - reflexivity.
  - reflexivity.
Defined.

(** ** Confidence levels and the first loop *)

Section FirstLoopFacts.

Variable str_isdigit : codepoint -> bool.
Variable decimal_value : codepoint -> option N.

Ltac normalize_cases raw :=
  unfold normalize_item;
  destruct (raw_price_value raw) as [|s|z];
  try destruct (py_int decimal_value (filter str_isdigit _)) as [p|];
  destruct (images_or (images_or (ex_images (extracted_fields raw))
                                 (raw_images raw)) []) as [|i imgs];
  destruct (truthy (py_or (ex_contact (extracted_fields raw)) (raw_contact raw)))
    eqn:Ec;
  cbn -[clamp01 Qminus]; rewrite ?Ec.

(** With a price and an image the confidence is at least 0.7. *)
Lemma confidence_floor (raw : raw_item) :
  let n := fst (normalize_item str_isdigit decimal_value raw) in
  let c := snd (normalize_item str_isdigit decimal_value raw) in
  n_price n <> None -> n_images n <> [] -> (0.7 <= c)%Q.
Proof.
  normalize_cases raw; intros Hp Hi; try congruence; vm_compute; discriminate.
Qed.

(** X2.  The confidence [normalize_item] returns is 0.9 when price, images
    and contact are all present and at most 0.7 otherwise, so the test
    [confidence < 0.85] of the loop asks whether a field is missing; a
    listing with a price and an image never falls below 0.7. *)
Theorem confidence_levels (raw : raw_item) :
  let n := fst (normalize_item str_isdigit decimal_value raw) in
  let c := snd (normalize_item str_isdigit decimal_value raw) in
  ((0.85 <= c)%Q <->
   n_price n <> None /\ n_images n <> [] /\ truthy (n_contact n) = true)
  /\ ((0.85 <= c)%Q -> c == 0.9)
  /\ (~ (0.85 <= c)%Q -> (c <= 0.7)%Q)
  /\ (n_price n <> None -> n_images n <> [] -> (0.7 <= c)%Q).
Proof.
  cbv zeta. split; [|split; [|split; [|apply confidence_floor]]];
    normalize_cases raw; vm_compute;
    try (split; [intro H; try (exfalso; apply H; reflexivity);
                 repeat split; discriminate
                |intros (H1 & H2 & H3); try congruence; discriminate]);
    try (intro H; try reflexivity; exfalso; apply H; reflexivity);
    try (intros H; try discriminate; exfalso; apply H; discriminate).
Qed.

(** With the threshold at most 0.7 the confidence test adds nothing to
    the two field tests. *)
Lemma fallback_test cfg (raw : raw_item) :
  (CONFIDENCE_THRESHOLD cfg <= 0.7)%Q ->
  let n := fst (normalize_item str_isdigit decimal_value raw) in
  let c := snd (normalize_item str_isdigit decimal_value raw) in
  Qltb c (CONFIDENCE_THRESHOLD cfg) || price_missing n || is_empty (n_images n)
  = missing_critical n.
Proof.
  intros Hthr n c. subst n c. unfold missing_critical.
  set (n := fst (normalize_item str_isdigit decimal_value raw)).
  destruct (price_missing n) eqn:Hp; [rewrite orb_true_r; reflexivity|].
  destruct (is_empty (n_images n)) eqn:Hi; [rewrite !orb_true_r; reflexivity|].
  rewrite !orb_false_r. apply Qltb_ge.
  eapply Qle_trans; [exact Hthr|]. apply confidence_floor; fold n.
  - unfold price_missing in Hp. intro E. rewrite E in Hp. discriminate.
  - intro E. rewrite E in Hi. discriminate.
Qed.

Lemma save_raw_items_lists cfg ts raw_items : forall w saved to_fallback,
  (CONFIDENCE_THRESHOLD cfg <= 0.7)%Q ->
  let r := save_raw_items str_isdigit decimal_value cfg ts raw_items w
             saved to_fallback in
  map mapping_raw (snd (fst r)) = map mapping_raw saved ++ map fst raw_items
  /\ map mapping_normalized (snd (fst r))
     = map mapping_normalized saved
       ++ map (fun it => normalize_item str_isdigit decimal_value (fst it)) raw_items
  /\ map (fun x => fst (snd x)) (snd r)
     = map (fun x => fst (snd x)) to_fallback
       ++ filter (fun raw => missing_critical
                    (fst (normalize_item str_isdigit decimal_value raw)))
            (map fst raw_items).
Proof.
  induction raw_items as [|[raw o] rest IH]; intros w saved to_fallback Hthr;
    cbn [save_raw_items map fst filter].
  - cbn. rewrite !app_nil_r. auto.
  - pose proof (fallback_test cfg raw Hthr) as Hf. cbv zeta in Hf.
    destruct (normalize_item str_isdigit decimal_value raw) as [n c] eqn:En.
    cbn [fst snd] in Hf.
    destruct (save_cached_listing w raw n c ts) as [w1 id].
    rewrite Hf.
    match goal with
    | |- context [save_raw_items _ _ _ _ rest w1 ?s ?t] =>
        destruct (IH w1 s t Hthr) as (H1 & H2 & H3)
    end.
    cbv zeta. rewrite H1, H2, H3.
    rewrite !map_app. cbn [map mapping_raw mapping_normalized fst snd].
    rewrite <- !app_assoc. cbn [app].
    split; [reflexivity|]. split; [reflexivity|].
    destruct (missing_critical n); [|reflexivity].
    rewrite map_app, <- app_assoc. reflexivity.
Qed.

(** X3.  The first loop of [process_ingest_batch] records one mapping per
    raw item, in order, with the normalization of that item; and when
    [CONFIDENCE_THRESHOLD] is at most 0.7 (its default) the items sent
    to the Gemini fallback are exactly those the QA gate would reject:
    the confidence test selects nothing on its own. *)
Theorem first_loop_selection cfg ts raw_items w :
  (CONFIDENCE_THRESHOLD cfg <= 0.7)%Q ->
  let r := save_raw_items str_isdigit decimal_value cfg ts raw_items w [] [] in
  map mapping_raw (snd (fst r)) = map fst raw_items
  /\ map mapping_normalized (snd (fst r))
     = map (fun it => normalize_item str_isdigit decimal_value (fst it)) raw_items
  /\ map (fun x => fst (snd x)) (snd r)
     = filter (fun raw => missing_critical
                 (fst (normalize_item str_isdigit decimal_value raw)))
         (map fst raw_items).
Proof.
  intro Hthr. exact (save_raw_items_lists cfg ts raw_items w [] [] Hthr).
Qed.

End FirstLoopFacts.


(** [first_loop_selection] on sample data. *)
Lemma first_loop_selection_witness :
  let items := [(scraped (SStr rupees_4_50_000) [img_a], all_succeed);
                (scraped SNone [], all_succeed)] in
  let r := save_raw_items sample_isdigit sample_decimal_value
             (default_config true true true) ts_0600 items empty_world [] [] in
  map mapping_raw (snd (fst r)) = map fst items
  /\ map mapping_normalized (snd (fst r))
     = map (fun it => normalize_item sample_isdigit sample_decimal_value (fst it))
         items
  /\ map (fun x => fst (snd x)) (snd r)
     = filter (fun raw => missing_critical
                 (fst (normalize_item sample_isdigit sample_decimal_value raw)))
         (map fst items).
Proof.
  refine (first_loop_selection sample_isdigit sample_decimal_value
            (default_config true true true) ts_0600 _ empty_world _).
  unfold Qle. simpl. lia.
Defined.

(** ** Validation, anomaly check and embeddings *)

Lemma text_for_embed_nonempty n : is_empty (text_for_embed n) = false.
Proof.
  unfold text_for_embed. cbn [map join_space].
  destruct (py_str (n_title n)); reflexivity.
Qed.

Lemma zero_deviation (price : N) (pct : Q) :
  (0 <= pct)%Q ->
  Qltb pct (Qabs (Qof_N price - Qof_N price) / Qof_N (N.max 1 price) * 100) = false.
Proof.
  intro H. apply Qltb_ge.
  assert (E : Qabs (Qof_N price - Qof_N price) / Qof_N (N.max 1 price) * 100 == 0).
  { assert (E0 : Qof_N price - Qof_N price == 0) by ring.
    rewrite E0. reflexivity. }
  rewrite E. exact H.
Qed.

(** X4.  [call_anthropic_validation] is invoked exactly when the price
    reaches [GPT5_PRICE_THRESHOLD] or the confidence is below 0.85, and
    then once.  An unflagged listing gets trust 0.9; a flagged one gets
    the provider's score (0.0 when the reply has none) and is charged
    0.02, or gets 0.8 at no charge when the client is unset or the call
    failed. *)
Theorem trust_evaluation cfg o id n c w w1 trust_score similar :
  assess cfg o id n c w = (w1, trust_score, similar) ->
  let flagged :=
    (GPT5_PRICE_THRESHOLD cfg <= Z.of_N (listed_price n))%Z \/ (c < 0.85)%Q in
  (flagged ->
   count_calls is_anthropic_validation w1
   = S (count_calls is_anthropic_validation w)
   /\ match validation_returned cfg o with
      | Some t =>
          trust_score = match t with Some t => t | None => 0%Q end
          /\ anthropic (model_spend w1) = (anthropic (model_spend w) + 0.02)%Q
      | None =>
          trust_score = 0.8%Q
          /\ anthropic (model_spend w1) = anthropic (model_spend w)
      end)
  /\ (~ flagged ->
      count_calls is_anthropic_validation w1
      = count_calls is_anthropic_validation w
      /\ trust_score = 0.9%Q
      /\ anthropic (model_spend w1) = anthropic (model_spend w)).
Proof.
  unfold assess, call_anthropic_validation, call_perplexity_check, get_embedding,
    find_similar, save_embedding, update_daily_spend, validation_returned.
  destruct ((GPT5_PRICE_THRESHOLD cfg <=? Z.of_N (listed_price n))%Z
            || Qltb c 0.85) eqn:E.
  - assert (F : (GPT5_PRICE_THRESHOLD cfg <= Z.of_N (listed_price n))%Z
                \/ (c < 0.85)%Q).
    { apply orb_true_iff in E. destruct E as [E|E];
        [left; apply Z.leb_le; exact E|right; apply Qltb_lt; exact E]. }
    destruct (anthropic_client cfg); destruct (anthropic_reply o) as [[t|]|];
      cbn [negb]; repeat break_step; intro H; injection H as <- <- <-; cbn;
      (split; [intros _; auto|intro G; exfalso; exact (G F)]).
  - assert (F : ~ ((GPT5_PRICE_THRESHOLD cfg <= Z.of_N (listed_price n))%Z
                   \/ (c < 0.85)%Q)).
    { apply orb_false_iff in E. destruct E as [E1 E2].
      intros [G|G]; [apply Z.leb_le in G|apply Qltb_lt in G]; congruence. }
    repeat break_step; intro H; injection H as <- <- <-; cbn;
      (split; [intro G; exfalso; exact (F G)|intros _; auto]).
Qed.

(** [trust_evaluation] on sample data. *)
Lemma trust_evaluation_witness :
  let cfg := default_config true true true in
  let w := world_with premium_listing 0.9 0 in
  let a := assess cfg all_succeed 1 premium_listing 0.9 w in
  count_calls is_anthropic_validation (fst (fst a))
  = S (count_calls is_anthropic_validation w)
  /\ snd (fst a) = 0.9%Q
  /\ anthropic (model_spend (fst (fst a))) = (anthropic (model_spend w) + 0.02)%Q.
Proof.
  cbv zeta.
  pose (cfg := default_config true true true).
  pose (w := world_with premium_listing 0.9 0).
  pose (a := assess cfg all_succeed 1 premium_listing 0.9 w).
  refine (proj1 (trust_evaluation cfg all_succeed 1%Z premium_listing 0.9 w
                   (fst (fst a)) (snd (fst a)) (snd a) _) _).
  - reflexivity.
  - left. simpl. lia.
Defined.

Lemma invoke_quiet p c w : p c = false -> quiet p w (invoke c w).
Proof.
  intro H. unfold quiet, count_calls. cbn. rewrite H. repeat split.
Qed.

Lemma submit_downloads_ignored p o urls : ignores_images p -> forall w,
  quiet p w (fst (submit_downloads o urls w)).
Proof.
  intro Hp. induction urls as [|u r IH]; intro w; cbn [submit_downloads].
  - apply quiet_refl.
  - unfold download_image.
    specialize (IH (invoke (c_download_image u) w)).
    destruct (submit_downloads o r (invoke (c_download_image u) w)) as [w1 fs].
    cbn [fst] in *. eapply quiet_trans; [|exact IH].
    apply invoke_quiet, Hp.
Qed.

Lemma collect_uploads_ignored p o completed : ignores_images p -> forall w cached,
  quiet p w (fst (collect_uploads o completed w cached)).
Proof.
  intro Hp. induction completed as [|[q|] r IH]; intros w cached;
    cbn [collect_uploads].
  - apply quiet_refl.
  - destruct (is_empty q); [apply IH|].
    rewrite upload_to_cdn_eq.
    eapply quiet_trans; [|apply IH]. apply invoke_quiet, Hp.
  - apply IH.
Qed.

Lemma cache_images_ignored p o images w :
  ignores_images p -> quiet p w (fst (cache_images o images w)).
Proof.
  intro Hp. unfold cache_images. destruct (is_empty images); [apply quiet_refl|].
  pose proof (submit_downloads_ignored p o (firstn 5 images) Hp w) as H1.
  destruct (submit_downloads o (firstn 5 images) w) as [w1 fs]. cbn [fst] in H1.
  eapply quiet_trans; [exact H1|]. apply collect_uploads_ignored, Hp.
Qed.

(** What [settle] leaves alone. *)
Lemma settle_ignored p cfg o b id raw n trust_score final w :
  ignores_images p ->
  let b' := settle cfg o b id raw n trust_score final w in
  model_spend (the_world b') = model_spend w
  /\ next_row_id (the_world b') = next_row_id w
  /\ listing_embeddings (the_world b') = listing_embeddings w
  /\ count_calls p (the_world b') = count_calls p w.
Proof.
  intro Hp. unfold settle.
  pose proof (cache_images_ignored p o (n_images n) w Hp) as Hq.
  destruct (cache_images o (n_images n) w) as [w1 cached]. cbn [fst] in Hq.
  destruct Hq as (S1 & _ & N1 & E1 & _ & C1).
  destruct (approve final && Qgeb trust_score (TRUST_SCORE_PUBLISH cfg));
    cbn; unfold count_calls in *; cbn; auto.
Qed.

Lemma finalize_perplexity cfg o n trust_score similar w :
  perplexity (model_spend (fst (finalize cfg o n trust_score similar w)))
  = perplexity (model_spend w)
  /\ count_calls is_perplexity_check (fst (finalize cfg o n trust_score similar w))
     = count_calls is_perplexity_check w.
Proof.
  unfold finalize, call_gpt5_finalize, update_daily_spend.
  repeat break_step; cbn; auto.
Qed.

Lemma perplexity_ignores_images : ignores_images is_perplexity_check.
Proof. intro u. split; reflexivity. Qed.

Lemma assess_without_anomaly cfg o id n c w :
  (0 <= PRICE_ANOMALY_PCT cfg)%Q ->
  perplexity (model_spend (fst (fst (assess cfg o id n c w))))
  = perplexity (model_spend w)
  /\ count_calls is_perplexity_check (fst (fst (assess cfg o id n c w)))
     = count_calls is_perplexity_check w.
Proof.
  intro H. unfold assess. rewrite (zero_deviation _ _ H), andb_false_r.
  unfold call_anthropic_validation, get_embedding, find_similar, save_embedding,
    update_daily_spend.
  repeat break_step; cbn; auto.
Qed.

Lemma process_listing_without_anomaly cfg b m o :
  (0 <= PRICE_ANOMALY_PCT cfg)%Q ->
  let w' := the_world (fst (process_listing cfg b m o)) in
  perplexity (model_spend w') = perplexity (model_spend (the_world b))
  /\ count_calls is_perplexity_check w'
     = count_calls is_perplexity_check (the_world b).
Proof.
  intro H. destruct m as [[[id raw] n0] c0]. cbv zeta.
  destruct (reload id n0 c0 (the_world b)) as [n c] eqn:Hr.
  destruct (missing_critical n) eqn:Hg.
  - rewrite process_listing_gated by (rewrite Hr; exact Hg). cbn. auto.
  - pose proof (assess_without_anomaly cfg o id n c (the_world b) H) as Ha.
    destruct (assess cfg o id n c (the_world b)) as [[w1 t] sim] eqn:Ea.
    destruct (process_listing_passed cfg b id raw n0 c0 o n c w1 t sim Hr Hg Ea)
      as (w2 & d & Hf & ->).
    pose proof (finalize_perplexity cfg o n t sim w1) as Hp.
    rewrite Hf in Hp. cbn [fst] in *.
    destruct (settle_ignored is_perplexity_check cfg o b id raw n t d w2
                perplexity_ignores_images) as (Hs & _ & _ & Hc).
    rewrite Hs, Hc. destruct Ha, Hp. split; congruence.
Qed.

(** X5.  While the expected median is the placeholder [median = price], the
    deviation is zero and, for a non-negative [PRICE_ANOMALY_PCT],
    [call_perplexity_check] is never invoked by the loop: the
    perplexity counter and the number of anomaly checks stay as they
    were. *)
Theorem anomaly_check_never_runs cfg ms : forall b,
  (0 <= PRICE_ANOMALY_PCT cfg)%Q ->
  let w' := the_world (fst (postprocess cfg b ms)) in
  perplexity (model_spend w') = perplexity (model_spend (the_world b))
  /\ count_calls is_perplexity_check w'
     = count_calls is_perplexity_check (the_world b).
Proof.
  induction ms as [|[m o] ms IH]; intros b H; cbn [postprocess].
  - cbn. auto.
  - pose proof (process_listing_never_raises cfg b m o) as Hn.
    pose proof (process_listing_without_anomaly cfg b m o H) as Hs.
    destruct (process_listing cfg b m o) as [b1 e]. cbn [fst snd] in *. subst e.
    destruct (IH b1 H) as [H1 H2]. destruct Hs as [H3 H4].
    split; congruence.
Qed.

(** [anomaly_check_never_runs] on sample data. *)
Lemma anomaly_check_never_runs_witness :
  let cfg := default_config true true true in
  let b := fresh_batch (world_with premium_listing 0.9 0) in
  let w' := the_world (fst (postprocess cfg b
                              [mapped premium_listing 0.9 all_succeed])) in
  perplexity (model_spend w') = perplexity (model_spend (the_world b))
  /\ count_calls is_perplexity_check w'
     = count_calls is_perplexity_check (the_world b).
Proof.
  refine (anomaly_check_never_runs (default_config true true true) _ _ _).
  unfold Qle. simpl. lia.
Defined.

(** *** Embeddings *)

Lemma assess_embedding cfg o id n c w w1 trust_score similar :
  assess cfg o id n c w = (w1, trust_score, similar) ->
  match embedding_returned cfg o with
  | Some e =>
      listing_embeddings w1 = listing_embeddings w ++ [(id, e)]
      /\ gpt5 (model_spend w1) = (gpt5 (model_spend w) + 0.0001)%Q
  | None =>
      listing_embeddings w1 = listing_embeddings w ++ [(id, zero_embedding)]
      /\ gpt5 (model_spend w1) = gpt5 (model_spend w)
  end
  /\ similar
     = find_similar_by_embedding (listing_embeddings w1)
         (match embedding_returned cfg o with
          | Some e => e
          | None => zero_embedding
          end)
         (DEDUPE_SIMILARITY cfg).
Proof.
  unfold assess, get_embedding, embedding_returned.
  rewrite text_for_embed_nonempty, orb_false_r.
  unfold call_anthropic_validation, call_perplexity_check,
    find_similar, save_embedding, update_daily_spend.
  destruct (openai_client cfg); destruct (embedding_reply o) as [e|];
    cbn [negb]; repeat break_step; intro H; injection H as <- <- <-; cbn; auto.
Qed.

(** *** The scan *)

Lemma py_sum_zeros k : py_sum (repeat 0%Q k) == 0.
Proof.
  unfold py_sum.
  assert (H : forall a, a == 0 -> fold_left Qplus (repeat 0%Q k) a == 0).
  { induction k as [|k IH]; intros a Ha; cbn [repeat fold_left]; [exact Ha|].
    apply IH. rewrite Ha. reflexivity. }
  apply H. reflexivity.
Qed.

Lemma sum_squares_zeros k : sum_squares (repeat 0%Q k) == 0.
Proof.
  unfold sum_squares. rewrite map_repeat.
  unfold py_sum.
  assert (H : forall a, a == 0 -> fold_left Qplus (repeat (0 * 0)%Q k) a == 0).
  { induction k as [|k IH]; intros a Ha; cbn [repeat fold_left]; [exact Ha|].
    apply IH. rewrite Ha. reflexivity. }
  apply H. reflexivity.
Qed.

Lemma zero_magnitude v : sum_squares v == 0 -> Qltb 0 (sum_squares v) = false.
Proof. intro H. apply Qltb_ge. rewrite H. apply Qle_refl. Qed.

Lemma scan_unmatched rows v t :
  (forall s, is_similar v s t = false) -> scan rows v t = [].
Proof.
  intro H. induction rows as [|[id s] rows IH]; [reflexivity|].
  cbn [scan]. rewrite H. exact IH.
Qed.

(** X6.  The fallback embedding of [get_embedding], a vector of zeros, is
    similar to nothing and nothing is similar to it, whatever the
    threshold; so a listing whose embedding call was not answered has
    no near-duplicates. *)
Theorem zero_vector_matches_nothing (k : nat) (s : list Q) (t : Q)
    (table : list (Z * list Q)) :
  is_similar (repeat 0%Q k) s t = false
  /\ is_similar s (repeat 0%Q k) t = false
  /\ find_similar_by_embedding table (repeat 0%Q k) t = []
  /\ forall cfg o id n c w,
       embedding_returned cfg o = None ->
       snd (assess cfg o id n c w) = [].
Proof.
  assert (H1 : forall s, is_similar (repeat 0%Q k) s t = false).
  { intro s'. unfold is_similar.
    rewrite (zero_magnitude _ (sum_squares_zeros k)).
    cbn [andb]. apply andb_false_r. }
  split; [apply H1|]. split.
  - unfold is_similar. rewrite (zero_magnitude _ (sum_squares_zeros k)).
    rewrite andb_false_r. cbn [andb]. apply andb_false_r.
  - split.
    + unfold find_similar_by_embedding. rewrite scan_unmatched by exact H1.
      reflexivity.
    + intros cfg o id n c w He.
      destruct (assess cfg o id n c w) as [[w1 tr] sim] eqn:Ea.
      destruct (assess_embedding cfg o id n c w w1 tr sim Ea) as [_ Hs].
      rewrite He in Hs. cbn [snd]. rewrite Hs.
      unfold find_similar_by_embedding, zero_embedding.
      rewrite scan_unmatched; [reflexivity|].
      intro s'. unfold is_similar.
      rewrite (zero_magnitude _ (sum_squares_zeros 1536)).
      cbn [andb]. apply andb_false_r.
Qed.

(** X7.  Every listing that passes the gate stores exactly one embedding
    row, the provider's vector or the zero vector; only a returned
    vector is charged, 0.0001 to the gpt5 counter; and the scan runs on
    the table that already holds the listing's own row. *)
Theorem embedding_per_listing cfg o id n c w w1 trust_score similar :
  assess cfg o id n c w = (w1, trust_score, similar) ->
  let e := match embedding_returned cfg o with
           | Some e => e
           | None => zero_embedding
           end in
  listing_embeddings w1 = listing_embeddings w ++ [(id, e)]
  /\ gpt5 (model_spend w1)
     = match embedding_returned cfg o with
       | Some _ => (gpt5 (model_spend w) + 0.0001)%Q
       | None => gpt5 (model_spend w)
       end
  /\ similar
     = find_similar_by_embedding (listing_embeddings w1) e (DEDUPE_SIMILARITY cfg).
Proof.
  intro Ha. destruct (assess_embedding cfg o id n c w w1 trust_score similar Ha)
    as [H1 H2].
  cbv zeta. destruct (embedding_returned cfg o); destruct H1; auto.
Qed.

(** [embedding_per_listing] on sample data. *)
Lemma embedding_per_listing_witness :
  let cfg := default_config true true true in
  let w := world_with premium_listing 0.9 0 in
  let a := assess cfg all_succeed 1 premium_listing 0.9 w in
  listing_embeddings (fst (fst a)) = listing_embeddings w ++ [(1%Z, [1%Q])]
  /\ gpt5 (model_spend (fst (fst a))) = (gpt5 (model_spend w) + 0.0001)%Q
  /\ snd a = find_similar_by_embedding (listing_embeddings (fst (fst a))) [1%Q]
               (DEDUPE_SIMILARITY cfg).
Proof.
  cbv zeta.
  pose (cfg := default_config true true true).
  pose (w := world_with premium_listing 0.9 0).
  pose (a := assess cfg all_succeed 1 premium_listing 0.9 w).
  refine (embedding_per_listing cfg all_succeed 1%Z premium_listing 0.9 w
            (fst (fst a)) (snd (fst a)) (snd a) _).
  reflexivity.
Defined.

Lemma scan_sound rows v t id :
  In id (scan rows v t) ->
  exists s, In (id, s) rows /\ is_similar v s t = true.
Proof.
  induction rows as [|[id' s] rows IH]; cbn [scan]; [intros []|].
  destruct (is_similar v s t) eqn:E.
  - intros [<-|H].
    + exists s. split; [left; reflexivity|exact E].
    + destruct (IH H) as (s' & Hin & Hs). exists s'. split; [right|]; assumption.
  - intro H. destruct (IH H) as (s' & Hin & Hs). exists s'.
    split; [right|]; assumption.
Qed.

Lemma in_firstn_in {A} (k : nat) (l : list A) x : In x (firstn k l) -> In x l.
Proof.
  revert l. induction k as [|k IH]; intros [|y l]; cbn [firstn In]; try tauto.
  intros [<-|H]; [left; reflexivity|right; apply IH; exact H].
Qed.

(** X8.  [find_similar_by_embedding] returns at most five ids, each of a row
    among the hundred newest whose vector has the query's length, both
    vectors being of positive magnitude; on an empty table it returns
    nothing. *)
Theorem find_similar_bounds (table : list (Z * list Q)) (v : list Q) (t : Q) :
  let found := find_similar_by_embedding table v t in
  (length found <= 5)%nat
  /\ (forall id, In id found ->
        exists s, In (id, s) (firstn 100 (rev table))
                  /\ In (id, s) table
                  /\ length s = length v
                  /\ (0 < sum_squares s)%Q
                  /\ (0 < sum_squares v)%Q)
  /\ (table = [] -> found = []).
Proof.
  cbv zeta. unfold find_similar_by_embedding. split; [apply firstn_le_length|].
  split.
  - intros id H. apply in_firstn_in in H.
    destruct (scan_sound _ _ _ _ H) as (s & Hin & Hs).
    exists s. split; [exact Hin|]. split.
    + apply in_rev. eapply in_firstn_in. exact Hin.
    + unfold is_similar in Hs. apply andb_true_iff in Hs. destruct Hs as [Hl Hs].
      apply andb_true_iff in Hs. destruct Hs as [Hs _].
      apply andb_true_iff in Hs. destruct Hs as [Ha Hb].
      apply Nat.eqb_eq in Hl. apply Qltb_lt in Ha, Hb. auto.
  - intros ->. reflexivity.
Qed.

Lemma Qltb_compat (x x' y y' : Q) : x == x' -> y == y' -> Qltb x y = Qltb x' y'.
Proof. intros Hx Hy. unfold Qltb. rewrite Hx, Hy. reflexivity. Qed.

Lemma cosine_exceeds_compat (d d' A A' B B' t : Q) :
  d == d' -> A * B == A' * B' ->
  cosine_exceeds d A B t = cosine_exceeds d' A' B' t.
Proof.
  intros Hd Hab. unfold cosine_exceeds.
  rewrite (Qltb_compat 0 0 d d' (Qeq_refl 0) Hd).
  assert (Hdd : d * d == d' * d') by (rewrite Hd; reflexivity).
  assert (Ht : t * t * (A * B) == t * t * (A' * B')) by (rewrite Hab; reflexivity).
  rewrite (Qltb_compat _ _ _ _ Ht Hdd), (Qltb_compat _ _ _ _ Hdd Ht).
  rewrite (Qleb_comp 0 0 (Qeq_refl 0) d d' Hd). reflexivity.
Qed.

Lemma fold_products_swap (a : list Q) : forall (b : list Q) (x y : Q),
  x == y ->
  fold_left Qplus (map (fun ab => fst ab * snd ab) (combine a b)) x
  == fold_left Qplus (map (fun ab => fst ab * snd ab) (combine b a)) y.
Proof.
  induction a as [|u a IH]; intros [|v b] x y H; cbn [combine map fold_left fst snd];
    try exact H.
  apply IH. rewrite H. ring.
Qed.

Lemma dot_product_comm (a b : list Q) : dot_product a b == dot_product b a.
Proof. unfold dot_product, py_sum. apply fold_products_swap. reflexivity. Qed.

(** X9.  The similarity test is symmetric: a stored vector is flagged for a
    query exactly when the query, once stored, is flagged for that
    vector. *)
Theorem is_similar_symmetric (a b : list Q) (t : Q) (id id' : Z) :
  is_similar a b t = is_similar b a t
  /\ (find_similar_by_embedding [(id, b)] a t = [id] <->
      find_similar_by_embedding [(id', a)] b t = [id']).
Proof.
  assert (H : is_similar a b t = is_similar b a t).
  { unfold is_similar. rewrite (Nat.eqb_sym (length b)). f_equal.
    cbv zeta. rewrite (andb_comm (Qltb 0 (sum_squares a))). f_equal.
    apply cosine_exceeds_compat; [apply dot_product_comm|ring]. }
  split; [exact H|].
  unfold find_similar_by_embedding. cbn [rev app firstn scan].
  rewrite H. destruct (is_similar b a t); cbn [firstn]; split; intro E;
    try reflexivity; discriminate.
Qed.

Lemma dot_product_self_squares (e : list Q) : dot_product e e = sum_squares e.
Proof.
  unfold dot_product, sum_squares. f_equal.
  induction e as [|x e IH]; [reflexivity|].
  cbn [combine map fst snd]. rewrite IH. reflexivity.
Qed.

Lemma is_similar_self (e : list Q) (t : Q) :
  (0 < sum_squares e)%Q -> (t < 1)%Q -> is_similar e e t = true.
Proof.
  intros He Ht. unfold is_similar. rewrite Nat.eqb_refl. cbv zeta.
  rewrite (proj2 (Qltb_lt _ _) He). cbn [andb].
  unfold cosine_exceeds. rewrite dot_product_self_squares.
  set (A := sum_squares e) in *.
  destruct (Qle_bool 0 t) eqn:E.
  - apply Qle_bool_iff in E. rewrite (proj2 (Qltb_lt _ _) He). cbn [andb].
    apply Qltb_lt.
    clearbody A.
    assert (Htt : t * t < 1) by nra.
    assert (HA : 0 < A * A) by nra.
    nra.
  - apply orb_true_iff. left. apply Qle_bool_iff. lra.
Qed.

(** X10.  Because [save_embedding] runs before the scan, a listing whose
    embedding was returned with positive magnitude finds its own id
    first among its near-duplicates whenever [DEDUPE_SIMILARITY] is
    below 1, and is therefore always marked for final review. *)
Theorem listing_matches_itself cfg o id n c w w1 trust_score similar e :
  assess cfg o id n c w = (w1, trust_score, similar) ->
  embedding_returned cfg o = Some e ->
  (0 < sum_squares e)%Q ->
  (DEDUPE_SIMILARITY cfg < 1)%Q ->
  (exists rest, similar = id :: rest)
  /\ needs_final cfg (listed_price n) trust_score similar = true.
Proof.
  intros Ha He Hpos Ht.
  destruct (assess_embedding cfg o id n c w w1 trust_score similar Ha) as [H1 H2].
  rewrite He in H1, H2. destruct H1 as [H1 _].
  assert (Hs : exists rest, similar = id :: rest).
  { rewrite H2, H1. unfold find_similar_by_embedding.
    rewrite rev_app_distr. cbn [rev app firstn scan].
    rewrite (is_similar_self e _ Hpos Ht). cbn [firstn]. eexists. reflexivity. }
  split; [exact Hs|]. destruct Hs as [rest ->].
  unfold needs_final. cbn [length]. apply orb_true_r.
Qed.


(** [listing_matches_itself] on sample data. *)
Lemma listing_matches_itself_witness :
  let cfg := default_config true true true in
  let w := world_with cheap_listing 0.9 0 in
  let a := assess cfg all_succeed 1 cheap_listing 0.9 w in
  (exists rest, snd a = 1%Z :: rest)
  /\ needs_final cfg (listed_price cheap_listing) (snd (fst a)) (snd a) = true.
Proof.
  cbv zeta.
  pose (cfg := default_config true true true).
  pose (w := world_with cheap_listing 0.9 0).
  pose (a := assess cfg all_succeed 1 cheap_listing 0.9 w).
  refine (listing_matches_itself cfg all_succeed 1%Z cheap_listing 0.9 w
            (fst (fst a)) (snd (fst a)) (snd a) [1%Q] _ _ _ _).
  - reflexivity.
  - reflexivity.
  - reflexivity.
  - reflexivity.
Defined.

(** ** Publication *)

Lemma settle_outcome cfg o b id raw n trust_score final w :
  let b' := settle cfg o b id raw n trust_score final w in
  let cached := snd (cache_images o (n_images n) w) in
  production_portal_listings (the_world b')
  = update_where id
      (set_status_trust
         (if publishes cfg trust_score final then Spublished else Sneeds_review)
         trust_score)
      (production_portal_listings w)
  /\ trusted_listings (the_world b')
     = trusted_listings w
       ++ (if publishes cfg trust_score final
           then [published_row raw n trust_score final cached] else [])
  /\ validated_ids b'
     = validated_ids b ++ (if publishes cfg trust_score final then [id] else [])
  /\ needs_human b' = needs_human b.
Proof.
  unfold settle, publishes.
  destruct (cache_images_quiet o (n_images n) w) as [Q1 _].
  destruct (cache_images o (n_images n) w) as [w1 cached]. cbn [fst snd] in *.
  destruct Q1 as (_ & L1 & _ & _ & T1 & _).
  destruct (approve final && Qgeb trust_score (TRUST_SCORE_PUBLISH cfg));
    cbn; rewrite ?L1, ?T1, ?app_nil_r; auto.
Qed.

Lemma finalize_store cfg o n trust_score similar w :
  let w' := fst (finalize cfg o n trust_score similar w) in
  production_portal_listings w' = production_portal_listings w
  /\ trusted_listings w' = trusted_listings w
  /\ listing_embeddings w' = listing_embeddings w
  /\ next_row_id w' = next_row_id w.
Proof.
  unfold finalize, call_gpt5_finalize, update_daily_spend.
  repeat break_step; cbn; auto.
Qed.

Lemma assess_store cfg o id n c w :
  let w' := fst (fst (assess cfg o id n c w)) in
  production_portal_listings w' = production_portal_listings w
  /\ trusted_listings w' = trusted_listings w
  /\ next_row_id w' = next_row_id w.
Proof.
  unfold assess, call_anthropic_validation, call_perplexity_check, get_embedding,
    find_similar, save_embedding, update_daily_spend.
  repeat break_step; cbn; auto.
Qed.

(** What an iteration that passes the gate writes. *)
Lemma process_listing_outcome cfg b id raw n0 c0 o row w1 trust_score similar w2 d :
  select_row id (the_world b) = Some row ->
  missing_critical (row_normalized row) = false ->
  assess cfg o id (row_normalized row) (row_confidence row) (the_world b)
  = (w1, trust_score, similar) ->
  finalize cfg o (row_normalized row) trust_score similar w1 = (w2, Ok d) ->
  let b' := fst (process_listing cfg b (id, raw, n0, c0) o) in
  let st := if publishes cfg trust_score d then Spublished else Sneeds_review in
  select_row id (the_world b') = Some (set_status_trust st trust_score row)
  /\ trusted_listings (the_world b')
     = trusted_listings (the_world b)
       ++ (if publishes cfg trust_score d
           then [published_row raw (row_normalized row) trust_score d
                   (snd (cache_images o (n_images (row_normalized row)) w2))]
           else [])
  /\ validated_ids b'
     = validated_ids b ++ (if publishes cfg trust_score d then [id] else [])
  /\ needs_human b' = needs_human b.
Proof.
  intros Hsel Hg Ha Hf.
  assert (Hr : reload id n0 c0 (the_world b)
               = (row_normalized row, row_confidence row)).
  { unfold reload. rewrite Hsel. reflexivity. }
  destruct (process_listing_passed cfg b id raw n0 c0 o _ _ w1 trust_score similar
              Hr Hg Ha) as (w2' & d' & Hf' & ->).
  rewrite Hf in Hf'. injection Hf' as <- <-. cbn [fst].
  destruct (settle_outcome cfg o b id raw (row_normalized row) trust_score d w2)
    as (Hrows & Htr & Hv & Hh).
  pose proof (finalize_store cfg o (row_normalized row) trust_score similar w1) as Hfs.
  rewrite Hf in Hfs. cbn [fst] in Hfs. destruct Hfs as (F1 & F2 & _).
  pose proof (assess_store cfg o id (row_normalized row) (row_confidence row)
                (the_world b)) as Has.
  rewrite Ha in Has. cbn [fst] in Has. destruct Has as (A1 & A2 & _).
  cbv zeta. split.
  - unfold select_row. rewrite Hrows, F1, A1.
    rewrite find_update_same by reflexivity.
    unfold select_row in Hsel. rewrite Hsel. reflexivity.
  - rewrite Htr, F2, A2. auto.
Qed.

(** X11.  A listing that passes the gate is published exactly when the final
    decision approves and the evaluated trust score (not the final
    one) reaches [TRUST_SCORE_PUBLISH]: then one row is appended to
    [trusted_listings] and its id to the validated ids; otherwise its
    status is [needs_review] and nothing is appended.  Either way the
    trust score column is set to the evaluated score. *)
Theorem publish_rule cfg b id raw n0 c0 o row w1 trust_score similar w2 d :
  select_row id (the_world b) = Some row ->
  missing_critical (row_normalized row) = false ->
  assess cfg o id (row_normalized row) (row_confidence row) (the_world b)
  = (w1, trust_score, similar) ->
  finalize cfg o (row_normalized row) trust_score similar w1 = (w2, Ok d) ->
  let b' := fst (process_listing cfg b (id, raw, n0, c0) o) in
  let approved := approve d = true /\ (TRUST_SCORE_PUBLISH cfg <= trust_score)%Q in
  (approved ->
   option_map row_status (select_row id (the_world b')) = Some Spublished
   /\ (exists cached,
         trusted_listings (the_world b')
         = trusted_listings (the_world b)
           ++ [published_row raw (row_normalized row) trust_score d cached])
   /\ validated_ids b' = validated_ids b ++ [id])
  /\ (~ approved ->
      option_map row_status (select_row id (the_world b')) = Some Sneeds_review
      /\ trusted_listings (the_world b') = trusted_listings (the_world b)
      /\ validated_ids b' = validated_ids b)
  /\ option_map row_trust_score (select_row id (the_world b'))
     = Some (Some trust_score)
  /\ needs_human b' = needs_human b.
Proof.
  intros Hsel Hg Ha Hf.
  destruct (process_listing_outcome cfg b id raw n0 c0 o row w1 trust_score similar
              w2 d Hsel Hg Ha Hf) as (Hs & Ht & Hv & Hh).
  cbv zeta. rewrite Hs, Ht, Hv.
  assert (Hp : publishes cfg trust_score d = true
               <-> approve d = true /\ (TRUST_SCORE_PUBLISH cfg <= trust_score)%Q).
  { unfold publishes. rewrite andb_true_iff. unfold Qgeb.
    rewrite Qle_bool_iff. tauto. }
  destruct (publishes cfg trust_score d).
  - split; [intros _; cbn; split; [reflexivity|split; [eexists|]; reflexivity]|].
    split; [intro H; exfalso; apply H, Hp; reflexivity|].
    split; [reflexivity|exact Hh].
  - split; [intro H; apply Hp in H; discriminate|].
    split; [intros _; cbn; rewrite !app_nil_r; auto|].
    split; [reflexivity|exact Hh].
Qed.

(** [publish_rule] on sample data. *)
Lemma publish_rule_witness :
  let cfg := default_config true true true in
  let b := fresh_batch (world_with premium_listing 0.9 0) in
  let b' := fst (process_listing cfg b
                   (1%Z, scraped SNone [], premium_listing, 0.9%Q) all_succeed) in
  option_map row_status (select_row 1 (the_world b')) = Some Spublished
  /\ length (trusted_listings (the_world b')) = 1%nat
  /\ validated_ids b' = [1%Z].
Proof.
  cbv zeta.
  pose (cfg := default_config true true true).
  pose (b := fresh_batch (world_with premium_listing 0.9 0)).
  pose (a := assess cfg all_succeed 1 premium_listing 0.9 (the_world b)).
  pose (f := finalize cfg all_succeed premium_listing (snd (fst a)) (snd a)
               (fst (fst a))).
  pose (d := {| approve := true; d_price_band := None; d_summary := None;
                final_trust_score := Some 0.9%Q |}).
  destruct (proj1 (publish_rule cfg b 1%Z (scraped SNone []) premium_listing 0.9
                     all_succeed (stored_row 1 premium_listing 0.9)
                     (fst (fst a)) (snd (fst a)) (snd a) (fst f) d
                     eq_refl eq_refl eq_refl eq_refl)) as (H1 & (cached & H2) & H3).
  - split; [reflexivity|]. unfold Qle. simpl. lia.
  - split; [exact H1|]. split; [exact (f_equal (@length _) H2)|exact H3].
Defined.




(** ** The batch as a whole *)

Lemma process_listing_tally cfg b id raw n0 c0 o :
  let b' := fst (process_listing cfg b (id, raw, n0, c0) o) in
  (needs_human b' = needs_human b ++ [id]
   /\ validated_ids b' = validated_ids b
   /\ trusted_listings (the_world b') = trusted_listings (the_world b))
  \/ (needs_human b' = needs_human b
      /\ validated_ids b' = validated_ids b ++ [id]
      /\ exists r, trusted_listings (the_world b')
                   = trusted_listings (the_world b) ++ [r])
  \/ (needs_human b' = needs_human b
      /\ validated_ids b' = validated_ids b
      /\ trusted_listings (the_world b') = trusted_listings (the_world b)).
Proof.
  cbv zeta.
  destruct (reload id n0 c0 (the_world b)) as [n c] eqn:Hr.
  destruct (missing_critical n) eqn:Hg.
  - rewrite process_listing_gated by (rewrite Hr; exact Hg). left. cbn. auto.
  - destruct (assess cfg o id n c (the_world b)) as [[w1 t] sim] eqn:Ha.
    destruct (process_listing_passed cfg b id raw n0 c0 o n c w1 t sim Hr Hg Ha)
      as (w2 & d & Hf & ->).
    cbn [fst].
    destruct (settle_outcome cfg o b id raw n t d w2) as (_ & Htr & Hv & Hh).
    pose proof (finalize_store cfg o n t sim w1) as Hfs.
    rewrite Hf in Hfs. cbn [fst] in Hfs. destruct Hfs as (_ & F2 & _).
    pose proof (assess_store cfg o id n c (the_world b)) as Has.
    rewrite Ha in Has. cbn [fst] in Has. destruct Has as (_ & A2 & _).
    rewrite Htr, Hv, Hh, F2, A2.
    destruct (publishes cfg t d).
    + right. left. split; [reflexivity|]. split; [reflexivity|]. eexists. reflexivity.
    + right. right. rewrite !app_nil_r. auto.
Qed.

Lemma postprocess_tally cfg ms : forall b,
  let b' := fst (postprocess cfg b ms) in
  (length (validated_ids b') + length (needs_human b')
   <= length (validated_ids b) + length (needs_human b) + length ms)%nat
  /\ (length (trusted_listings (the_world b')) + length (validated_ids b)
      = length (trusted_listings (the_world b)) + length (validated_ids b'))%nat
  /\ exists v h,
       validated_ids b' = validated_ids b ++ v
       /\ needs_human b' = needs_human b ++ h
       /\ incl v (listing_ids ms) /\ incl h (listing_ids ms).
Proof.
  induction ms as [|[[[[id raw] n0] c0] o] ms IH]; intro b; cbn [postprocess].
  - cbn. split; [lia|]. split; [lia|]. exists [], [].
    rewrite !app_nil_r. repeat split; apply incl_refl.
  - pose proof (process_listing_never_raises cfg b (id, raw, n0, c0) o) as Hn.
    pose proof (process_listing_tally cfg b id raw n0 c0 o) as Ht.
    destruct (process_listing cfg b (id, raw, n0, c0) o) as [b1 e].
    cbn [fst snd] in *. subst e.
    destruct (IH b1) as (H1 & H2 & v & h & Hv & Hh & Iv & Ih).
    cbn [length listing_ids map fst].
    change (map (fun mo : mapping * oracle => fst (fst (fst (fst mo)))) ms)
      with (listing_ids ms).
    destruct Ht as [(A & B & C)|[(A & B & r & C)|(A & B & C)]];
      rewrite A, B, C in *; rewrite ?length_app in *; cbn [length] in *;
      (split; [lia|]); (split; [lia|]).
    + exists v, ([id] ++ h). rewrite Hv, Hh, <- app_assoc.
      repeat split; try reflexivity.
      * apply incl_tl. exact Iv.
      * apply incl_app; [intros x [<-|[]]; left; reflexivity|apply incl_tl; exact Ih].
    + exists ([id] ++ v), h. rewrite Hv, Hh, <- app_assoc.
      repeat split; try reflexivity.
      * apply incl_app; [intros x [<-|[]]; left; reflexivity|apply incl_tl; exact Iv].
      * apply incl_tl. exact Ih.
    + exists v, h. rewrite Hv, Hh.
      repeat split; try reflexivity; apply incl_tl; assumption.
Qed.

Lemma Qle_plus_nonneg (x c : Q) : (0 <= c -> x <= x + c)%Q.
Proof. intro H. lra. Qed.

Lemma Qle_plus_nonneg2 (x c d : Q) : (0 <= c -> 0 <= d -> x <= x + c + d)%Q.
Proof. intros H1 H2. lra. Qed.

Lemma spend_le_refl s : spend_le s s.
Proof. unfold spend_le. repeat split; apply Qle_refl. Qed.

Lemma spend_le_trans s1 s2 s3 : spend_le s1 s2 -> spend_le s2 s3 -> spend_le s1 s3.
Proof.
  unfold spend_le. intros (A & B & C & D) (A' & B' & C' & D').
  repeat split; eapply Qle_trans; eassumption.
Qed.

Ltac spend_steps :=
  unfold spend_le; cbn -[Qplus Qle];
  repeat split; first [apply Qle_refl | apply Qle_plus_nonneg; discriminate
                       | apply Qle_plus_nonneg2; discriminate].

Lemma assess_spend_le cfg o id n c w :
  spend_le (model_spend w) (model_spend (fst (fst (assess cfg o id n c w)))).
Proof.
  unfold assess, call_anthropic_validation, call_perplexity_check, get_embedding,
    find_similar, save_embedding, update_daily_spend.
  repeat break_step; spend_steps.
Qed.

Lemma finalize_spend_le cfg o n trust_score similar w :
  spend_le (model_spend w)
    (model_spend (fst (finalize cfg o n trust_score similar w))).
Proof.
  unfold finalize, call_gpt5_finalize, update_daily_spend.
  repeat break_step; spend_steps.
Qed.

Lemma process_listing_spend_le cfg b m o :
  spend_le (model_spend (the_world b))
    (model_spend (the_world (fst (process_listing cfg b m o)))).
Proof.
  destruct m as [[[id raw] n0] c0].
  destruct (reload id n0 c0 (the_world b)) as [n c] eqn:Hr.
  destruct (missing_critical n) eqn:Hg.
  - rewrite process_listing_gated by (rewrite Hr; exact Hg). apply spend_le_refl.
  - pose proof (assess_spend_le cfg o id n c (the_world b)) as Ha.
    destruct (assess cfg o id n c (the_world b)) as [[w1 t] sim] eqn:Ea.
    destruct (process_listing_passed cfg b id raw n0 c0 o n c w1 t sim Hr Hg Ea)
      as (w2 & d & Hf & ->).
    pose proof (finalize_spend_le cfg o n t sim w1) as Hfs.
    rewrite Hf in Hfs. cbn [fst] in *.
    destruct (settle_spec cfg o b id raw n t d w2) as (Hs & _).
    rewrite Hs. eapply spend_le_trans; eassumption.
Qed.

Lemma postprocess_spend_le cfg ms : forall b,
  spend_le (model_spend (the_world b))
    (model_spend (the_world (fst (postprocess cfg b ms)))).
Proof.
  induction ms as [|[m o] ms IH]; intro b; cbn [postprocess].
  - apply spend_le_refl.
  - pose proof (process_listing_never_raises cfg b m o) as Hn.
    pose proof (process_listing_spend_le cfg b m o) as Hs.
    destruct (process_listing cfg b m o) as [b1 e]. cbn [fst snd] in *. subst e.
    eapply spend_le_trans; [exact Hs|apply IH].
Qed.

Lemma gemini_items_frame items : forall w results,
  let w' := fst (gemini_items items w results) in
  spend_le (model_spend w) (model_spend w')
  /\ gpt5 (model_spend w') = gpt5 (model_spend w)
  /\ perplexity (model_spend w') = perplexity (model_spend w)
  /\ anthropic (model_spend w') = anthropic (model_spend w)
  /\ production_portal_listings w' = production_portal_listings w
  /\ next_row_id w' = next_row_id w
  /\ listing_embeddings w' = listing_embeddings w
  /\ trusted_listings w' = trusted_listings w
  /\ calls w' = calls w.
Proof.
  induction items as [|[raw o] items IH]; intros w results; cbn [gemini_items].
  - cbn. split; [apply spend_le_refl|]. repeat split.
  - destruct (gemini_reply o) as [data|]; [|apply IH].
    unfold update_daily_spend.
    match goal with
    | |- context [gemini_items items ?w1 ?r1] =>
        destruct (IH w1 r1) as (S & A & B & C & D & E & F & G & H)
    end.
    cbv zeta. rewrite A, B, C, D, E, F, G, H.
    split; [|cbn; repeat split].
    eapply spend_le_trans; [|exact S]. spend_steps.
Qed.

Lemma call_gemini_batch_frame cfg items w :
  let w' := fst (call_gemini_batch cfg items w) in
  spend_le (model_spend w) (model_spend w')
  /\ gpt5 (model_spend w') = gpt5 (model_spend w)
  /\ perplexity (model_spend w') = perplexity (model_spend w)
  /\ anthropic (model_spend w') = anthropic (model_spend w)
  /\ production_portal_listings w' = production_portal_listings w
  /\ next_row_id w' = next_row_id w
  /\ listing_embeddings w' = listing_embeddings w
  /\ trusted_listings w' = trusted_listings w
  /\ calls w' = calls w.
Proof.
  unfold call_gemini_batch.
  destruct (negb (gemini_model cfg) || is_empty items).
  - cbn. split; [apply spend_le_refl|]. repeat split.
  - apply gemini_items_frame.
Qed.

Section LoopFacts.

Variable str_isdigit : codepoint -> bool.
Variable decimal_value : codepoint -> option N.

Lemma save_cached_listing_frame w raw n c ts :
  let w' := fst (save_cached_listing w raw n c ts) in
  model_spend w' = model_spend w
  /\ listing_embeddings w' = listing_embeddings w
  /\ trusted_listings w' = trusted_listings w
  /\ calls w' = calls w.
Proof.
  unfold save_cached_listing.
  destruct (on_conflict _ _ _ _ _ _ _) as [[i rows']|]; cbn; auto.
Qed.

Lemma save_raw_items_frame cfg ts raw_items : forall w saved to_fallback,
  let r := save_raw_items str_isdigit decimal_value cfg ts raw_items w
             saved to_fallback in
  model_spend (fst (fst r)) = model_spend w
  /\ listing_embeddings (fst (fst r)) = listing_embeddings w
  /\ trusted_listings (fst (fst r)) = trusted_listings w
  /\ calls (fst (fst r)) = calls w
  /\ length (snd (fst r)) = (length saved + length raw_items)%nat.
Proof.
  induction raw_items as [|[raw o] rest IH]; intros w saved to_fallback;
    cbn [save_raw_items].
  - cbn. repeat split. lia.
  - destruct (normalize_item str_isdigit decimal_value raw) as [n c].
    pose proof (save_cached_listing_frame w raw n c ts) as Hs.
    destruct (save_cached_listing w raw n c ts) as [w1 id]. cbn [fst] in Hs.
    destruct Hs as (S1 & S2 & S3 & S4).
    match goal with
    | |- context [save_raw_items _ _ _ _ rest w1 ?s ?t] =>
        destruct (IH w1 s t) as (H1 & H2 & H3 & H4 & H5)
    end.
    cbv zeta. rewrite H1, H2, H3, H4, H5, S1, S2, S3, S4.
    repeat split. rewrite length_app. cbn [length]. lia.
Qed.

Lemma merge_gemini_frame gemini to_fallback : forall w,
  let w' := merge_gemini str_isdigit decimal_value gemini to_fallback w in
  model_spend w' = model_spend w
  /\ listing_embeddings w' = listing_embeddings w
  /\ trusted_listings w' = trusted_listings w
  /\ calls w' = calls w.
Proof.
  induction to_fallback as [|[id [raw o]] rest IH]; intro w; cbn [merge_gemini].
  - auto.
  - destruct (results_get (source_id raw) gemini) as [[gem|]|]; try apply IH.
    destruct (normalize_item str_isdigit decimal_value (only_extracted gem))
      as [norm2 conf2].
    match goal with
    | |- context [merge_gemini _ _ gemini rest ?w1] =>
        destruct (IH w1) as (H1 & H2 & H3 & H4)
    end.
    cbv zeta. rewrite H1, H2, H3, H4. auto.
Qed.

(** The batch is the loop run on what the first two phases leave. *)
Lemma process_ingest_batch_phases cfg ts raw_items w :
  exists w0 saved,
    process_ingest_batch str_isdigit decimal_value cfg ts raw_items w
    = postprocess cfg {| the_world := w0; validated_ids := []; needs_human := [] |}
        saved
    /\ length saved = length raw_items
    /\ spend_le (model_spend w) (model_spend w0)
    /\ gpt5 (model_spend w0) = gpt5 (model_spend w)
    /\ perplexity (model_spend w0) = perplexity (model_spend w)
    /\ anthropic (model_spend w0) = anthropic (model_spend w)
    /\ trusted_listings w0 = trusted_listings w
    /\ listing_embeddings w0 = listing_embeddings w
    /\ calls w0 = calls w.
Proof.
  unfold process_ingest_batch.
  pose proof (save_raw_items_frame cfg ts raw_items w [] []) as Hs.
  destruct (save_raw_items str_isdigit decimal_value cfg ts raw_items w [] [])
    as [[w1 saved] to_fallback]. cbn [fst snd length] in Hs.
  destruct Hs as (S1 & S2 & S3 & S4 & S5).
  eexists; exists saved. split; [reflexivity|]. split; [exact S5|].
  destruct (is_empty to_fallback).
  - rewrite S1, S2, S3, S4. split; [apply spend_le_refl|]. repeat split.
  - pose proof (call_gemini_batch_frame cfg (map snd to_fallback) w1) as Hg.
    destruct (call_gemini_batch cfg (map snd to_fallback) w1) as [w2 gemini].
    cbn [fst] in Hg. destruct Hg as (G0 & G1 & G2 & G3 & _ & _ & G6 & G7 & G8).
    destruct (merge_gemini_frame gemini to_fallback w2) as (M1 & M2 & M3 & M4).
    rewrite M1, M2, M3, M4, G1, G2, G3, G6, G7, G8, S2, S3, S4.
    rewrite <- S1. split; [exact G0|]. rewrite S1. repeat split.
Qed.

(** X14.  After a batch, the published and the needs-human listings together
    are at most the raw items (the rest need review), and
    [trusted_listings] has grown by one row per published listing. *)
Theorem batch_outcome_counts cfg ts raw_items w :
  let b := fst (process_ingest_batch str_isdigit decimal_value cfg ts raw_items w) in
  (length (validated_ids b) + length (needs_human b) <= length raw_items)%nat
  /\ length (trusted_listings (the_world b))
     = (length (trusted_listings w) + length (validated_ids b))%nat.
Proof.
  destruct (process_ingest_batch_phases cfg ts raw_items w)
    as (w0 & saved & -> & Hl & _ & _ & _ & _ & Ht & _).
  destruct (postprocess_tally cfg saved
              {| the_world := w0; validated_ids := []; needs_human := [] |})
    as (H1 & H2 & _).
  cbv zeta. cbn [validated_ids needs_human the_world length] in *.
  rewrite Ht in H2. split; lia.
Qed.

(** X15.  No spend counter is lower after a batch than before it. *)
Theorem spend_never_decreases cfg ts raw_items w :
  let b := fst (process_ingest_batch str_isdigit decimal_value cfg ts raw_items w) in
  spend_le (model_spend w) (model_spend (the_world b)).
Proof.
  destruct (process_ingest_batch_phases cfg ts raw_items w)
    as (w0 & saved & -> & _ & Hs & _).
  cbv zeta. eapply spend_le_trans; [exact Hs|].
  apply (postprocess_spend_le cfg saved
           {| the_world := w0; validated_ids := []; needs_human := [] |}).
Qed.

End LoopFacts.

(** X13.  The loop hands [call_gpt5_finalize] only records that passed
    the QA gate: whenever an iteration invokes it, the record it
    reloaded has a price that is not null and not zero, and an image.
    The comparison of a null price, on which [call_gpt5_finalize]
    raises, is therefore not reached from the loop. *)
Theorem finalizer_never_sees_null_price cfg b id raw n0 c0 o :
  let n := fst (reload id n0 c0 (the_world b)) in
  let b' := fst (process_listing cfg b (id, raw, n0, c0) o) in
  count_calls is_gpt5_finalize (the_world b')
  <> count_calls is_gpt5_finalize (the_world b) ->
  (exists p, n_price n = Some p /\ (0 < p)%N)
  /\ n_images n <> []
  /\ forall similar w, snd (call_gpt5_finalize cfg o n similar w) <> Raise TypeError.
Proof.
  cbv zeta. intro H.
  destruct (missing_critical (fst (reload id n0 c0 (the_world b)))) eqn:Hg.
  - exfalso. apply H. rewrite process_listing_gated by exact Hg. reflexivity.
  - destruct (passes_gate_price _ Hg) as (p & Hp & Hp0 & Hi).
    split; [exists p; split; [exact Hp|lia]|]. split; [exact Hi|].
    intros similar w. unfold call_gpt5_finalize. rewrite Hp.
    destruct (openai_client cfg); cbn [negb];
      [destruct (gpt5_reply o)|]; discriminate.
Qed.

(** [finalizer_never_sees_null_price] on an escalated listing. *)
Lemma finalizer_never_sees_null_price_witness :
  (exists p, n_price premium_listing = Some p /\ (0 < p)%N)
  /\ n_images premium_listing <> []
  /\ forall similar w,
       snd (call_gpt5_finalize (default_config true true true) all_succeed
              premium_listing similar w) <> Raise TypeError.
Proof.
  refine (finalizer_never_sees_null_price (default_config true true true)
            (fresh_batch (world_with premium_listing 0.9 0)) 1%Z
            (scraped SNone []) premium_listing 0.9 all_succeed _).
  vm_compute. discriminate.
Defined.


(** ** What the loop writes *)

Lemma process_listing_writes cfg b id raw n0 c0 o :
  exists f,
    touches_status_only f
    /\ (forall r, row_status (f r) <> Sraw)
    /\ (forall r, row_raw (f r) = row_raw r)
    /\ production_portal_listings
         (the_world (fst (process_listing cfg b (id, raw, n0, c0) o)))
       = update_where id f (production_portal_listings (the_world b)).
Proof.
  destruct (reload id n0 c0 (the_world b)) as [n c] eqn:Hr.
  destruct (missing_critical n) eqn:Hg.
  - rewrite process_listing_gated by (rewrite Hr; exact Hg).
    exists (set_status Sneeds_human).
    split; [apply set_status_only|]. split; [discriminate|]. split; reflexivity.
  - destruct (assess cfg o id n c (the_world b)) as [[w1 t] sim] eqn:Ha.
    destruct (process_listing_passed cfg b id raw n0 c0 o n c w1 t sim Hr Hg Ha)
      as (w2 & d & Hf & ->).
    cbn [fst].
    destruct (settle_outcome cfg o b id raw n t d w2) as (Hrows & _).
    pose proof (finalize_store cfg o n t sim w1) as Hfs.
    rewrite Hf in Hfs. cbn [fst] in Hfs. destruct Hfs as (F1 & _).
    pose proof (assess_store cfg o id n c (the_world b)) as Has.
    rewrite Ha in Has. cbn [fst] in Has. destruct Has as (A1 & _).
    rewrite Hrows, F1, A1. eexists.
    split; [apply set_status_trust_only|]. split; [|split; reflexivity].
    intro r. cbn. destruct (publishes cfg t d); discriminate.
Qed.

Lemma update_where_status_write id ids f rows :
  touches_status_only f -> (forall r, row_raw (f r) = row_raw r) ->
  In id ids ->
  Forall2 (status_write ids) rows (update_where id f rows).
Proof.
  intros Hf Hraw Hin. induction rows as [|r rows IH]; cbn [update_where map];
    constructor; [|exact IH].
  unfold status_write. destruct (Z.eqb (row_id r) id) eqn:E.
  - apply Z.eqb_eq in E. unfold row_core.
    destruct (Hf r) as (-> & -> & -> & ->). rewrite Hraw.
    split; [reflexivity|]. split; [reflexivity|].
    intro H. exfalso. apply H. rewrite E. exact Hin.
  - auto.
Qed.

Lemma status_write_refl ids rows : Forall2 (status_write ids) rows rows.
Proof. induction rows; constructor; [unfold status_write; auto|assumption]. Qed.

Lemma status_write_trans ids rows1 : forall rows2 rows3,
  Forall2 (status_write ids) rows1 rows2 ->
  Forall2 (status_write ids) rows2 rows3 ->
  Forall2 (status_write ids) rows1 rows3.
Proof.
  induction rows1 as [|r1 rows1 IH]; intros rows2 rows3 H12 H23;
    inversion H12; subst; inversion H23; subst; constructor.
  - match goal with
    | A : status_write ids r1 ?y, B : status_write ids ?y ?z |- _ =>
        destruct A as (A1 & A2 & A3); destruct B as (B1 & B2 & B3)
    end.
    unfold status_write. split; [congruence|]. split; [congruence|].
    intro H. rewrite B3, A3; auto.
    assert (E : row_id y = row_id r1) by (unfold row_core in A1; congruence).
    rewrite E. exact H.
  - eapply IH; eassumption.
Qed.

Lemma status_write_weaken ids ids' rows rows' :
  incl ids ids' ->
  Forall2 (status_write ids) rows rows' -> Forall2 (status_write ids') rows rows'.
Proof.
  intros Hi H. induction H; constructor; [|assumption].
  destruct H as (A & B & C). unfold status_write. split; [exact A|].
  split; [exact B|]. intro Hn. apply C. intro Hin. apply Hn, Hi, Hin.
Qed.

Lemma process_listing_next_row_id cfg b m o :
  next_row_id (the_world (fst (process_listing cfg b m o)))
  = next_row_id (the_world b).
Proof.
  destruct m as [[[id raw] n0] c0].
  destruct (reload id n0 c0 (the_world b)) as [n c] eqn:Hr.
  destruct (missing_critical n) eqn:Hg.
  - rewrite process_listing_gated by (rewrite Hr; exact Hg). reflexivity.
  - destruct (assess cfg o id n c (the_world b)) as [[w1 t] sim] eqn:Ha.
    destruct (process_listing_passed cfg b id raw n0 c0 o n c w1 t sim Hr Hg Ha)
      as (w2 & d & Hf & ->).
    cbn [fst].
    destruct (settle_ignored is_perplexity_check cfg o b id raw n t d w2
                perplexity_ignores_images) as (_ & Hn & _).
    pose proof (finalize_store cfg o n t sim w1) as Hfs.
    rewrite Hf in Hfs. cbn [fst] in Hfs. destruct Hfs as (_ & _ & _ & F4).
    pose proof (assess_store cfg o id n c (the_world b)) as Has.
    rewrite Ha in Has. cbn [fst] in Has. destruct Has as (_ & _ & A3).
    congruence.
Qed.

Lemma postprocess_status_write cfg ms : forall b,
  let w' := the_world (fst (postprocess cfg b ms)) in
  Forall2 (status_write (listing_ids ms))
    (production_portal_listings (the_world b)) (production_portal_listings w')
  /\ next_row_id w' = next_row_id (the_world b).
Proof.
  induction ms as [|[[[[id raw] n0] c0] o] ms IH]; intro b; cbn [postprocess].
  - split; [apply status_write_refl|reflexivity].
  - pose proof (process_listing_never_raises cfg b (id, raw, n0, c0) o) as Hn.
    pose proof (process_listing_next_row_id cfg b (id, raw, n0, c0) o) as Hx.
    destruct (process_listing_writes cfg b id raw n0 c0 o)
      as (f & Hf & _ & Hraw & Hrows).
    destruct (process_listing cfg b (id, raw, n0, c0) o) as [b1 e].
    cbn [fst snd] in *. subst e.
    destruct (IH b1) as [H1 H2]. cbv zeta. split; [|congruence].
    apply status_write_trans with (production_portal_listings (the_world b1)).
    + rewrite Hrows. apply update_where_status_write; try assumption.
      left. reflexivity.
    + eapply status_write_weaken; [|exact H1]. apply incl_tl, incl_refl.
Qed.

Lemma process_listing_settles cfg b id raw n0 c0 o row :
  select_row id (the_world b) = Some row ->
  exists f,
    touches_status_only f
    /\ (forall r, settled (row_normalized row) (row_status (f r)))
    /\ production_portal_listings
         (the_world (fst (process_listing cfg b (id, raw, n0, c0) o)))
       = update_where id f (production_portal_listings (the_world b)).
Proof.
  intro Hsel.
  assert (Hr : reload id n0 c0 (the_world b)
               = (row_normalized row, row_confidence row))
    by (unfold reload; rewrite Hsel; reflexivity).
  unfold settled. destruct (missing_critical (row_normalized row)) eqn:Hg.
  - rewrite process_listing_gated by (rewrite Hr; exact Hg).
    exists (set_status Sneeds_human).
    split; [apply set_status_only|]. split; reflexivity.
  - destruct (assess cfg o id (row_normalized row) (row_confidence row) (the_world b))
      as [[w1 t] sim] eqn:Ha.
    destruct (process_listing_passed cfg b id raw n0 c0 o _ _ w1 t sim Hr Hg Ha)
      as (w2 & d & Hf & ->).
    cbn [fst].
    destruct (settle_outcome cfg o b id raw (row_normalized row) t d w2)
      as (Hrows & _).
    pose proof (finalize_store cfg o (row_normalized row) t sim w1) as Hfs.
    rewrite Hf in Hfs. cbn [fst] in Hfs. destruct Hfs as (F1 & _).
    pose proof (assess_store cfg o id (row_normalized row) (row_confidence row)
                  (the_world b)) as Has.
    rewrite Ha in Has. cbn [fst] in Has. destruct Has as (A1 & _).
    rewrite Hrows, F1, A1. eexists.
    split; [apply set_status_trust_only|]. split; [|reflexivity].
    intro r. cbn. destruct (publishes cfg t d); auto.
Qed.

Lemma postprocess_stays_settled cfg id ms : forall b row,
  select_row id (the_world b) = Some row ->
  settled (row_normalized row) (row_status row) ->
  exists row',
    select_row id (the_world (fst (postprocess cfg b ms))) = Some row'
    /\ row_normalized row' = row_normalized row
    /\ settled (row_normalized row) (row_status row').
Proof.
  induction ms as [|[[[[id' raw] n0] c0] o] ms IH]; intros b row Hsel Hst.
  - exists row. auto.
  - cbn [postprocess].
    pose proof (process_listing_never_raises cfg b (id', raw, n0, c0) o) as Hn.
    destruct (Z.eq_dec id id') as [<-|Hne].
    + destruct (process_listing_settles cfg b id raw n0 c0 o row Hsel)
        as (f & Hf & Ht & Hrows).
      destruct (process_listing cfg b (id, raw, n0, c0) o) as [b1 e].
      cbn [fst snd] in *. subst e.
      destruct (Hf row) as (_ & Hnorm & _).
      destruct (IH b1 (f row)) as (row' & H1 & H2 & H3).
      * unfold select_row. rewrite Hrows, find_update_same by (intro r; apply Hf).
        unfold select_row in Hsel. rewrite Hsel. reflexivity.
      * rewrite Hnorm. apply Ht.
      * exists row'. rewrite Hnorm in *. auto.
    + destruct (process_listing_writes cfg b id' raw n0 c0 o)
        as (f & Hf & _ & _ & Hrows).
      destruct (process_listing cfg b (id', raw, n0, c0) o) as [b1 e].
      cbn [fst snd] in *. subst e.
      apply (IH b1 row); [|exact Hst].
      unfold select_row. rewrite Hrows.
      rewrite find_update_other; [exact Hsel|intro r; apply Hf|exact Hne].
Qed.

(** A loop that runs to its end settles the listings it was given and
    leaves the settled ones settled. *)
Lemma completed_loop_settles cfg id ms : forall b row,
  snd (postprocess cfg b ms) = None ->
  select_row id (the_world b) = Some row ->
  In id (listing_ids ms) \/ settled (row_normalized row) (row_status row) ->
  exists row',
    select_row id (the_world (fst (postprocess cfg b ms))) = Some row'
    /\ row_normalized row' = row_normalized row
    /\ settled (row_normalized row) (row_status row').
Proof.
  induction ms as [|[[[[id' raw] n0] c0] o] ms IH]; intros b row Hdone Hsel Hin.
  - destruct Hin as [[]|Hst]. exists row. auto.
  - cbn [postprocess] in Hdone |- *.
    destruct (Z.eq_dec id id') as [<-|Hne].
    + destruct (process_listing_settles cfg b id raw n0 c0 o row Hsel)
        as (f & Hf & Ht & Hrows).
      destruct (process_listing cfg b (id, raw, n0, c0) o) as [b1 [e|]];
        [discriminate Hdone|].
      cbn [fst] in Hrows.
      destruct (Hf row) as (_ & Hnorm & _).
      destruct (IH b1 (f row) Hdone) as (row' & H1 & H2 & H3).
      * unfold select_row. rewrite Hrows, find_update_same by (intro r; apply Hf).
        unfold select_row in Hsel. rewrite Hsel. reflexivity.
      * right. rewrite Hnorm. apply Ht.
      * exists row'. rewrite Hnorm in *. auto.
    + destruct (process_listing_writes cfg b id' raw n0 c0 o)
        as (f & Hf & _ & _ & Hrows).
      destruct (process_listing cfg b (id', raw, n0, c0) o) as [b1 [e|]];
        [discriminate Hdone|].
      cbn [fst] in Hrows.
      apply (IH b1 row Hdone).
      * unfold select_row. rewrite Hrows.
        rewrite find_update_other; [exact Hsel|intro r; apply Hf|exact Hne].
      * destruct Hin as [[Hin|Hin]|Hst]; [cbn in Hin; congruence|left; exact Hin|
                                         right; exact Hst].
Qed.

(** X16.  When the loop runs to its end, every listing it was given
    has left the status [raw]: it ends as [needs_human] exactly when
    its stored record fails the QA gate, and the loop does not change
    the record.  (A loop that an exception ends leaves the listings it
    did not reach as they were.) *)
Theorem processed_listings_leave_raw cfg id ms b row :
  snd (postprocess cfg b ms) = None ->
  select_row id (the_world b) = Some row ->
  In id (listing_ids ms) ->
  exists row',
    select_row id (the_world (fst (postprocess cfg b ms))) = Some row'
    /\ row_normalized row' = row_normalized row
    /\ row_status row' <> Sraw
    /\ (missing_critical (row_normalized row) = true <->
        row_status row' = Sneeds_human).
Proof.
  intros Hdone Hsel Hin.
  destruct (completed_loop_settles cfg id ms b row Hdone Hsel (or_introl Hin))
    as (row' & H1 & H2 & H3).
  exists row'. split; [exact H1|]. split; [exact H2|].
  unfold settled in H3. destruct (missing_critical (row_normalized row)).
  - rewrite H3. split; [discriminate|tauto].
  - destruct H3 as [H3|H3]; rewrite H3; split; try discriminate;
      split; discriminate.
Qed.

(** [processed_listings_leave_raw] on sample data. *)
Lemma processed_listings_leave_raw_witness :
  let cfg := default_config true true true in
  let b := fresh_batch (world_with premium_listing 0.9 0) in
  let ms := [mapped premium_listing 0.9 all_succeed] in
  exists row',
    select_row 1 (the_world (fst (postprocess cfg b ms))) = Some row'
    /\ row_normalized row' = premium_listing
    /\ row_status row' <> Sraw
    /\ (missing_critical premium_listing = true <->
        row_status row' = Sneeds_human).
Proof.
  refine (processed_listings_leave_raw (default_config true true true) 1%Z
            [mapped premium_listing 0.9 all_succeed]
            (fresh_batch (world_with premium_listing 0.9 0))
            (stored_row 1 premium_listing 0.9) _ _ _).
  - vm_compute. reflexivity.
  - reflexivity.
  - left. reflexivity.
Defined.

Lemma status_write_core ids rows rows' :
  Forall2 (status_write ids) rows rows' ->
  map row_core rows' = map row_core rows /\ map row_raw rows' = map row_raw rows.
Proof.
  induction 1 as [|r r' rows rows' (A & B & _) _ [IH1 IH2]]; [auto|].
  cbn [map]. rewrite A, B, IH1, IH2. auto.
Qed.

(** X17.  The per-listing loop inserts and deletes no row of
    [production_portal_listings] and writes only the status and trust
    score columns, and only of the listings it was given. *)
Theorem loop_writes_status_only cfg ms b :
  let rows := production_portal_listings (the_world b) in
  let w' := the_world (fst (postprocess cfg b ms)) in
  map row_core (production_portal_listings w') = map row_core rows
  /\ map row_raw (production_portal_listings w') = map row_raw rows
  /\ next_row_id w' = next_row_id (the_world b)
  /\ Forall2 (fun r r' => ~ In (row_id r) (listing_ids ms) -> r' = r)
       rows (production_portal_listings w').
Proof.
  destruct (postprocess_status_write cfg ms b) as [H1 H2]. cbv zeta.
  destruct (status_write_core _ _ _ H1) as [C1 C2].
  split; [exact C1|]. split; [exact C2|]. split; [exact H2|].
  eapply Forall2_impl; [|exact H1]. intros r r' (_ & _ & H). exact H.
Qed.


(** ** The table constraints *)

Section UpsertLookup.
Variables (src sid ts : ustring) (n : normalized) (raw : raw_item) (c : Q).

Lemma on_conflict_id_in rows i rows' :
  on_conflict src sid ts n raw c rows = Some (i, rows') ->
  In i (map row_id rows).
Proof.
  revert i rows'. induction rows as [|r rs IH]; intros i rows';
    cbn [on_conflict]; [discriminate|].
  destruct (same_identity src sid ts r).
  - intro H. injection H as <- _. left. reflexivity.
  - destruct (on_conflict src sid ts n raw c rs) as [[j rs']|]; [|discriminate].
    intro H. injection H as <- _. right. eapply IH. reflexivity.
Qed.

Lemma on_conflict_lookup rows i rows' :
  NoDup (map row_id rows) ->
  on_conflict src sid ts n raw c rows = Some (i, rows') ->
  exists r,
    find (same_identity src sid ts) rows = Some r
    /\ find (fun x => Z.eqb (row_id x) i) rows' = Some (overwrite n raw c r).
Proof.
  revert i rows'. induction rows as [|r rs IH]; intros i rows' Hnd;
    cbn [on_conflict find]; [discriminate|].
  cbn [map] in Hnd. inversion Hnd as [|x l Hnotin Hnd']; subst.
  destruct (same_identity src sid ts r) eqn:E.
  - intro H. injection H as <- <-. exists r. split; [reflexivity|].
    cbn [find overwrite row_id]. rewrite Z.eqb_refl. reflexivity.
  - destruct (on_conflict src sid ts n raw c rs) as [[j rs']|] eqn:Ec;
      [|discriminate].
    intro H. injection H as <- <-.
    destruct (IH j rs' Hnd' eq_refl) as (r0 & H1 & H2).
    exists r0. split; [exact H1|]. cbn [find].
    destruct (Z.eqb (row_id r) j) eqn:Ej; [|exact H2].
    exfalso. apply Z.eqb_eq in Ej. apply Hnotin. rewrite Ej.
    eapply on_conflict_id_in. exact Ec.
Qed.
End UpsertLookup.

Lemma find_fresh_id rows row :
  Forall (fun i => (i < row_id row)%Z) (map row_id rows) ->
  find (fun x => Z.eqb (row_id x) (row_id row)) (rows ++ [row]) = Some row.
Proof.
  induction rows as [|r rs IH]; cbn [map app find]; intro H.
  - rewrite Z.eqb_refl. reflexivity.
  - inversion H as [|x l Hx Hl]; subst.
    destruct (Z.eqb (row_id r) (row_id row)) eqn:E;
      [apply Z.eqb_eq in E; lia|apply IH; exact Hl].
Qed.

Lemma NoDup_snoc {A} (l : list A) (a : A) :
  NoDup l -> ~ In a l -> NoDup (l ++ [a]).
Proof.
  intros Hl Ha. apply NoDup_app; [exact Hl|repeat constructor; intros []|].
  intros x Hx [<-|[]]. exact (Ha Hx).
Qed.

Lemma unheld_key_absent src sid ts w :
  filter (same_identity src sid ts) (production_portal_listings w) = [] ->
  ~ In (src, sid, ts) (keys w).
Proof.
  intros E Hin. unfold keys in Hin. apply in_map_iff in Hin.
  destruct Hin as (r & Hk & Hin).
  assert (H : In r (filter (same_identity src sid ts) (production_portal_listings w))).
  { apply filter_In. split; [exact Hin|]. apply same_identity_key. exact Hk. }
  rewrite E in H. destruct H.
Qed.

Lemma save_cached_listing_well_keyed w raw n c ts :
  well_keyed w -> well_keyed (fst (save_cached_listing w raw n c ts)).
Proof.
  intros (Hid & Hk & Hn). unfold save_cached_listing.
  destruct (on_conflict (source raw) (source_id raw) ts n raw c
              (production_portal_listings w)) as [[i rows']|] eqn:E.
  - destruct (on_conflict_some _ _ _ _ _ _ _ _ _ E) as (_ & Ek & Ei & _).
    unfold well_keyed, keys. cbn. rewrite Ek, Ei. auto.
  - apply on_conflict_none in E. pose proof (unheld_key_absent _ _ _ _ E) as Hab.
    unfold well_keyed, keys in *. cbn.
    rewrite !map_app. cbn [map row_id identity_key].
    split; [|split].
    + apply NoDup_snoc; [exact Hid|]. intro Hin.
      rewrite Forall_forall in Hn. specialize (Hn _ Hin). lia.
    + apply NoDup_snoc; assumption.
    + apply Forall_app. split.
      * eapply Forall_impl; [|exact Hn]. cbn. intros; lia.
      * constructor; [lia|constructor].
Qed.

(** X18.  On a table that satisfies its key constraints, the id
    [save_cached_listing] returns is that of a row holding the saved
    record, raw item and confidence under the upsert key.  When the key
    was held, it is the holder's id and the holder keeps its status and
    trust score; otherwise it is a new id on a new row of status
    [raw]. *)
Theorem save_and_lookup w raw n c ts :
  well_keyed w ->
  let w1 := fst (save_cached_listing w raw n c ts) in
  let id := snd (save_cached_listing w raw n c ts) in
  exists row,
    select_row id w1 = Some row
    /\ row_id row = id
    /\ row_normalized row = n
    /\ row_raw row = raw
    /\ row_confidence row = c
    /\ identity_key row = (source raw, source_id raw, ts)
    /\ match holder (source raw) (source_id raw) ts w with
       | Some r =>
           row_status row = row_status r
           /\ row_trust_score row = row_trust_score r
           /\ id = row_id r
           /\ length (production_portal_listings w1)
              = length (production_portal_listings w)
       | None =>
           row_status row = Sraw
           /\ row_trust_score row = None
           /\ id = next_row_id w
           /\ length (production_portal_listings w1)
              = S (length (production_portal_listings w))
       end.
Proof.
  intros (Hid & Hk & Hn). cbv zeta. unfold save_cached_listing, holder, select_row.
  destruct (on_conflict (source raw) (source_id raw) ts n raw c
              (production_portal_listings w)) as [[i rows']|] eqn:E.
  - destruct (on_conflict_lookup _ _ _ _ _ _ _ _ _ Hid E) as (r & Hr & Hf).
    destruct (on_conflict_some _ _ _ _ _ _ _ _ _ E) as (_ & _ & Ei & _).
    cbn [fst snd production_portal_listings with_listings].
    rewrite Hr, Hf. exists (overwrite n raw c r).
    split; [reflexivity|].
    assert (Hkey : identity_key r = (source raw, source_id raw, ts)).
    { apply same_identity_key. apply find_some in Hr. apply Hr. }
    assert (Hrid : row_id r = i).
    { apply find_some in Hf. destruct Hf as [_ Hf]. apply Z.eqb_eq in Hf.
      exact Hf. }
    cbn. repeat split; auto.
    apply (f_equal (@length _)) in Ei. rewrite !length_map in Ei. exact Ei.
  - cbn [fst snd production_portal_listings with_listings].
    pose proof (proj1 (on_conflict_none _ _ _ _ _ _ _) E) as Ef.
    assert (Hh : find (same_identity (source raw) (source_id raw) ts)
                   (production_portal_listings w) = None).
    { destruct (find _ _) as [r|] eqn:Hfind; [|reflexivity].
      apply find_some in Hfind.
      assert (In r (filter (same_identity (source raw) (source_id raw) ts)
                      (production_portal_listings w)))
        by (apply filter_In; exact Hfind).
      rewrite Ef in H. destruct H. }
    rewrite Hh.
    match goal with
    | |- context [production_portal_listings w ++ [?r]] =>
        exists r; split; [apply (find_fresh_id (production_portal_listings w) r Hn)|]
    end.
    cbn. repeat split. rewrite length_app. cbn. lia.
Qed.

(** [save_and_lookup] on sample data. *)
Lemma save_and_lookup_witness :
  let w := world_with cheap_listing 0.9 0 in
  let raw := scraped (SStr rupees_4_50_000) [img_a] in
  let n := listing (Some 450000%N) [img_a] in
  let w1 := fst (save_cached_listing w raw n 0.7 ts_0600) in
  let id := snd (save_cached_listing w raw n 0.7 ts_0600) in
  exists row,
    select_row id w1 = Some row
    /\ row_id row = id
    /\ row_normalized row = n
    /\ row_raw row = raw
    /\ row_confidence row = 0.7%Q
    /\ identity_key row = (olx, olx_1, ts_0600)
    /\ row_status row = Sraw
    /\ row_trust_score row = None
    /\ id = 1%Z
    /\ length (production_portal_listings w1) = 1%nat.
Proof.
  refine (save_and_lookup (world_with cheap_listing 0.9 0)
            (scraped (SStr rupees_4_50_000) [img_a])
            (listing (Some 450000%N) [img_a]) 0.7 ts_0600 _).
  split; [|split].
  - constructor; [intros []|constructor].
  - constructor; [intros []|constructor].
  - constructor; [reflexivity|constructor].
Defined.

Lemma same_ids_well_keyed w w' :
  map row_core (production_portal_listings w')
  = map row_core (production_portal_listings w) ->
  next_row_id w' = next_row_id w ->
  well_keyed w -> well_keyed w'.
Proof.
  intros Hc Hn (A & B & C). unfold well_keyed, keys in *.
  assert (Hi : map row_id (production_portal_listings w')
               = map row_id (production_portal_listings w)).
  { apply (f_equal (map (fun x => fst (fst (fst x))))) in Hc.
    rewrite !map_map in Hc. exact Hc. }
  assert (Hk : map identity_key (production_portal_listings w')
               = map identity_key (production_portal_listings w)).
  { apply (f_equal (map (fun x => snd (fst (fst x))))) in Hc.
    rewrite !map_map in Hc. exact Hc. }
  rewrite Hi, Hk, Hn. auto.
Qed.

Lemma update_listing_core id f w :
  touches_status_only f \/ (exists n c, f = set_normalized n c) ->
  map row_id (production_portal_listings (update_listing id f w))
  = map row_id (production_portal_listings w)
  /\ keys (update_listing id f w) = keys w
  /\ next_row_id (update_listing id f w) = next_row_id w.
Proof.
  intro Hf. unfold keys, update_listing, update_where. cbn. rewrite !map_map.
  split; [|split; [|reflexivity]]; apply map_ext; intro r;
    destruct (Z.eqb (row_id r) id); try reflexivity;
    destruct Hf as [Hf|(n & c & ->)]; try reflexivity; apply Hf.
Qed.

Section TableFacts.

Variable str_isdigit : codepoint -> bool.
Variable decimal_value : codepoint -> option N.

Lemma save_raw_items_well_keyed cfg ts raw_items : forall w saved to_fallback,
  well_keyed w ->
  well_keyed (fst (fst (save_raw_items str_isdigit decimal_value cfg ts raw_items w
                          saved to_fallback))).
Proof.
  induction raw_items as [|[raw o] rest IH]; intros w saved to_fallback Hw;
    cbn [save_raw_items]; [exact Hw|].
  destruct (normalize_item str_isdigit decimal_value raw) as [n c].
  pose proof (save_cached_listing_well_keyed w raw n c ts Hw) as H1.
  destruct (save_cached_listing w raw n c ts) as [w1 id]. cbn [fst] in H1.
  apply IH. exact H1.
Qed.

Lemma merge_gemini_well_keyed gemini to_fallback : forall w,
  well_keyed w ->
  well_keyed (merge_gemini str_isdigit decimal_value gemini to_fallback w).
Proof.
  induction to_fallback as [|[id [raw o]] rest IH]; intros w Hw;
    cbn [merge_gemini]; [exact Hw|].
  destruct (results_get (source_id raw) gemini) as [[gem|]|]; try (apply IH; exact Hw).
  destruct (normalize_item str_isdigit decimal_value (only_extracted gem))
    as [norm2 conf2].
  apply IH.
  destruct (update_listing_core id (set_normalized norm2 conf2) w
              (or_intror (ex_intro _ norm2 (ex_intro _ conf2 eq_refl))))
    as (Hi & Hk & Hn).
  destruct Hw as (A & B & C). unfold well_keyed. rewrite Hi, Hk, Hn. auto.
Qed.

(** X19.  The key constraints of [production_portal_listings] (unique ids,
    unique upsert keys, an id counter ahead of every id) are kept by
    [save_cached_listing] and by the whole batch. *)
Theorem table_constraints_kept cfg ts raw_items w raw n c :
  well_keyed w ->
  well_keyed (fst (save_cached_listing w raw n c ts))
  /\ well_keyed (the_world (fst (process_ingest_batch str_isdigit decimal_value
                                   cfg ts raw_items w))).
Proof.
  intro Hw. split; [apply save_cached_listing_well_keyed; exact Hw|].
  unfold process_ingest_batch.
  pose proof (save_raw_items_well_keyed cfg ts raw_items w [] [] Hw) as H1.
  destruct (save_raw_items str_isdigit decimal_value cfg ts raw_items w [] [])
    as [[w1 saved] to_fallback]. cbn [fst] in H1.
  match goal with
  | |- well_keyed (the_world (fst (postprocess cfg ?b saved))) =>
      destruct (postprocess_status_write cfg saved b) as [P1 P2];
      apply (same_ids_well_keyed (the_world b));
        [apply (status_write_core _ _ _ P1)|exact P2|]
  end.
  cbn [the_world]. destruct (is_empty to_fallback); [exact H1|].
  pose proof (call_gemini_batch_frame cfg (map snd to_fallback) w1) as Hg.
  destruct (call_gemini_batch cfg (map snd to_fallback) w1) as [w2 gemini].
  cbn [fst] in Hg. destruct Hg as (_ & _ & _ & _ & G4 & G5 & _).
  apply merge_gemini_well_keyed.
  destruct H1 as (A & B & C). unfold well_keyed, keys. rewrite G4, G5. auto.
Qed.

End TableFacts.

(** [table_constraints_kept] on sample data. *)
Lemma table_constraints_kept_witness :
  let items := [(scraped (SStr rupees_4_50_000) [img_a], all_succeed);
                (scraped SNone [], all_succeed)] in
  well_keyed (fst (save_cached_listing empty_world (scraped SNone [])
                     cheap_listing 0.9 ts_0600))
  /\ well_keyed
       (the_world (fst (process_ingest_batch sample_isdigit sample_decimal_value
                          (default_config true true true) ts_0600 items
                          empty_world))).
Proof.
  refine (table_constraints_kept sample_isdigit sample_decimal_value
            (default_config true true true) ts_0600 _ empty_world
            (scraped SNone []) cheap_listing 0.9 _).
  split; [|split]; constructor.
Defined.

Lemma empty_world_well_keyed : well_keyed empty_world.
Proof. repeat split; constructor. Qed.


(** ** Listing ids within a batch *)

Lemma on_conflict_index src sid ts n raw c rows : forall i rows',
  on_conflict src sid ts n raw c rows = Some (i, rows') ->
  map (fun r => (row_id r, identity_key r)) rows'
  = map (fun r => (row_id r, identity_key r)) rows
  /\ In (i, (src, sid, ts)) (map (fun r => (row_id r, identity_key r)) rows).
Proof.
  induction rows as [|r rs IH]; intros i rows'; cbn [on_conflict];
    [discriminate|].
  destruct (same_identity src sid ts r) eqn:E.
  - intro H. injection H as <- <-. cbn [map]. split; [reflexivity|].
    left. apply same_identity_key in E. rewrite E. reflexivity.
  - destruct (on_conflict src sid ts n raw c rs) as [[j rs']|]; [|discriminate].
    intro H. injection H as <- <-. destruct (IH j rs' eq_refl) as [I1 I2].
    cbn [map]. rewrite I1. split; [reflexivity|right; exact I2].
Qed.

Lemma save_cached_listing_index w raw n c ts :
  let out := save_cached_listing w raw n c ts in
  incl (row_index w) (row_index (fst out))
  /\ In (snd out, (source raw, source_id raw, ts)) (row_index (fst out)).
Proof.
  cbv zeta. unfold save_cached_listing, row_index.
  destruct (on_conflict (source raw) (source_id raw) ts n raw c
              (production_portal_listings w)) as [[i rows']|] eqn:E.
  - destruct (on_conflict_index _ _ _ _ _ _ _ _ _ E) as [I1 I2].
    cbn [fst snd production_portal_listings with_listings]. rewrite I1.
    split; [apply incl_refl|exact I2].
  - cbn [fst snd production_portal_listings with_listings]. rewrite map_app.
    split; [apply incl_appl, incl_refl|].
    apply in_or_app. right. left. reflexivity.
Qed.

Lemma NoDup_map_eq {A B} (f : A -> B) (l : list A) x y :
  NoDup (map f l) -> In x l -> In y l -> f x = f y -> x = y.
Proof.
  induction l as [|a l IH]; cbn [map]; intros Hn Hx Hy E; [destruct Hx|].
  inversion Hn as [|? ? Hnot Hn']; subst.
  destruct Hx as [->|Hx], Hy as [->|Hy]; try reflexivity.
  - exfalso. apply Hnot. rewrite E. apply in_map. exact Hy.
  - exfalso. apply Hnot. rewrite <- E. apply in_map. exact Hx.
  - apply IH; assumption.
Qed.

Section BatchIds.

Variable str_isdigit : codepoint -> bool.
Variable decimal_value : codepoint -> option N.

Lemma save_raw_items_index cfg ts raw_items : forall w saved to_fallback,
  let r := save_raw_items str_isdigit decimal_value cfg ts raw_items w
             saved to_fallback in
  Forall (fun mo => In (mapping_id mo,
                        (source (mapping_raw mo), source_id (mapping_raw mo), ts))
                       (row_index w)) saved ->
  Forall (fun mo => In (mapping_id mo,
                        (source (mapping_raw mo), source_id (mapping_raw mo), ts))
                       (row_index (fst (fst r)))) (snd (fst r)).
Proof.
  induction raw_items as [|[raw o] rest IH]; intros w saved to_fallback;
    cbv zeta; cbn [save_raw_items]; [auto|].
  destruct (normalize_item str_isdigit decimal_value raw) as [n c].
  pose proof (save_cached_listing_index w raw n c ts) as H1.
  destruct (save_cached_listing w raw n c ts) as [w1 id].
  cbn [fst snd] in H1. destruct H1 as [Hincl Hin].
  intro Hs. apply IH. apply Forall_app. split.
  - eapply Forall_impl; [|exact Hs]. cbn beta. intros mo Hmo.
    apply Hincl. exact Hmo.
  - constructor; [exact Hin|constructor].
Qed.

(** X20.  Within a batch, two raw items get the same listing id exactly when
    they carry the same source and source id, on a table that satisfied
    its key constraints when the batch began: duplicates of a listing
    share one row. *)
Theorem batch_ids_follow_keys cfg ts raw_items w m1 m2 :
  well_keyed w ->
  let saved := snd (fst (save_raw_items str_isdigit decimal_value cfg ts
                           raw_items w [] [])) in
  In m1 saved -> In m2 saved ->
  (mapping_id m1 = mapping_id m2
   <-> (source (mapping_raw m1), source_id (mapping_raw m1))
       = (source (mapping_raw m2), source_id (mapping_raw m2))).
Proof.
  intros Hw saved H1 H2.
  pose proof (save_raw_items_well_keyed str_isdigit decimal_value cfg ts
                raw_items w [] [] Hw) as (Hid & Hk & _).
  pose proof (save_raw_items_index cfg ts raw_items w [] [] (Forall_nil _)) as Hi.
  cbv zeta in Hi. fold saved in Hi. rewrite Forall_forall in Hi.
  pose proof (Hi m1 H1) as I1. pose proof (Hi m2 H2) as I2.
  unfold row_index in I1, I2. apply in_map_iff in I1, I2.
  destruct I1 as (r1 & E1 & R1), I2 as (r2 & E2 & R2).
  apply pair_equal_spec in E1, E2. destruct E1 as [A1 B1], E2 as [A2 B2].
  split; intro E.
  - assert (r1 = r2) by (apply (NoDup_map_eq row_id _ r1 r2 Hid R1 R2); congruence).
    subst r2. congruence.
  - assert (r1 = r2).
    { apply (NoDup_map_eq identity_key _ r1 r2 Hk R1 R2).
      rewrite B1, B2. apply pair_equal_spec in E. destruct E as [-> ->].
      reflexivity. }
    subst r2. congruence.
Qed.

End BatchIds.


(** [batch_ids_follow_keys] on sample data. *)
Lemma batch_ids_follow_keys_witness :
  let raw := scraped (SStr rupees_4_50_000) [img_a] in
  let n := fst (normalize_item sample_isdigit sample_decimal_value raw) in
  let c := snd (normalize_item sample_isdigit sample_decimal_value raw) in
  let m1 := ((1%Z, raw, n, c), all_succeed) in
  let m2 := ((1%Z, raw, n, c), uploads_fail) in
  mapping_id m1 = mapping_id m2
  <-> (source (mapping_raw m1), source_id (mapping_raw m1))
      = (source (mapping_raw m2), source_id (mapping_raw m2)).
Proof.
  cbv zeta.
  refine (batch_ids_follow_keys sample_isdigit sample_decimal_value
            (default_config true true true) ts_0600
            [(scraped (SStr rupees_4_50_000) [img_a], all_succeed);
             (scraped (SStr rupees_4_50_000) [img_a], uploads_fail)]
            empty_world _ _ _ _ _).
  - split; [|split]; constructor.
  - left. reflexivity.
  - right. left. reflexivity.
Defined.


(** ** Gemini fallback *)

Lemma ustring_eqb_refl a : ustring_eqb a a = true.
Proof. apply ustring_eqb_eq. reflexivity. Qed.

Lemma results_get_filter k k' d :
  ustring_eqb k' k = false ->
  results_get k (filter (fun kv => negb (ustring_eqb (fst kv) k')) d)
  = results_get k d.
Proof.
  intro Hk. induction d as [|[a v] d IH]; [reflexivity|].
  cbn [filter fst results_get].
  destruct (ustring_eqb a k') eqn:E1; cbn [negb].
  - apply ustring_eqb_eq in E1. subst a. rewrite Hk. exact IH.
  - cbn [results_get]. destruct (ustring_eqb a k); [reflexivity|exact IH].
Qed.

Lemma results_get_set k k' v d :
  results_get k (results_set k' v d)
  = if ustring_eqb k' k then Some v else results_get k d.
Proof.
  unfold results_set. cbn [results_get].
  destruct (ustring_eqb k' k) eqn:E; [reflexivity|].
  apply results_get_filter. exact E.
Qed.

Lemma results_get_app k d1 d2 :
  results_get k (d1 ++ d2)
  = match results_get k d1 with Some v => Some v | None => results_get k d2 end.
Proof.
  induction d1 as [|[a v] d1 IH]; [reflexivity|].
  cbn [app results_get]. destruct (ustring_eqb a k); [reflexivity|exact IH].
Qed.

Lemma results_set_nodup k v d :
  NoDup (map fst d) -> NoDup (map fst (results_set k v d)).
Proof.
  intro H. unfold results_set. cbn [map fst]. constructor.
  - rewrite in_map_iff. intros [[a x] [E Hin]]. cbn [fst] in E. subst a.
    apply filter_In in Hin. destruct Hin as [_ Hf]. cbn [fst] in Hf.
    rewrite ustring_eqb_refl in Hf. discriminate.
  - induction d as [|[a x] d IH]; [constructor|].
    cbn [map fst] in H. inversion H as [|? ? Hn Hd]; subst.
    cbn [filter fst]. destruct (negb (ustring_eqb a k)).
    + cbn [map fst]. constructor; [|apply IH; exact Hd].
      intro Hin. apply Hn. apply in_map_iff in Hin.
      destruct Hin as [kv [E Hin]]. apply filter_In in Hin.
      apply in_map_iff. exists kv. split; [exact E|apply Hin].
    + apply IH. exact Hd.
Qed.

Lemma results_set_length k v d :
  (length (results_set k v d) <= S (length d))%nat.
Proof.
  unfold results_set. cbn [length]. apply le_n_S. apply filter_length_le.
Qed.

Lemma gemini_items_results items : forall w acc,
  let out := gemini_items items w acc in
  (gemini (model_spend (fst out))
   == gemini (model_spend w) + 0.01 * Qof_nat (length (gemini_replies items)))%Q
  /\ (forall k, results_get k (snd out)
                = results_get k (rev (gemini_replies items) ++ acc))
  /\ (NoDup (map fst acc) -> NoDup (map fst (snd out)))
  /\ (length (snd out) <= length (gemini_replies items) + length acc)%nat.
Proof.
  induction items as [|[raw o] rest IH]; intros w acc; cbv zeta.
  - cbn. split; [unfold Qof_nat; cbn; ring|]. split; [reflexivity|].
    split; [auto|lia].
  - cbn [gemini_items gemini_replies flat_map fst snd].
    fold (gemini_replies rest).
    destruct (gemini_reply o) as [e|].
    + match goal with
      | |- context [gemini_items rest ?w1 ?acc1] =>
          destruct (IH w1 acc1) as (I1 & I2 & I3 & I4)
      end.
      split; [|split; [|split]].
      * rewrite I1. unfold update_daily_spend. cbn [model_spend with_spend gemini add_gemini].
        cbn [app length]. unfold Qof_nat.
        rewrite Nat2Z.inj_succ, <- Z.add_1_r, inject_Z_plus.
        change (inject_Z 1) with 1%Q. ring.
      * intro k. rewrite I2. cbn [app rev]. rewrite <- app_assoc. cbn [app].
        rewrite !results_get_app. destruct (results_get k (rev (gemini_replies rest)));
          [reflexivity|].
        rewrite results_get_set. reflexivity.
      * intro Hn. apply I3. apply results_set_nodup. exact Hn.
      * cbn [app length]. pose proof (results_set_length (source_id raw) e acc). lia.
    + cbn [app]. apply IH.
Qed.

(** X21.  With a model configured, [call_gemini_batch] charges 0.01 per
    reply it could parse (also when two items share a source id), keeps
    for each source id the last such reply, and touches neither the
    gpt5, perplexity and anthropic counters nor the store; without a
    model it returns no result and charges nothing. *)
Theorem gemini_accounting cfg items w :
  let out := call_gemini_batch cfg items w in
  if gemini_model cfg
  then
    (gemini (model_spend (fst out))
     == gemini (model_spend w) + 0.01 * Qof_nat (length (gemini_replies items)))%Q
    /\ (forall k, results_get k (snd out)
                  = results_get k (rev (gemini_replies items)))
    /\ NoDup (map fst (snd out))
    /\ (length (snd out) <= length (gemini_replies items))%nat
    /\ gpt5 (model_spend (fst out)) = gpt5 (model_spend w)
    /\ perplexity (model_spend (fst out)) = perplexity (model_spend w)
    /\ anthropic (model_spend (fst out)) = anthropic (model_spend w)
    /\ production_portal_listings (fst out) = production_portal_listings w
    /\ next_row_id (fst out) = next_row_id w
    /\ listing_embeddings (fst out) = listing_embeddings w
    /\ trusted_listings (fst out) = trusted_listings w
  else out = (w, []).
Proof.
  cbv zeta. unfold call_gemini_batch.
  destruct (gemini_model cfg); cbn [negb orb]; [|reflexivity].
  destruct items as [|i items]; cbn [is_empty].
  - cbn. repeat split; try constructor. unfold Qof_nat. cbn. ring.
  - destruct (gemini_items_results (i :: items) w []) as (I1 & I2 & I3 & I4).
    pose proof (gemini_items_frame (i :: items) w []) as F.
    split; [exact I1|]. split; [intro k; rewrite I2, app_nil_r; reflexivity|].
    split; [apply I3; constructor|]. split; [cbn [length] in I4; lia|].
    destruct F as (F1 & F2 & F3 & F4 & F5 & F6 & F7 & F8 & F9).
    repeat split; assumption.
Qed.


(** ** Escalation, the gate and the anomaly budget *)



Lemma update_where_core id f rows :
  touches_status_only f ->
  map row_core (update_where id f rows) = map row_core rows.
Proof.
  intro Hf. unfold update_where. rewrite map_map. apply map_ext. intro r.
  destruct (Z.eqb (row_id r) id); [|reflexivity].
  destruct (Hf r) as (A & B & C & D). unfold row_core. rewrite A, B, C, D.
  reflexivity.
Qed.

Lemma reload_core id n0 c0 w w' :
  map row_core (production_portal_listings w')
  = map row_core (production_portal_listings w) ->
  reload id n0 c0 w' = reload id n0 c0 w.
Proof.
  unfold reload, select_row.
  generalize (production_portal_listings w) as rows.
  induction (production_portal_listings w') as [|r' rows' IH];
    intros [|r rows] H; try discriminate; [reflexivity|].
  cbn [map] in H.
  assert (Hh : row_core r' = row_core r) by congruence.
  assert (Ht : map row_core rows' = map row_core rows) by congruence.
  pose proof (f_equal (fun x => fst (fst (fst x))) Hh) as Hid.
  pose proof (f_equal (fun x => snd (fst x)) Hh) as Hn.
  pose proof (f_equal snd Hh) as Hc.
  cbn in Hid, Hn, Hc. cbn [find]. rewrite Hid.
  destruct (Z.eqb (row_id r) id); [rewrite Hn, Hc; reflexivity|].
  apply IH. exact Ht.
Qed.

Lemma process_listing_gate cfg b id raw n0 c0 o :
  let b' := fst (process_listing cfg b (id, raw, n0, c0) o) in
  needs_human b'
  = needs_human b
    ++ (if missing_critical (fst (reload id n0 c0 (the_world b)))
        then [id] else [])
  /\ map row_core (production_portal_listings (the_world b'))
     = map row_core (production_portal_listings (the_world b)).
Proof.
  cbv zeta. split.
  - destruct (reload id n0 c0 (the_world b)) as [n c] eqn:Hr. cbn [fst].
    destruct (missing_critical n) eqn:Hg.
    + rewrite process_listing_gated by (rewrite Hr; exact Hg). reflexivity.
    + destruct (assess cfg o id n c (the_world b)) as [[w1 t] sim] eqn:Ha.
      destruct (process_listing_passed cfg b id raw n0 c0 o n c w1 t sim Hr Hg Ha)
        as (w2 & d & _ & ->).
      cbn [fst]. rewrite app_nil_r.
      apply (settle_outcome cfg o b id raw n t d w2).
  - destruct (process_listing_writes cfg b id raw n0 c0 o) as (f & Hf & _ & _ & ->).
    apply update_where_core. exact Hf.
Qed.

(** X23.  The listings the loop marks [needs_human] are, in order, those
    entries of [saved_mappings] whose record as stored when the loop
    starts (or, without a row, as carried by the entry) fails the QA
    gate: no iteration changes what a later one reloads. *)
Theorem gate_reads_stored_record cfg ms : forall b,
  needs_human (fst (postprocess cfg b ms))
  = needs_human b
    ++ map mapping_id
         (filter (fun mo => missing_critical (reloaded (the_world b) mo)) ms).
Proof.
  induction ms as [|[[[[id raw] n0] c0] o] ms IH]; intro b; cbn [postprocess].
  - cbn. rewrite app_nil_r. reflexivity.
  - pose proof (process_listing_never_raises cfg b (id, raw, n0, c0) o) as Hn.
    destruct (process_listing_gate cfg b id raw n0 c0 o) as [H1 H2].
    destruct (process_listing cfg b (id, raw, n0, c0) o) as [b' e].
    cbn [fst snd] in *. subst e. rewrite IH, H1, <- app_assoc. f_equal.
    cbn [filter]. unfold reloaded at 2.
    cbn [mapping_id mapping_normalized fst snd].
    replace (filter (fun mo => missing_critical (reloaded (the_world b') mo)) ms)
      with (filter (fun mo => missing_critical (reloaded (the_world b) mo)) ms).
    + destruct (missing_critical (fst (reload id n0 c0 (the_world b))));
        reflexivity.
    + apply filter_ext. intro mo. unfold reloaded.
      rewrite (reload_core _ _ _ (the_world b) (the_world b') H2). reflexivity.
Qed.

Lemma call_perplexity_check_step cfg o w :
  let w' := fst (call_perplexity_check cfg o w) in
  let s := perplexity (model_spend w) in
  let s' := perplexity (model_spend w') in
  ((DAILY_PERPLEXITY_BUDGET cfg <= s)%Q ->
   s' = s /\ snd (call_perplexity_check cfg o w) = false)
  /\ ((s < DAILY_PERPLEXITY_BUDGET cfg)%Q -> s' = s \/ s' = (s + 0.03)%Q)
  /\ gpt5 (model_spend w') = gpt5 (model_spend w)
  /\ gemini (model_spend w') = gemini (model_spend w)
  /\ anthropic (model_spend w') = anthropic (model_spend w).
Proof.
  cbv zeta. unfold call_perplexity_check, update_daily_spend, Qgeb.
  cbn [invoke model_spend].
  destruct (Qle_bool (DAILY_PERPLEXITY_BUDGET cfg) (perplexity (model_spend w)))
    eqn:E.
  - cbn. repeat split; auto.
  - assert (~ (DAILY_PERPLEXITY_BUDGET cfg <= perplexity (model_spend w))%Q).
    { intro L. apply Qle_bool_iff in L. congruence. }
    destruct (perplexity_reply o); cbn;
      (split; [intro; contradiction|]); (split; [intros _; auto|auto]).
Qed.

(** X24.  Over any run of calls to [call_perplexity_check], whatever the
    replies, the perplexity counter never decreases, stays at or below
    the larger of its starting value and the cap plus one call's cost,
    grows by at most 0.03 per call, and does not move once it has
    reached the cap. *)
Theorem perplexity_budget_bound cfg replies : forall w,
  let s := perplexity (model_spend w) in
  let s' := perplexity (model_spend (perplexity_calls cfg replies w)) in
  (s <= s')%Q
  /\ (s' <= Qmax s (DAILY_PERPLEXITY_BUDGET cfg + 0.03))%Q
  /\ ((DAILY_PERPLEXITY_BUDGET cfg <= s)%Q -> s' = s)
  /\ (s' <= s + 0.03 * Qof_nat (length replies))%Q.
Proof.
  induction replies as [|o os IH]; intro w; cbv zeta.
  - cbn [perplexity_calls fold_left length]. unfold Qof_nat. cbn [Z.of_nat].
    split; [apply Qle_refl|]. split; [apply Q.le_max_l|].
    split; [reflexivity|]. change (inject_Z 0) with 0%Q. lra.
  - change (perplexity_calls cfg (o :: os) w)
      with (perplexity_calls cfg os (fst (call_perplexity_check cfg o w))).
    destruct (call_perplexity_check_step cfg o w) as (Hcap & Hbelow & _).
    destruct (IH (fst (call_perplexity_check cfg o w))) as (I1 & I2 & I3 & I4).
    cbv zeta in *.
    set (w1 := fst (call_perplexity_check cfg o w)) in *.
    set (s := perplexity (model_spend w)) in *.
    set (s1 := perplexity (model_spend w1)) in *.
    set (s' := perplexity (model_spend (perplexity_calls cfg os w1))) in *.
    set (B := DAILY_PERPLEXITY_BUDGET cfg) in *.
    assert (Hlen : (Qof_nat (length (o :: os)) == Qof_nat (length os) + 1)%Q).
    { unfold Qof_nat. cbn [length]. rewrite Nat2Z.inj_succ, <- Z.add_1_r.
      rewrite inject_Z_plus. reflexivity. }
    rewrite Hlen.
    destruct (Qlt_le_dec s B) as [Hlt|Hge].
    + assert (Hs1 : (s <= s1 /\ s1 <= s + 0.03)%Q).
      { destruct (Hbelow Hlt) as [E|E]; rewrite E; split; lra. }
      destruct Hs1 as [L1 L2].
      split; [lra|]. split; [|split; [intro; lra|lra]].
      eapply Qle_trans; [exact I2|]. apply Q.max_lub.
      * eapply Qle_trans; [|apply Q.le_max_r]. lra.
      * apply Q.le_max_r.
    + destruct (Hcap Hge) as [E _].
      assert (Hge1 : (B <= s1)%Q) by (rewrite E; exact Hge).
      pose proof (I3 Hge1) as E'.
      split; [rewrite E', E; apply Qle_refl|].
      split; [rewrite E', E; apply Q.le_max_l|].
      split; [intros _; rewrite E', E; reflexivity|].
      rewrite E', E.
      assert (0 <= Qof_nat (length os))%Q.
      { unfold Qof_nat. change 0%Q with (inject_Z 0). rewrite <- Zle_Qle. lia. }
      nra.
Qed.


(** ** The spend ledger *)

Section LedgerFacts.
Import Ledger.

Lemma same_day_key d m r : same_day d m r = true <-> ledger_key r = (d, m).
Proof.
  unfold same_day, ledger_key. rewrite andb_true_iff, !ustring_eqb_eq.
  split; [intros [-> ->]; reflexivity|intro E; inversion E; auto].
Qed.

Lemma same_day_other d m d' m' r :
  (d', m') <> (d, m) -> same_day d m r = true -> same_day d' m' r = false.
Proof.
  intros Hne H. apply same_day_key in H.
  destruct (same_day d' m' r) eqn:E; [|reflexivity].
  apply same_day_key in E. congruence.
Qed.

Lemma do_update_spec d m a table :
  match do_update d m a table with
  | Some table' =>
      (exists r, find (same_day d m) table = Some r
                 /\ exists r', find (same_day d m) table' = Some r'
                               /\ spend_usd r' = (spend_usd r + a)%Q)
      /\ map ledger_key table' = map ledger_key table
      /\ (forall d' m', (d', m') <> (d, m) ->
            find (same_day d' m') table' = find (same_day d' m') table)
  | None => find (same_day d m) table = None
  end.
Proof.
  induction table as [|r rs IH]; [reflexivity|].
  cbn [do_update find]. destruct (same_day d m r) eqn:E.
  - split; [|split].
    + exists r. split; [reflexivity|]. eexists. cbn [find].
      unfold same_day in *. cbn [date model]. rewrite E. split; reflexivity.
    + reflexivity.
    + intros d' m' Hne. cbn [find]. pose proof (same_day_other _ _ _ _ _ Hne E) as F.
      unfold same_day in *. cbn [date model]. rewrite F. reflexivity.
  - destruct (do_update d m a rs) as [rs'|]; [|exact IH].
    destruct IH as ((r0 & F0 & r1 & F1 & S1) & K & O).
    split; [|split].
    + exists r0. split; [exact F0|]. exists r1. cbn [find]. rewrite E. auto.
    + cbn [map]. rewrite K. reflexivity.
    + intros d' m' Hne. cbn [find]. rewrite (O d' m' Hne). reflexivity.
Qed.

Lemma find_same_day_none d m table :
  find (same_day d m) table = None -> ~ In (d, m) (map ledger_key table).
Proof.
  intros H Hin. apply in_map_iff in Hin. destruct Hin as [r [E Hr]].
  apply same_day_key in E. pose proof (find_none _ _ H r Hr). congruence.
Qed.

Lemma find_snoc_other d m d' m' a table :
  (d', m') <> (d, m) ->
  find (same_day d' m') (table ++ [{| date := d; model := m; spend_usd := a |}])
  = find (same_day d' m') table.
Proof.
  intro Hne. induction table as [|r rs IH]; cbn [app find].
  - destruct (same_day d' m' _) eqn:E; [|reflexivity].
    apply same_day_key in E. unfold ledger_key in E. cbn in E. congruence.
  - destruct (same_day d' m' r); [reflexivity|exact IH].
Qed.

Lemma find_snoc_new d m a table :
  find (same_day d m) table = None ->
  find (same_day d m) (table ++ [{| date := d; model := m; spend_usd := a |}])
  = Some {| date := d; model := m; spend_usd := a |}.
Proof.
  induction table as [|r rs IH]; cbn [app find]; intro H.
  - unfold same_day. cbn [date model]. rewrite !ustring_eqb_refl. reflexivity.
  - destruct (same_day d m r); [discriminate|]. apply IH. exact H.
Qed.

(** X25.  Reading a key of the ledger after [update_daily_spend] gives the
    old amount plus the amount added (a key read as 0.0 before it is
    first written); other keys read as before; the key stays unique;
    and without a connection nothing is written and every key reads as
    0.0. *)
Theorem ledger_round_trip conn d m a :
  unique_days conn ->
  let conn' := update_daily_spend conn d m a in
  match conn with
  | None => conn' = None /\ get_daily_spend conn d m = 0%Q
  | Some table =>
      (get_daily_spend conn' d m == get_daily_spend conn d m + a)%Q
      /\ (forall d' m', (d', m') <> (d, m) ->
            get_daily_spend conn' d' m' = get_daily_spend conn d' m')
      /\ unique_days conn'
      /\ exists table',
           conn' = Some table'
           /\ length table'
              = if existsb (same_day d m) table then length table
                else S (length table)
  end.
Proof.
  intro Hu. cbv zeta. destruct conn as [table|]; [|cbn; split; reflexivity].
  unfold update_daily_spend, get_daily_spend, unique_days in *.
  pose proof (do_update_spec d m a table) as H.
  destruct (do_update d m a table) as [table'|].
  - destruct H as ((r0 & F0 & r1 & F1 & S1) & K & O).
    split; [rewrite F0, F1, S1; reflexivity|].
    split; [intros d' m' Hne; rewrite (O d' m' Hne); reflexivity|].
    split; [rewrite K; exact Hu|].
    exists table'. split; [reflexivity|].
    assert (L : length table' = length table).
    { rewrite <- (length_map ledger_key table'), K. apply length_map. }
    destruct (existsb (same_day d m) table) eqn:E; [exact L|].
    exfalso. apply find_some in F0. destruct F0 as [Hin Hs].
    assert (existsb (same_day d m) table = true)
      by (apply existsb_exists; exists r0; auto).
    congruence.
  - split; [rewrite H, (find_snoc_new d m a table H); cbn; ring|].
    split; [intros d' m' Hne; rewrite (find_snoc_other d m d' m' a table Hne);
            reflexivity|].
    split.
    + rewrite map_app. cbn [map]. unfold ledger_key at 2. cbn [date model].
      apply NoDup_snoc; [exact Hu|]. exact (find_same_day_none d m table H).
    + eexists. split; [reflexivity|]. rewrite length_app. cbn [length].
      destruct (existsb (same_day d m) table) eqn:E; [|lia].
      exfalso. apply existsb_exists in E. destruct E as [r [Hr Hs]].
      pose proof (find_none _ _ H r Hr). congruence.
Qed.

End LedgerFacts.


(** [ledger_round_trip] on sample data. *)
Lemma ledger_round_trip_witness :
  let conn := Some [{| Ledger.date := may_1; Ledger.model := gpt5_name;
                       Ledger.spend_usd := 1 |}] in
  let conn' := Ledger.update_daily_spend conn may_1 gpt5_name 0.05 in
  (Ledger.get_daily_spend conn' may_1 gpt5_name
   == Ledger.get_daily_spend conn may_1 gpt5_name + 0.05)%Q
  /\ (forall d' m', (d', m') <> (may_1, gpt5_name) ->
        Ledger.get_daily_spend conn' d' m' = Ledger.get_daily_spend conn d' m')
  /\ Ledger.unique_days conn'
  /\ exists table', conn' = Some table' /\ length table' = 1%nat.
Proof.
  refine (ledger_round_trip
            (Some [{| Ledger.date := may_1; Ledger.model := gpt5_name;
                      Ledger.spend_usd := 1 |}]) may_1 gpt5_name 0.05 _).
  constructor; [intros []|constructor].
Defined.

(** ** Scraping *)

Section ScraperFacts.

Variable py_hash : ustring -> Z.
Variable scrape_url : ustring -> option scrape_result.
Variable str_isdigit : codepoint -> bool.
Variable decimal_value : codepoint -> option N.

Lemma scrape_portals_spec portals : forall acc,
  let out := scrape_portals py_hash scrape_url portals acc in
  (forall raw, In raw out ->
      In raw acc
      \/ (In (source raw) portals /\ from_page py_hash scrape_url raw /\ bare raw
          /\ normalize_item str_isdigit decimal_value raw
             = normalize_item str_isdigit decimal_value
                 (only_extracted (extracted_fields raw))))
  /\ map source out
     = map source acc
       ++ flat_map (fun p => repeat p (page_size scrape_url p)) portals.
Proof.
  induction portals as [|p rest IH]; intro acc; cbv zeta; cbn [scrape_portals].
  - split; [auto|]. cbn. rewrite app_nil_r. reflexivity.
  - cbn [flat_map]. unfold page_size at 1.
    destruct (scrape_url p) as [result|] eqn:E.
    + destruct (IH (acc ++ map (scraped_item py_hash p result)
                                (extract_listings result))) as [I1 I2].
      split.
      * intros raw Hin. destruct (I1 raw Hin) as [Ha|[Hs Hf]].
        -- apply in_app_or in Ha. destruct Ha as [Ha|Ha]; [left; exact Ha|].
           right. apply in_map_iff in Ha. destruct Ha as [l [<- Hl]].
           cbn [source scraped_item]. split; [left; reflexivity|].
           split; [exists result, l; cbn; auto|].
           split; [repeat split|reflexivity].
        -- right. split; [right; exact Hs|exact Hf].
      * rewrite I2, map_app, map_map. cbn [source scraped_item].
        rewrite <- app_assoc. f_equal. f_equal.
        clear. induction (extract_listings result) as [|l ls IHl];
          [reflexivity|]. cbn [map length repeat]. rewrite IHl. reflexivity.
    + destruct (IH acc) as [I1 I2]. split.
      * intros raw Hin. destruct (I1 raw Hin) as [Ha|[Hs Hf]]; [left; exact Ha|].
        right. split; [right; exact Hs|exact Hf].
      * rewrite I2. reflexivity.
Qed.

(** X26.  Without a client nothing is scraped.  Otherwise every item comes
    from a listing of the page of one of the four portals, with that
    page's markdown, the portal's name and the hash of the listing in
    its source id, and no field beside the extracted ones, so that
    normalizing it reads the extracted fields only; the items follow
    the order of the portals, a portal whose scrape failed giving
    none. *)
Theorem scraped_items (firecrawl_client : bool) :
  let items := call_firecrawl_api py_hash scrape_url firecrawl_client in
  if firecrawl_client
  then
    Forall (fun raw =>
              In (source raw) portal_urls /\ from_page py_hash scrape_url raw /\ bare raw
              /\ normalize_item str_isdigit decimal_value raw
                 = normalize_item str_isdigit decimal_value
                     (only_extracted (extracted_fields raw))) items
    /\ map source items
       = flat_map (fun p => repeat p (page_size scrape_url p)) portal_urls
  else items = [].
Proof.
  cbv zeta. unfold call_firecrawl_api.
  destruct firecrawl_client; cbn [negb]; [|reflexivity].
  destruct (scrape_portals_spec portal_urls []) as [I1 I2]. cbv zeta in I1, I2.
  split; [|exact I2].
  apply Forall_forall. intros raw Hin.
  destruct (I1 raw Hin) as [[]|[Hs [Hf [Hb Hn]]]]. auto.
Qed.

End ScraperFacts.

(** ** Re-ingestion *)

Lemma Forall2_impl_in {A B} (P Q : A -> B -> Prop) (l : list A) (l' : list B) :
  (forall a b, In a l -> P a b -> Q a b) -> Forall2 P l l' -> Forall2 Q l l'.
Proof.
  intros H F. induction F as [|a b l l' Hab F IH]; constructor.
  - apply H; [left; reflexivity|exact Hab].
  - apply IH. intros x y Hx. apply H. right. exact Hx.
Qed.

Lemma Forall2_same {A} (P : A -> A -> Prop) (l : list A) :
  (forall a, In a l -> P a a) -> Forall2 P l l.
Proof.
  induction l as [|a l IH]; intro H; constructor.
  - apply H. left. reflexivity.
  - apply IH. intros x Hx. apply H. right. exact Hx.
Qed.

(** The conflict arm rewrites the rows that hold the key and no other;
    under the unique constraint that is one row. *)
Lemma on_conflict_rows src sid ts n raw c rows : forall i rows',
  NoDup (map identity_key rows) ->
  on_conflict src sid ts n raw c rows = Some (i, rows') ->
  Forall2 (fun r r' => if same_identity src sid ts r
                       then r' = overwrite n raw c r else r' = r) rows rows'.
Proof.
  induction rows as [|r rs IH]; intros i rows' Hn; cbn [on_conflict];
    [discriminate|].
  cbn [map] in Hn. inversion Hn as [|k ks Hnot Hn']; subst.
  destruct (same_identity src sid ts r) eqn:E.
  - intro H. injection H as <- <-. constructor; [rewrite E; reflexivity|].
    apply Forall2_same. intros a Ha.
    destruct (same_identity src sid ts a) eqn:Ea; [|reflexivity].
    exfalso. apply Hnot. apply same_identity_key in E, Ea.
    rewrite E, <- Ea. apply in_map. exact Ha.
  - destruct (on_conflict src sid ts n raw c rs) as [[j rs']|] eqn:Ec;
      [|discriminate].
    intro H. injection H as <- <-. constructor; [rewrite E; reflexivity|].
    apply (IH j rs' Hn' eq_refl).
Qed.

Section Reingestion.

Variable str_isdigit : codepoint -> bool.
Variable decimal_value : codepoint -> option N.

Lemma save_again w raw n c raw' n' c' ts :
  well_keyed w ->
  source raw' = source raw -> source_id raw' = source_id raw ->
  let first := save_cached_listing w raw n c ts in
  let second := save_cached_listing (fst first) raw' n' c' ts in
  snd second = snd first
  /\ Forall2 (saved_again (snd first) n' raw' c')
       (production_portal_listings (fst first))
       (production_portal_listings (fst second))
  /\ next_row_id (fst second) = next_row_id (fst first).
Proof.
  intros Hw Hs Hid. cbv zeta.
  pose proof (save_cached_listing_well_keyed w raw n c ts Hw) as (Hids & Hkeys & _).
  destruct (save_cached_listing_index w raw n c ts) as [_ Hin].
  destruct (save_cached_listing w raw n c ts) as [w1 i1]. cbn [fst snd] in *.
  unfold row_index in Hin. apply in_map_iff in Hin.
  destruct Hin as (r1 & E1 & R1). apply pair_equal_spec in E1.
  destruct E1 as [Ei1 Ek1].
  unfold save_cached_listing. rewrite Hs, Hid.
  destruct (on_conflict (source raw) (source_id raw) ts n' raw' c'
              (production_portal_listings w1)) as [[i rows']|] eqn:E.
  - cbn [fst snd production_portal_listings next_row_id with_listings].
    destruct (on_conflict_index _ _ _ _ _ _ _ _ _ E) as [_ Hi].
    apply in_map_iff in Hi. destruct Hi as (r & Er & Rr).
    apply pair_equal_spec in Er. destruct Er as [Eri Erk].
    assert (r = r1).
    { apply (NoDup_map_eq identity_key _ r r1 Hkeys Rr R1). congruence. }
    subst r. split; [congruence|]. split; [|reflexivity].
    eapply Forall2_impl_in; [|exact (on_conflict_rows _ _ _ _ _ _ _ _ _ Hkeys E)].
    intros a b Ha Hab. cbv beta in Hab. unfold saved_again.
    destruct (same_identity (source raw) (source_id raw) ts a) eqn:Ea.
    + assert (a = r1).
      { apply (NoDup_map_eq identity_key _ a r1 Hkeys Ha R1).
        apply same_identity_key in Ea. congruence. }
      subst a b.
      replace (Z.eqb (row_id r1) i1) with true
        by (symmetry; apply Z.eqb_eq; exact Ei1).
      repeat split; reflexivity.
    + destruct (Z.eqb (row_id a) i1) eqn:Eid; [|exact Hab].
      exfalso. apply Z.eqb_eq in Eid.
      assert (a = r1)
        by (apply (NoDup_map_eq row_id _ a r1 Hids Ha R1); congruence).
      subst a. apply same_identity_key in Ek1. congruence.
  - exfalso. apply on_conflict_none in E.
    assert (H : In r1 (filter (same_identity (source raw) (source_id raw) ts)
                         (production_portal_listings w1))).
    { apply filter_In. split; [exact R1|]. apply same_identity_key. exact Ek1. }
    rewrite E in H. destruct H.
Qed.

(** C8, as amended.  On a table that satisfies its key constraints,
    saving a raw listing again under the same source, source id and
    batch timestamp returns the same id and rewrites the row in place:
    its record, raw item and confidence become the newly saved ones,
    its id, key, status and trust score stay, every other row and the
    id counter are untouched, so no row is added; when the same values
    are saved the table is unchanged.  Running the batch again on the
    same raw listings and timestamp, whatever the providers then
    answer, adds no row and keeps every row's key. *)
Theorem reingestion_is_idempotent w raw n c raw' n' c' ts :
  well_keyed w ->
  source raw' = source raw -> source_id raw' = source_id raw ->
  let first := save_cached_listing w raw n c ts in
  let second := save_cached_listing (fst first) raw' n' c' ts in
  (snd second = snd first
   /\ Forall2 (saved_again (snd first) n' raw' c')
        (production_portal_listings (fst first))
        (production_portal_listings (fst second))
   /\ length (production_portal_listings (fst second))
      = length (production_portal_listings (fst first))
   /\ next_row_id (fst second) = next_row_id (fst first)
   /\ production_portal_listings
        (fst (save_cached_listing (fst first) raw n c ts))
      = production_portal_listings (fst first))
  /\ forall cfg cfg' raw_items raw_items',
       map fst raw_items' = map fst raw_items ->
       let run1 := fst (process_ingest_batch str_isdigit decimal_value cfg ts
                          raw_items w) in
       let run2 := fst (process_ingest_batch str_isdigit decimal_value cfg' ts
                          raw_items' (the_world run1)) in
       keys (the_world run2) = keys (the_world run1)
       /\ length (production_portal_listings (the_world run2))
          = length (production_portal_listings (the_world run1)).
Proof.
  intros Hw Hs Hid. cbv zeta.
  destruct (save_again w raw n c raw' n' c' ts Hw Hs Hid) as (A & B & C).
  cbv zeta in A, B, C. split.
  - split; [exact A|]. split; [exact B|].
    split; [symmetry; exact (Forall2_length B)|]. split; [exact C|].
    apply (save_twice w raw n c ts).
  - intros cfg cfg' raw_items raw_items' Hsame.
    pose proof (rerun_keys str_isdigit decimal_value cfg cfg' ts raw_items
                  raw_items' w Hsame) as H.
    cbv zeta in H. split; [exact H|].
    unfold keys in H. apply (f_equal (@length _)) in H.
    rewrite !length_map in H. exact H.
Qed.

End Reingestion.

(** [reingestion_is_idempotent] on a held key: the listing saved with
    a price is saved again without one. *)
Lemma reingestion_witness :
  let w := world_with cheap_listing 0.9 0 in
  let first := save_cached_listing w (scraped (SStr price_100) [img_a])
                 cheap_listing 0.9 ts_0600 in
  let second := save_cached_listing (fst first) (scraped SNone [])
                  (listing None []) 0.2 ts_0600 in
  snd second = snd first
  /\ Forall2 (saved_again (snd first) (listing None []) (scraped SNone []) 0.2)
       (production_portal_listings (fst first))
       (production_portal_listings (fst second))
  /\ length (production_portal_listings (fst second))
     = length (production_portal_listings (fst first))
  /\ next_row_id (fst second) = next_row_id (fst first)
  /\ production_portal_listings
       (fst (save_cached_listing (fst first) (scraped (SStr price_100) [img_a])
               cheap_listing 0.9 ts_0600))
     = production_portal_listings (fst first).
Proof.
  refine (proj1 (reingestion_is_idempotent sample_isdigit sample_decimal_value
            (world_with cheap_listing 0.9 0)
            (scraped (SStr price_100) [img_a]) cheap_listing 0.9
            (scraped SNone []) (listing None []) 0.2 ts_0600 _ _ _)).
  - split; [|split].
    + constructor; [intros []|constructor].
    + constructor; [intros []|constructor].
    + constructor; [reflexivity|constructor].
  - reflexivity.
  - reflexivity.
Defined.

(** C8 as stated fails.  The same raw listing is run through the
    pipeline twice under the same timestamp; the second time the
    validation provider is not configured.  No row is added, but the
    persisted record is not the same: the loop has written the trust
    score anew. *)
Lemma rerun_rewrites_trust_score :
  let items := [(scraped (SStr rupees_4_50_000) [img_a], all_succeed)] in
  let run1 := fst (process_ingest_batch sample_isdigit sample_decimal_value
                     (default_config true true true) ts_0600 items empty_world) in
  let run2 := fst (process_ingest_batch sample_isdigit sample_decimal_value
                     (default_config true false true) ts_0600 items
                     (the_world run1)) in
  option_map row_trust_score (select_row 1 (the_world run1)) = Some (Some 0.9%Q)
  /\ option_map row_trust_score (select_row 1 (the_world run2)) = Some (Some 0.8%Q)
  /\ length (production_portal_listings (the_world run2)) = 1%nat
  /\ production_portal_listings (the_world run2)
     <> production_portal_listings (the_world run1).
Proof.
  cbv zeta. split; [vm_compute; reflexivity|]. split; [vm_compute; reflexivity|].
  split; [vm_compute; reflexivity|].
  intro H. apply (f_equal (map row_trust_score)) in H. vm_compute in H.
  discriminate.
Qed.
